(** * The agent runtime of claude_code_python: file-mutation guard,
      conversation loop and parallel fan-out

    A shallow embedding of
      - tools/edit_tool.py, tools/write_tool.py, tools/read_tool.py
        (the read-timestamp ledger and the checks made before a file is
        changed),
      - services/openai_client.py (the bounded tool-calling loop with
        its rate-limit retry),
      - services/executor.py and tools/agent_tool.py (fan-out, degraded
        results, synthesis), with the agent lookup of
        services/agent_manager.py,
      - main.py (the file tools of a session, which share the ledger)
        and utils/validation.py (the truncation of long output),
    followed by the properties the specification states about them and
    by further properties of the same code.

    Conventions.
      - Python [str] is [string]; a character is a byte, so a file is
        identified with its encoded text (the utf-8 / latin-1 fallback
        of [_read_file] is not visible at this level).
      - Paths follow [posixpath]; a path string names a node of the file
        system (no symbolic links, no normalisation: the tools perform
        none either).  Two spellings of one path are two names here, so
        what is said of the paths other than the target is said of
        paths in their one normal spelling ([os_path.canonical]).
      - Modification times and ledger entries are the floats returned by
        [os.path.getmtime]; the code only compares them and tests them
        for truth, so they are integers here (a fixed unit of time).
      - Python exceptions are values of [Exn]; a call that may raise
        returns [Ok v] or [Raise e]. *)

From Stdlib Require Import String Ascii ZArith List Bool Lia DecimalString.
From stdpp Require Import base option gmap strings list.

Local Open Scope string_scope.
Local Open Scope Z_scope.

(** ** Python string operations *)

Module PyStr.

Definition LF : ascii := "010"%char.
Definition CR : ascii := "013"%char.

(** [s.startswith(p)] *)
Fixpoint startswith (p s : string) : bool :=
  match p, s with
  | EmptyString, _ => true
  | String a p', String b s' => if Ascii.eqb a b then startswith p' s' else false
  | String _ _, EmptyString => false
  end.

(** [s.find(sub)]: index of the leftmost occurrence. *)
Fixpoint find (sub s : string) : option nat :=
  if startswith sub s then Some 0%nat
  else match s with
       | EmptyString => None
       | String _ s' => option_map S (find sub s')
       end.

(** [sub in s] *)
Definition contains (sub s : string) : bool :=
  match find sub s with Some _ => true | None => false end.

(** [s.count(sub)]: occurrences found by scanning left to right and
    resuming after the end of each match, so that counted matches do
    not overlap; [skip] is the number of characters of the last match
    that are still to be passed.  For the empty [sub] every position,
    the end included, counts. *)
Fixpoint count_from (sub s : string) (skip : nat) : nat :=
  match skip with
  | S k => match s with
           | EmptyString => 0
           | String _ s' => count_from sub s' k
           end
  | O => if startswith sub s
         then S (match s with
                 | EmptyString => 0
                 | String _ s' => count_from sub s' (String.length sub - 1)
                 end)
         else match s with
              | EmptyString => 0
              | String _ s' => count_from sub s' 0
              end
  end%nat.

Definition count (s sub : string) : nat := count_from sub s 0.

Fixpoint drop (n : nat) (s : string) : string :=
  match n, s with
  | O, _ => s
  | S k, String _ s' => drop k s'
  | S _, EmptyString => EmptyString
  end.

Fixpoint take (n : nat) (s : string) : string :=
  match n, s with
  | O, _ => EmptyString
  | S k, String a s' => String a (take k s')
  | S _, EmptyString => EmptyString
  end.

(** In the words of the specification: [sub] occurs in [s] at
    position [i].  (Not a translation of code: [count] is compared
    with it below.) *)
Definition occurs_at (sub s : string) (i : nat) : bool := startswith sub (drop i s).

(** [s.replace(old, new, 1)]: the leftmost occurrence only. *)
Fixpoint replace_first (s old new : string) : string :=
  if startswith old s then new ++ drop (String.length old) s
  else match s with
       | EmptyString => EmptyString
       | String a s' => String a (replace_first s' old new)
       end.

(** [s.endswith(suffix)] *)
Definition endswith (s suffix : string) : bool :=
  (String.length suffix <=? String.length s)%nat
  && String.eqb (drop (String.length s - String.length suffix) s) suffix.

(** [s.lower()] on the ASCII letters. *)
Definition lower_char (c : ascii) : ascii :=
  let n := nat_of_ascii c in
  if ((65 <=? n) && (n <=? 90))%nat then ascii_of_nat (n + 32) else c.

Fixpoint lower (s : string) : string :=
  match s with
  | EmptyString => EmptyString
  | String c s' => String (lower_char c) (lower s')
  end.

(** [s.rfind(c)] for a one-character [c], as the index after the match
    ([0] when there is none), which is how [posixpath] uses it. *)
Fixpoint rfind_end (c : ascii) (s : string) : nat :=
  match s with
  | EmptyString => 0
  | String a s' =>
      match rfind_end c s' with
      | O => if Ascii.eqb a c then 1 else 0
      | S k => S (S k)
      end
  end%nat.

(** [s.rstrip(c)] *)
Fixpoint rstrip (c : ascii) (s : string) : string :=
  match s with
  | EmptyString => EmptyString
  | String a s' =>
      match rstrip c s' with
      | EmptyString => if Ascii.eqb a c then EmptyString else String a EmptyString
      | r => String a r
      end
  end.

(** Truth value of a string: [if s:]. *)
Definition truthy (s : string) : bool :=
  match s with EmptyString => false | _ => true end.

(** [str(n)] for an integer. *)
Definition of_nat (n : nat) : string := NilZero.string_of_uint (Nat.to_uint n).
Definition of_Z (z : Z) : string := NilZero.string_of_int (Z.to_int z).

(** Text-mode input ([open(path, 'r')], [newline=None]): every
    ["\r\n"] and every lone ["\r"] is delivered as ["\n"]. *)
Fixpoint universal_newlines (s : string) : string :=
  match s with
  | EmptyString => EmptyString
  | String c s' =>
      if Ascii.eqb c CR then
        match s' with
        | String d s'' =>
            if Ascii.eqb d LF then String LF (universal_newlines s'')
            else String LF (universal_newlines s')
        | EmptyString => String LF EmptyString
        end
      else String c (universal_newlines s')
  end.

(** No carriage return in the text. *)
Fixpoint no_cr (s : string) : bool :=
  match s with
  | EmptyString => true
  | String c s' => negb (Ascii.eqb c CR) && no_cr s'
  end.

(** [f.readlines()] on text already delivered: the lines, each with
    its terminating ["\n"] (the last one may lack it). *)
Fixpoint readlines_from (cur : string) (s : string) : list string :=
  match s with
  | EmptyString => match cur with EmptyString => [] | _ => [cur] end
  | String c s' =>
      if Ascii.eqb c LF then (cur ++ String c EmptyString) :: readlines_from EmptyString s'
      else readlines_from (cur ++ String c EmptyString) s'
  end.

Definition readlines (s : string) : list string := readlines_from EmptyString s.

(** No line break in the text. *)
Fixpoint no_lf (s : string) : bool :=
  match s with
  | EmptyString => true
  | String c s' => negb (Ascii.eqb c LF) && no_lf s'
  end.

(** A line as [readlines] delivers it: not empty, and with no line
    break before its last character; and a line that ends in a line
    break. *)
Fixpoint is_line (x : string) : bool :=
  match x with
  | EmptyString => false
  | String c EmptyString => true
  | String c rest => negb (Ascii.eqb c LF) && is_line rest
  end.

Fixpoint ends_with_lf (x : string) : bool :=
  match x with
  | EmptyString => false
  | String c EmptyString => Ascii.eqb c LF
  | String c rest => ends_with_lf rest
  end.

(** Lines of which each but the last ends in a line break. *)
Fixpoint are_lines (l : list string) : bool :=
  match l with
  | [] => true
  | x :: rest =>
      is_line x && match rest with [] => true | _ => ends_with_lf x end && are_lines rest
  end.

(** [''.join(lines)] *)
Definition join (lines : list string) : string :=
  fold_right String.append EmptyString lines.

(** [l[start:stop]] with Python's treatment of negative and
    out-of-range bounds. *)
Definition clamp_index (len i : Z) : Z :=
  if i <? 0 then Z.max 0 (len + i) else Z.min i len.

Definition slice {A} (l : list A) (start stop : Z) : list A :=
  let len := Z.of_nat (List.length l) in
  let a := clamp_index len start in
  let b := clamp_index len stop in
  List.firstn (Z.to_nat (b - a)) (List.skipn (Z.to_nat a) l).

Definition slice_from {A} (l : list A) (start : Z) : list A :=
  List.skipn (Z.to_nat (clamp_index (Z.of_nat (List.length l)) start)) l.

(** [s.replace(old, new)]: every match of the same left-to-right
    scan as [count]; the empty [old] matches before every character
    and at the end. *)
Fixpoint replace_all_from (s old new : string) (skip : nat) : string :=
  match skip with
  | S k => match s with
           | EmptyString => EmptyString
           | String _ s' => replace_all_from s' old new k
           end
  | O => if startswith old s
         then new ++ match s with
                     | EmptyString => EmptyString
                     | String a s' =>
                         match old with
                         | EmptyString => String a (replace_all_from s' old new 0)
                         | String _ _ => replace_all_from s' old new (String.length old - 1)
                         end
                     end
         else match s with
              | EmptyString => EmptyString
              | String a s' => String a (replace_all_from s' old new 0)
              end
  end%nat.

Definition replace_all (s old new : string) : string := replace_all_from s old new 0.

(** [s.split(c)] for a one-character separator. *)
Fixpoint split_from (c : ascii) (cur s : string) : list string :=
  match s with
  | EmptyString => [cur]
  | String a s' =>
      if Ascii.eqb a c then cur :: split_from c EmptyString s'
      else split_from c (cur ++ String a EmptyString) s'
  end.

Definition split (s : string) (c : ascii) : list string := split_from c EmptyString s.

(** [sep.join(parts)] *)
Fixpoint join_with (sep : string) (parts : list string) : string :=
  match parts with
  | [] => EmptyString
  | [x] => x
  | x :: rest => x ++ sep ++ join_with sep rest
  end.

End PyStr.


(** ** Exceptions and fallible calls *)

(** A Python exception: what [getattr(e, "status_code", None)] and
    [str(e)] give. *)
Record Exn := { status_code : option Z; message : string }.

Inductive result (A : Type) : Type :=
| Ok (a : A)
| Raise (e : Exn).
Arguments Ok {A} a.
Arguments Raise {A} e.

(** An [OSError] of the given description on the given path. *)
Definition os_error (what path : string) : Exn :=
  {| status_code := None; message := what ++ ": '" ++ path ++ "'" |}.

(** Library functions that the embedding leaves uninterpreted. *)
Class PyLib := {
  (** [base64.b64encode(data).decode('utf-8')] *)
  b64encode : string -> string;
  (** [f"{a / b:.<digits>f}"] *)
  fmt_fixed : nat -> Z -> Z -> string;
  (** [list(difflib.unified_diff(a.splitlines(keepends=True),
      b.splitlines(keepends=True), fromfile=p, tofile=p, lineterm=''))] *)
  unified_diff : string -> string -> string -> list string
}.

(** ** posixpath *)

Module os_path.

Definition isabs (p : string) : bool := PyStr.startswith "/" p.

(** [os.path.join(a, b)] *)
Definition join (a b : string) : string :=
  if PyStr.startswith "/" b then b
  else if negb (PyStr.truthy a) || PyStr.endswith a "/" then a ++ b
  else a ++ "/" ++ b.

(** [os.path.dirname(p)] *)
Definition dirname (p : string) : string :=
  let head := PyStr.take (PyStr.rfind_end "/" p) p in
  match PyStr.rstrip "/" head with
  | EmptyString => head
  | stripped => stripped
  end.

Fixpoint all_dots (s : string) : bool :=
  match s with
  | EmptyString => true
  | String c s' => Ascii.eqb c "." && all_dots s'
  end.

(** [os.path.splitext(p)[1]]: the extension starts at the last dot of
    the last component, unless that component consists of leading
    dots only up to there. *)
Definition splitext_ext (p : string) : string :=
  let sep_end := PyStr.rfind_end "/" p in
  let dot_end := PyStr.rfind_end "." p in
  if (sep_end <? dot_end)%nat
  then if all_dots (PyStr.take (dot_end - 1 - sep_end) (PyStr.drop sep_end p))
       then EmptyString
       else PyStr.drop (dot_end - 1) p
  else EmptyString.

(** An absolute path in its one normal spelling: [/], or
    [/c1/.../cn] with no component empty, [.] or [..].  Without links
    two such paths name the same node only if they are equal.  (Not a
    translation of code: the statements about other paths use it.) *)
Definition canonical (p : string) : bool :=
  match p with
  | String "/" EmptyString => true
  | String "/" rest =>
      forallb (fun c => PyStr.truthy c && negb (String.eqb c ".")
                        && negb (String.eqb c ".."))
              (PyStr.split rest "/")
  | _ => false
  end.

End os_path.


(** ** The file system *)

Record File := {
  content : string;      (* the stored text *)
  mtime : Z;             (* st_mtime *)
  readable : bool;       (* may this process open it for reading *)
  writable : bool        (* may this process open it for writing *)
}.

Record Dir := {
  dir_mtime : Z;         (* st_mtime *)
  dir_writable : bool    (* may this process make entries in it *)
}.

Inductive Node :=
| RegularFile (f : File)
| Directory (d : Dir).

Record World := {
  nodes : gmap string Node;
  cwd : string;          (* os.getcwd() *)
  clock : Z              (* the time a write stamps on a file *)
}.

(** The session's read-timestamp ledger, [read_file_timestamps]. *)
Abbreviation Ledger := (gmap string Z).

Module os.

(** [os.path.exists] *)
Definition path_exists (w : World) (p : string) : bool :=
  match nodes w !! p with Some _ => true | None => false end.

(** [os.path.isdir] *)
Definition isdir (w : World) (p : string) : bool :=
  match nodes w !! p with Some (Directory _) => true | _ => false end.

(** [os.path.getmtime] *)
Definition getmtime (w : World) (p : string) : result Z :=
  match nodes w !! p with
  | Some (RegularFile f) => Ok (mtime f)
  | Some (Directory d) => Ok (dir_mtime d)
  | None => Raise (os_error "[Errno 2] No such file or directory" p)
  end.

(** [os.path.getsize]; the tools never ask it of a directory. *)
Definition getsize (w : World) (p : string) : result Z :=
  match nodes w !! p with
  | Some (RegularFile f) => Ok (Z.of_nat (String.length (content f)))
  | Some (Directory _) => Ok 0
  | None => Raise (os_error "[Errno 2] No such file or directory" p)
  end.

(** [open(p, 'rb').read()] *)
Definition read_bytes (w : World) (p : string) : result string :=
  match nodes w !! p with
  | Some (RegularFile f) =>
      if readable f then Ok (content f)
      else Raise (os_error "[Errno 13] Permission denied" p)
  | Some (Directory _) => Raise (os_error "[Errno 21] Is a directory" p)
  | None => Raise (os_error "[Errno 2] No such file or directory" p)
  end.

(** [open(p, 'r', encoding=...).read()] *)
Definition read_text (w : World) (p : string) : result string :=
  match read_bytes w p with
  | Ok raw => Ok (PyStr.universal_newlines raw)
  | Raise e => Raise e
  end.

Definition set_node (w : World) (p : string) (n : Node) : World :=
  {| nodes := <[p := n]> (nodes w); cwd := cwd w; clock := clock w |}.

(** The file a write of [s] at [p] leaves: stamped with the clock;
    a new file is readable and writable, an existing one keeps its
    permissions (and was writable). *)
Definition written (w : World) (p s : string) : File :=
  {| content := s; mtime := clock w;
     readable := match nodes w !! p with
                 | Some (RegularFile f0) => readable f0
                 | _ => true
                 end;
     writable := true |}.

(** The directory that holds [p]: [os.path.dirname(p)], and the
    current directory for a path with no directory part. *)
Definition parent (p : string) : string :=
  let d := os_path.dirname p in
  if PyStr.truthy d then d else ".".

(** Making the entry [p], a file or a directory, where nothing is:
    the directory that holds it must be there and allow it. *)
Definition create (w : World) (p : string) (n : Node) : result World :=
  match nodes w !! parent p with
  | Some (Directory d) =>
      if dir_writable d then Ok (set_node w p n)
      else Raise (os_error "[Errno 13] Permission denied" p)
  | Some (RegularFile _) => Raise (os_error "[Errno 20] Not a directory" p)
  | None => Raise (os_error "[Errno 2] No such file or directory" p)
  end.

(** [open(p, 'w', encoding=...).write(s)] *)
Definition write_text (w : World) (p s : string) : result World :=
  match nodes w !! p with
  | Some (RegularFile f) =>
      if writable f
      then Ok (set_node w p (RegularFile (written w p s)))
      else Raise (os_error "[Errno 13] Permission denied" p)
  | Some (Directory _) => Raise (os_error "[Errno 21] Is a directory" p)
  | None => create w p (RegularFile (written w p s))
  end.

(** The directory [os.mkdir] makes. *)
Definition new_directory (w : World) : Node :=
  Directory {| dir_mtime := clock w; dir_writable := true |}.

(** [os.makedirs(d, exist_ok=True)]: nothing to do when [d] is a
    directory; otherwise the directories above [d] that are missing
    are made first, from the top, then [d] itself.  It fails when [d]
    or a path above it is a regular file, and when the first directory
    to make cannot be made.  [fuel] bounds the way up; the length of
    [d] is enough, since every step up but the last shortens the path
    (lemmas [makedirs_fuel] and [makedirs_eq] below). *)
Fixpoint makedirs_from (fuel : nat) (w : World) (d : string) : result World :=
  match nodes w !! d with
  | Some (Directory _) => Ok w
  | Some (RegularFile _) => Raise (os_error "[Errno 17] File exists" d)
  | None =>
      let above :=
        if path_exists w (parent d) then Ok w
        else match fuel with
             | S fuel' => makedirs_from fuel' w (parent d)
             | O => Ok w
             end in
      match above with
      | Raise e => Raise e
      | Ok w1 => create w1 d (new_directory w)
      end
  end.

Definition makedirs (w : World) (d : string) : result World :=
  makedirs_from (String.length d) w d.

End os.

(** [file_path if os.path.isabs(file_path) else
     os.path.join(os.getcwd(), file_path)] *)
Definition full_path (w : World) (file_path : string) : string :=
  if os_path.isabs file_path then file_path
  else os_path.join (cwd w) file_path.

(** ** tools/read_tool.py *)

Inductive ReadResult :=
| ReadFailure (error file_path : string)
| ReadImage (base64 media_type file_path : string)
| ReadText (file_path text : string) (line_count total_lines : nat) (start_line : Z).

Module ReadTool.
Section WithLib.
Context `{PyLib}.

(** [0.25 * 1024 * 1024] *)
Definition MAX_OUTPUT_SIZE : Z := 262144.

Definition IMAGE_EXTENSIONS : list string :=
  [".png"; ".jpg"; ".jpeg"; ".gif"; ".bmp"; ".webp"].

(** [3.75 * 1024 * 1024] *)
Definition MAX_IMAGE_SIZE : Z := 3932160.

Definition _is_image_file (file_path : string) : bool :=
  let ext := PyStr.lower (os_path.splitext_ext file_path) in
  existsb (String.eqb ext) IMAGE_EXTENSIONS.

(** Truth of an optional integer argument: [None] and [0] are false. *)
Definition given (o : option Z) : bool :=
  match o with Some n => negb (n =? 0) | None => false end.

Definition _read_text_file (w : World) (file_path : string) (offset limit : option Z)
  : result (string * nat * nat) :=
  match os.read_text w file_path with
  | Raise e => Raise e
  | Ok delivered =>
      let all_lines := PyStr.readlines delivered in
      let total_lines := List.length all_lines in
      let start_idx := match offset with
                       | Some o => if given offset then o - 1 else 0
                       | None => 0
                       end in
      let start_idx := Z.max 0 start_idx in
      let selected_lines :=
        match limit with
        | Some l => if given limit
                    then PyStr.slice all_lines start_idx (start_idx + l)
                    else PyStr.slice_from all_lines start_idx
        | None => PyStr.slice_from all_lines start_idx
        end in
      Ok (PyStr.join selected_lines, List.length selected_lines, total_lines)
  end.

Definition _read_image_file (w : World) (file_path : string) : result ReadResult :=
  match os.read_bytes w file_path with
  | Raise e => Raise e
  | Ok image_data =>
      let ext := PyStr.lower (os_path.splitext_ext file_path) in
      let media_type := if String.eqb ext ".jpg" then "image/jpeg"
                        else "image/" ++ PyStr.drop 1 ext in
      Ok (ReadImage (b64encode image_data) media_type file_path)
  end.

Definition failed_to_read (e : Exn) (file_path : string) : ReadResult :=
  ReadFailure ("Failed to read file: " ++ message e) file_path.

(** The ledger update both branches end with; [read_file_timestamps]
    may be [None]. *)
Definition record_read (w : World) (full_file_path : string)
    (read_file_timestamps : option Ledger) : result (option Ledger) :=
  match read_file_timestamps with
  | None => Ok None
  | Some ledger =>
      match os.getmtime w full_file_path with
      | Ok t => Ok (Some (<[full_file_path := t]> ledger))
      | Raise e => Raise e
      end
  end.

Definition execute (w : World) (file_path : string) (offset limit : option Z)
    (read_file_timestamps : option Ledger)
  : result ReadResult * option Ledger :=
  let full_file_path := full_path w file_path in
  if negb (os.path_exists w full_file_path) then
    (Ok (ReadFailure "File does not exist." file_path), read_file_timestamps)
  else if os.isdir w full_file_path then
    (Ok (ReadFailure "Path is a directory, not a file." file_path), read_file_timestamps)
  else
    match os.getsize w full_file_path with
    | Raise e => (Raise e, read_file_timestamps)
    | Ok file_size =>
        if _is_image_file full_file_path then
          if file_size >? MAX_IMAGE_SIZE then
            (Ok (ReadFailure ("Image file too large ("
                              ++ fmt_fixed 2 file_size (1024 * 1024)
                              ++ "MB). Maximum size is "
                              ++ fmt_fixed 2 MAX_IMAGE_SIZE (1024 * 1024) ++ "MB.")
                             file_path), read_file_timestamps)
          else
            match _read_image_file w full_file_path with
            | Raise e => (Ok (failed_to_read e file_path), read_file_timestamps)
            | Ok image =>
                match record_read w full_file_path read_file_timestamps with
                | Raise e => (Ok (failed_to_read e file_path), read_file_timestamps)
                | Ok ledger' => (Ok image, ledger')
                end
            end
        else if (file_size >? MAX_OUTPUT_SIZE) && negb (given offset) && negb (given limit) then
          (Ok (ReadFailure ("File too large (" ++ fmt_fixed 0 file_size 1024
                            ++ "KB). Maximum size is " ++ fmt_fixed 0 MAX_OUTPUT_SIZE 1024
                            ++ "KB. Use offset and limit parameters to read specific portions.")
                           file_path), read_file_timestamps)
        else
          match _read_text_file w full_file_path offset limit with
          | Raise e => (Ok (failed_to_read e file_path), read_file_timestamps)
          | Ok (text, line_count, total_lines) =>
              if Z.of_nat (String.length text) >? MAX_OUTPUT_SIZE then
                (Ok (ReadFailure ("File content too large ("
                                  ++ fmt_fixed 0 (Z.of_nat (String.length text)) 1024
                                  ++ "KB). Use offset and limit parameters to read specific portions.")
                                 file_path), read_file_timestamps)
              else
                match record_read w full_file_path read_file_timestamps with
                | Raise e => (Ok (failed_to_read e file_path), read_file_timestamps)
                | Ok ledger' =>
                    (Ok (ReadText file_path text line_count total_lines
                                  (if given offset then default 1 offset else 1)),
                     ledger')
                end
          end
    end.

End WithLib.
End ReadTool.

(** ** The guard's error messages (shared by the edit and write tools) *)

Module Msg.
Definition no_op : string :=
  "No changes to make: old_string and new_string are exactly the same.".
Definition already_exists : string :=
  "Cannot create new file - file already exists.".
Definition no_such_file : string := "File does not exist.".
Definition notebook : string :=
  "File is a Jupyter Notebook. Use a notebook edit tool instead.".
Definition unread : string :=
  "File has not been read yet. Read it first before writing to it.".
Definition stale : string :=
  "File has been modified since read, either by the user or by a linter. Read it again before attempting to write it.".
Definition cannot_access (e : Exn) : string := "Cannot access file: " ++ message e.
Definition cannot_read (e : Exn) : string := "Cannot read file: " ++ message e.
Definition cannot_read_existing (e : Exn) : string :=
  "Cannot read existing file: " ++ message e.
Definition cannot_create_directory (e : Exn) : string :=
  "Cannot create directory: " ++ message e.
Definition failed_to_write (e : Exn) : string := "Failed to write file: " ++ message e.
Definition not_found : string := "String to replace not found in file.".
Definition ambiguous (matches : nat) : string :=
  "Found " ++ PyStr.of_nat matches
  ++ " matches of the string to replace. For safety, this tool only supports replacing exactly one occurrence at a time. Add more lines of context to your edit and try again.".
End Msg.

(** ** tools/edit_tool.py *)

Inductive EditResult :=
| EditFailure (error : option string) (file_path : string)
| EditSuccess (file_path snippet : string) (start_line : Z) (diff : list string)
              (original_file updated_file : string).

(** What [generate_preview] returns: [(False, message)] or
    [(True, (diff_lines, file_path))]. *)
Inductive EditPreview :=
| EditPreviewError (error : string)
| EditPreviewDiff (diff : list string) (file_path : string).

Module EditTool.
Section WithLib.
Context `{PyLib}.

Definition N_LINES_SNIPPET : Z := 4.

(** [_read_file] and [_write_file]; the latin-1 fallback does not
    show on byte strings. *)
Definition _read_file (w : World) (file_path : string) : result string :=
  os.read_text w file_path.

Definition _write_file (w : World) (file_path text : string) : result World :=
  os.write_text w file_path text.

Definition validate_input (w : World) (file_path old_string new_string : string)
    (read_file_timestamps : Ledger) : bool * option string :=
  if String.eqb old_string new_string then (false, Some Msg.no_op)
  else
    let full_file_path := full_path w file_path in
    if os.path_exists w full_file_path && String.eqb old_string "" then
      (false, Some Msg.already_exists)
    else if negb (os.path_exists w full_file_path) && String.eqb old_string "" then
      (true, None)
    else if negb (os.path_exists w full_file_path) then
      (false, Some Msg.no_such_file)
    else if PyStr.endswith full_file_path ".ipynb" then
      (false, Some Msg.notebook)
    else
      match read_file_timestamps !! full_file_path with
      | None => (false, Some Msg.unread)
      | Some read_timestamp =>
          (* [not read_timestamp] is also true of [0.0] *)
          if read_timestamp =? 0 then (false, Some Msg.unread)
          else
            match os.getmtime w full_file_path with
            | Raise e => (false, Some (Msg.cannot_access e))
            | Ok last_write_time =>
                if last_write_time >? read_timestamp then (false, Some Msg.stale)
                else
                  match _read_file w full_file_path with
                  | Raise e => (false, Some (Msg.cannot_read e))
                  | Ok file_content =>
                      if negb (PyStr.contains old_string file_content) then
                        (false, Some Msg.not_found)
                      else
                        let matches := PyStr.count file_content old_string in
                        if (1 <? matches)%nat then (false, Some (Msg.ambiguous matches))
                        else (true, None)
                  end
            end
      end.

(** [f"{error_msg}"] for an optional message. *)
Definition str_of_option (o : option string) : string :=
  match o with Some s => s | None => "None" end.

(** [generate_preview]: validation, then the diff [execute] would
    make, with nothing written. *)
Definition generate_preview (w : World) (file_path old_string new_string : string)
    (read_file_timestamps : Ledger) : EditPreview :=
  match validate_input w file_path old_string new_string read_file_timestamps with
  | (false, error_msg) =>
      EditPreviewError ("Cannot preview edit: " ++ str_of_option error_msg)
  | (true, _) =>
      let full_file_path := full_path w file_path in
      let original :=
        if os.path_exists w full_file_path then _read_file w full_file_path
        else Ok "" in
      match original with
      | Raise e => EditPreviewError ("Cannot read file for preview: " ++ message e)
      | Ok original_file =>
          let updated_file :=
            if String.eqb old_string "" then new_string
            else PyStr.replace_first original_file old_string new_string in
          EditPreviewDiff (unified_diff original_file updated_file file_path) file_path
      end
  end.

(** [get_snippet]; [str.split] raises [ValueError] on an empty
    separator. *)
Definition get_snippet (initial_text old_str new_str : string) : result (string * Z) :=
  if negb (PyStr.truthy initial_text) && String.eqb old_str "" then
    let new_file_lines := PyStr.split new_str PyStr.LF in
    let snippet_lines := PyStr.slice new_file_lines 0 (N_LINES_SNIPPET * 2 + 1) in
    Ok (PyStr.join_with (String PyStr.LF "") snippet_lines, 1)
  else
    let before :=
      match PyStr.find old_str initial_text with
      | Some i =>
          if String.eqb old_str "" then Raise {| status_code := None; message := "empty separator" |}
          else Ok (PyStr.take i initial_text)
      | None => Ok ""
      end in
    match before with
    | Raise e => Raise e
    | Ok before =>
        let replacement_line :=
          if PyStr.truthy before
          then Z.of_nat (List.length (PyStr.split before PyStr.LF)) - 1
          else 0 in
        let new_file_lines :=
          PyStr.split (PyStr.replace_all initial_text old_str new_str) PyStr.LF in
        let start_line := Z.max 0 (replacement_line - N_LINES_SNIPPET) in
        let end_line := replacement_line + N_LINES_SNIPPET
                        + Z.of_nat (List.length (PyStr.split new_str PyStr.LF)) in
        let snippet_lines := PyStr.slice new_file_lines start_line (end_line + 1) in
        Ok (PyStr.join_with (String PyStr.LF "") snippet_lines, start_line + 1)
    end.

(** [os.path.dirname(full_file_path) or '.'] *)
Definition parent_or_dot (full_file_path : string) : string :=
  let d := os_path.dirname full_file_path in
  if PyStr.truthy d then d else ".".

(** [execute]: the result (or the exception that escapes), the file
    system and the ledger it leaves. *)
Definition execute (w : World) (file_path old_string new_string : string)
    (read_file_timestamps : Ledger) : result EditResult * World * Ledger :=
  match validate_input w file_path old_string new_string read_file_timestamps with
  | (false, error_msg) =>
      (Ok (EditFailure error_msg file_path), w, read_file_timestamps)
  | (true, _) =>
      let full_file_path := full_path w file_path in
      match os.makedirs w (parent_or_dot full_file_path) with
      | Raise e => (Raise e, w, read_file_timestamps)
      | Ok w1 =>
          let original :=
            if os.path_exists w1 full_file_path then _read_file w1 full_file_path
            else Ok "" in
          match original with
          | Raise e => (Raise e, w1, read_file_timestamps)
          | Ok original_file =>
              let updated_file :=
                if String.eqb old_string "" then new_string
                else PyStr.replace_first original_file old_string new_string in
              let diff_lines := unified_diff original_file updated_file file_path in
              match _write_file w1 full_file_path updated_file with
              | Raise e =>
                  (Ok (EditFailure (Some (Msg.failed_to_write e)) file_path), w1,
                   read_file_timestamps)
              | Ok w2 =>
                  let ledger' :=
                    match os.getmtime w2 full_file_path with
                    | Ok t => <[full_file_path := t]> read_file_timestamps
                    | Raise _ => read_file_timestamps
                    end in
                  match get_snippet original_file old_string new_string with
                  | Raise e => (Raise e, w2, ledger')
                  | Ok (snippet, start_line) =>
                      (Ok (EditSuccess file_path snippet start_line diff_lines
                                       original_file updated_file), w2, ledger')
                  end
              end
          end
      end
  end.

End WithLib.
End EditTool.

(** ** tools/write_tool.py *)

Inductive WriteKind := Create | Update.

Inductive WriteResult :=
| WriteFailure (error file_path : string)
| WriteSuccess (file_path text : string) (kind : WriteKind) (diff : list string).

(** What [generate_preview] returns: [(False, message)] or
    [(True, (diff_lines, file_path, file_exists, content))]. *)
Inductive WritePreview :=
| WritePreviewError (error : string)
| WritePreviewDiff (diff : list string) (file_path : string) (file_exists : bool)
                   (text : string).

Module WriteTool.
Section WithLib.
Context `{PyLib}.

Definition _read_file (w : World) (file_path : string) : result string :=
  os.read_text w file_path.

Definition _write_file (w : World) (file_path text : string) : result World :=
  os.write_text w file_path text.

(** [generate_preview]: the checks of [execute] on a file that exists,
    then the diff, with nothing written. *)
Definition generate_preview (w : World) (file_path text : string)
    (read_file_timestamps : Ledger) : WritePreview :=
  let full_file_path := full_path w file_path in
  let file_exists := os.path_exists w full_file_path in
  let rejected : option string :=
    if file_exists then
      if PyStr.endswith full_file_path ".ipynb" then Some Msg.notebook
      else
        match read_file_timestamps !! full_file_path with
        | None => Some Msg.unread
        | Some read_timestamp =>
            if read_timestamp =? 0 then Some Msg.unread
            else
              match os.getmtime w full_file_path with
              | Raise e => Some (Msg.cannot_access e)
              | Ok last_write_time =>
                  if last_write_time >? read_timestamp then Some Msg.stale else None
              end
        end
    else None in
  match rejected with
  | Some error => WritePreviewError error
  | None =>
      let old :=
        if file_exists then _read_file w full_file_path else Ok "" in
      match old with
      | Raise e => WritePreviewError (Msg.cannot_read_existing e)
      | Ok old_content =>
          let diff_lines :=
            if file_exists && PyStr.truthy old_content
            then unified_diff old_content text file_path
            else [] in
          WritePreviewDiff diff_lines file_path file_exists text
      end
  end.

Definition execute (w : World) (file_path text : string)
    (read_file_timestamps : Ledger) : WriteResult * World * Ledger :=
  let full_file_path := full_path w file_path in
  let file_exists := os.path_exists w full_file_path in
  (* the checks on a file that exists: the error to return, if any *)
  let rejected : option string :=
    if file_exists then
      if PyStr.endswith full_file_path ".ipynb" then Some Msg.notebook
      else
        match read_file_timestamps !! full_file_path with
        | None => Some Msg.unread
        | Some read_timestamp =>
            (* [not read_timestamp] is also true of [0.0] *)
            if read_timestamp =? 0 then Some Msg.unread
            else
              match os.getmtime w full_file_path with
              | Raise e => Some (Msg.cannot_access e)
              | Ok last_write_time =>
                  if last_write_time >? read_timestamp then Some Msg.stale else None
              end
        end
    else None in
  match rejected with
  | Some error => (WriteFailure error file_path, w, read_file_timestamps)
  | None =>
      let old :=
        if file_exists then _read_file w full_file_path else Ok "" in
      match old with
      | Raise e =>
          (WriteFailure (Msg.cannot_read_existing e) file_path, w, read_file_timestamps)
      | Ok old_content =>
          match os.makedirs w (EditTool.parent_or_dot full_file_path) with
          | Raise e =>
              (WriteFailure (Msg.cannot_create_directory e) file_path, w,
               read_file_timestamps)
          | Ok w1 =>
              match _write_file w1 full_file_path text with
              | Raise e =>
                  (WriteFailure (Msg.failed_to_write e) file_path, w1, read_file_timestamps)
              | Ok w2 =>
                  let ledger' :=
                    match os.getmtime w2 full_file_path with
                    | Ok t => <[full_file_path := t]> read_file_timestamps
                    | Raise _ => read_file_timestamps
                    end in
                  let diff_lines :=
                    if file_exists && PyStr.truthy old_content
                    then unified_diff old_content text file_path
                    else [] in
                  (WriteSuccess file_path text (if file_exists then Update else Create)
                                diff_lines, w2, ledger')
              end
          end
      end
  end.

End WithLib.
End WriteTool.

(** ** main.py: the file tools of a session *)


Module ClaudeCodeCLI.
Section WithLib.
Context `{PyLib}.



End WithLib.
End ClaudeCodeCLI.

(** ** utils/validation.py *)

(** The line that stands for the lines cut out. *)
Definition truncation_marker (cut : Z) : string :=
  String PyStr.LF ("... (" ++ PyStr.of_Z cut ++ " lines truncated) ..."
                   ++ String PyStr.LF "").

(** [truncate_output]; [//] rounds down. *)
Definition truncate_output (output : string) (max_lines : Z) : string * Z :=
  if negb (PyStr.truthy output) then ("", 0)
  else
    let lines := PyStr.split output PyStr.LF in
    let total_lines := Z.of_nat (List.length lines) in
    if total_lines <=? max_lines then (output, total_lines)
    else
      let keep_lines := max_lines / 2 in
      let truncated_lines :=
        (PyStr.slice lines 0 keep_lines
         ++ [truncation_marker (total_lines - max_lines)]
         ++ PyStr.slice_from lines (- keep_lines))%list in
      (PyStr.join_with (String PyStr.LF "") truncated_lines, total_lines).

(** ** services/openai_client.py *)

Record ToolCall := {
  tc_id : string;
  tc_type : string;
  tc_name : string;        (* function.name *)
  tc_arguments : string    (* function.arguments, JSON text *)
}.

(** A transcript entry, with the fields [query] copies. *)
Record Message := {
  role : string;
  msg_content : option string;
  msg_name : option string;
  msg_tool_calls : option (list ToolCall);
  msg_tool_call_id : option string
}.

(** A tool schema: [f.get("function", {}).get("name")] and the rest. *)
Record ToolSchema := {
  function_name : option string;
  schema_text : string
}.

(** What [query] reads of a completion: [choices[0].message.content],
    [choices[0].message.tool_calls] ([None] and the empty list are
    both false, hence a list), [usage.total_tokens] when [usage] is
    true, [choices[0].finish_reason]. *)
Record Response := {
  resp_content : option string;
  resp_tool_calls : list ToolCall;
  resp_usage : option Z;
  resp_finish_reason : string
}.

Record QueryResult := {
  qr_content : string;
  qr_role : string;
  total_tokens : Z;
  qr_tool_use_count : Z;
  finish_reason : string
}.

(** What a run does to its surroundings, in order. *)
Inductive Event :=
| EvIteration (iteration : nat)     (* a pass through the conversation loop begins *)
| EvCall (n : nat)                  (* the n-th request to the model *)
| EvSleep (seconds : Z)             (* asyncio.sleep *)
| EvTool (name : string).           (* the tool executor is awaited *)

(** Types and functions the client takes from outside: the JSON codec,
    the values tools return, the state tools act on, and
    [utils.prompts.get_system_prompt()]. *)
Class Runtime := {
  Args : Type;
  ToolValue : Type;
  ExecState : Type;
  (** [json.loads]; [None] for [JSONDecodeError] *)
  json_loads : string -> option Args;
  (** [{}] *)
  empty_args : Args;
  (** [json.dumps(result) if isinstance(result, dict) else str(result)] *)
  render : ToolValue -> string;
  get_system_prompt : string
}.

Section Client.
Context `{Runtime}.

(** [self.client.chat.completions.create]: the outcome of the n-th
    request, given the transcript and the tool schemas sent. *)
Definition ModelApi : Type :=
  nat -> list Message -> option (list ToolSchema) -> result Response.

(** [await tool_executor(tool_name, arguments)], acting on the tools'
    state: the value returned or the exception raised, and the state
    left. *)
Definition ToolExecutor : Type :=
  string -> Args -> ExecState -> result ToolValue * ExecState.

Record Env := {
  calls : nat;              (* requests made so far *)
  trace : list Event;
  exec_state : ExecState
}.

Definition emit (ev : Event) (env : Env) : Env :=
  {| calls := calls env; trace := trace env ++ [ev]; exec_state := exec_state env |}.

Definition count_call (env : Env) : Env :=
  {| calls := S (calls env); trace := trace env ++ [EvCall (calls env)];
     exec_state := exec_state env |}.

End Client.

Module OpenAIClient.
Section WithRuntime.
Context `{Runtime}.

Definition retry_attempts : nat := 10.
Definition backoff_seconds : Z := 2.

Definition is_rate_limited (e : Exn) : bool :=
  let status := status_code e in
  let message_text := PyStr.lower (message e) in
  match status with Some s => s =? 429 | None => false end
  || PyStr.contains "rate limit" message_text
  || PyStr.contains "max rpm" message_text.

Definition no_response : Exn :=
  {| status_code := None;
     message := "Failed to obtain response from OpenAI after retries" |}.

(** [for attempt in range(retry_attempts)]: [remaining] passes are
    left, the next one is number [attempt]. *)
Fixpoint request (create : ModelApi) (api_messages : list Message)
    (tools : option (list ToolSchema)) (remaining attempt : nat) (env : Env)
  : result Response * Env :=
  match remaining with
  | O => (Raise no_response, env)
  | S remaining' =>
      let env1 := count_call env in
      match create (calls env) api_messages tools with
      | Ok response => (Ok response, env1)
      | Raise e =>
          if is_rate_limited e && (attempt <? retry_attempts - 1)%nat then
            let delay := backoff_seconds * 2 ^ Z.of_nat attempt in
            request create api_messages tools remaining' (S attempt)
                    (emit (EvSleep delay) env1)
          else (Raise e, env1)
      end
  end.

(** [for tool_call in message.tool_calls]: the transcript with the
    replies appended; an exception of the executor is not caught. *)
Fixpoint run_tools (tool_executor : ToolExecutor) (tool_calls : list ToolCall)
    (api_messages : list Message) (env : Env) : result (list Message) * Env :=
  match tool_calls with
  | [] => (Ok api_messages, env)
  | tool_call :: rest =>
      let tool_name := tc_name tool_call in
      let arguments := default empty_args (json_loads (tc_arguments tool_call)) in
      let env1 := emit (EvTool tool_name) env in
      let '(outcome, st) := tool_executor tool_name arguments (exec_state env1) in
      let env2 := {| calls := calls env1; trace := trace env1; exec_state := st |} in
      match outcome with
      | Raise e => (Raise e, env2)
      | Ok value =>
          run_tools tool_executor rest
            (api_messages ++ [{| role := "tool"; msg_content := Some (render value);
                                 msg_name := Some tool_name; msg_tool_calls := None;
                                 msg_tool_call_id := Some (tc_id tool_call) |}])%list
            env2
      end
  end.

Definition max_iterations_reached (total_tokens tool_use_count : Z) : QueryResult :=
  {| qr_content := "Maximum tool call iterations reached";
     qr_role := "assistant";
     total_tokens := total_tokens;
     qr_tool_use_count := tool_use_count;
     finish_reason := "max_iterations" |}.

(** [for iteration in range(max_iterations)]: [remaining] passes are
    left, the next one is number [iteration]. *)
Fixpoint conversation (create : ModelApi) (tools : option (list ToolSchema))
    (tool_executor : option ToolExecutor) (remaining iteration : nat)
    (api_messages : list Message) (total_tokens tool_use_count : Z) (env : Env)
  : result QueryResult * Env :=
  match remaining with
  | O => (Ok (max_iterations_reached total_tokens tool_use_count), env)
  | S remaining' =>
      match request create api_messages tools retry_attempts 0
                    (emit (EvIteration iteration) env) with
      | (Raise e, env1) => (Raise e, env1)
      | (Ok response, env1) =>
          let total_tokens := total_tokens + default 0 (resp_usage response) in
          match resp_tool_calls response with
          | [] =>
              (Ok {| qr_content := default "" (resp_content response);
                     qr_role := "assistant";
                     total_tokens := total_tokens;
                     qr_tool_use_count := tool_use_count;
                     finish_reason := resp_finish_reason response |}, env1)
          | tool_calls =>
              let tool_use_count := tool_use_count + Z.of_nat (List.length tool_calls) in
              let api_messages :=
                (api_messages ++ [{| role := "assistant";
                                     msg_content := Some (default "" (resp_content response));
                                     msg_name := None;
                                     msg_tool_calls := Some tool_calls;
                                     msg_tool_call_id := None |}])%list in
              match tool_executor with
              | Some executor =>
                  match run_tools executor tool_calls api_messages env1 with
                  | (Raise e, env2) => (Raise e, env2)
                  | (Ok api_messages, env2) =>
                      conversation create tools tool_executor remaining' (S iteration)
                                   api_messages total_tokens tool_use_count env2
                  end
              | None =>
                  (* no executor: [break], then the return after the loop *)
                  (Ok (max_iterations_reached total_tokens tool_use_count), env1)
              end
          end
      end
  end.

(** The copy [query] makes of a caller's message. *)
Definition api_message (msg : Message) : Message :=
  {| role := role msg; msg_content := msg_content msg; msg_name := msg_name msg;
     msg_tool_calls := msg_tool_calls msg; msg_tool_call_id := msg_tool_call_id msg |}.

Definition system_message (system_prompt : option string) : list Message :=
  match system_prompt with
  | Some p => if PyStr.truthy p
              then [{| role := "system"; msg_content := Some p; msg_name := None;
                       msg_tool_calls := None; msg_tool_call_id := None |}]
              else []
  | None => []
  end.

(** [tools if tools else None] *)
Definition tools_or_none (tools : option (list ToolSchema)) : option (list ToolSchema) :=
  match tools with
  | Some [] => None
  | other => other
  end.

Definition query (create : ModelApi) (messages : list Message)
    (system_prompt : option string) (tools : option (list ToolSchema))
    (tool_executor : option ToolExecutor) (max_iterations : Z) (env : Env)
  : result QueryResult * Env :=
  let api_messages := (system_message system_prompt ++ map api_message messages)%list in
  conversation create (tools_or_none tools) tool_executor
               (Z.to_nat max_iterations) 0 api_messages 0 0 env.

End WithRuntime.
End OpenAIClient.

(** ** services/agent_manager.py (the part the agent tool uses) *)

Record AgentConfig := {
  agent_type : string;
  when_to_use : string;
  agent_tools : list string;        (* [tools] *)
  agent_system_prompt : string;     (* [system_prompt] *)
  location : string;
  agent_file_path : option string
}.

Definition get_built_in_agents : list AgentConfig :=
  [{| agent_type := "general-purpose";
      when_to_use := "General-purpose agent for researching, searching code, and multi-step tasks";
      agent_tools := ["*"];
      agent_system_prompt := "You are an agent for a coding assistant. Given the user's message, use the available tools to complete the task.

Your strengths:
- Searching for code, configurations, and patterns across codebases
- Analyzing multiple files to understand system architecture
- Performing multi-step research tasks

Guidelines:
- Be thorough and check multiple locations
- Consider different naming conventions
- In your final response, share relevant details and findings
- Provide clear, actionable information";
      location := "built-in";
      agent_file_path := None |}].

(** [load_all_agents]; [project_agents] is what [scan_agent_files]
    finds under [.claude/agents] at the time of the call. *)
Definition load_all_agents (project_agents : list AgentConfig) : list AgentConfig :=
  (get_built_in_agents ++ project_agents)%list.

Definition find_agent_by_type (project_agents : list AgentConfig) (wanted : string)
  : option AgentConfig :=
  List.find (fun agent => String.eqb (agent_type agent) wanted)
            (load_all_agents project_agents).

(** ** services/executor.py *)

Record AgentResult := {
  agent_index : Z;
  content_of : string;       (* [content] *)
  tool_use_count : Z;
  tokens : Z;
  duration_ms : Z
}.

Section Tasks.
Context `{Runtime}.

(** What one awaited task meets: the model as it answers this task,
    the state and trace it starts from, and the wall-clock time it
    will be measured to take.  The interleaving of concurrent tasks
    is not modelled: each task of a fan-out has a [TaskEnv] of its
    own, chosen freely, which covers whatever a schedule can present
    to it. *)
Record TaskEnv := {
  api : ModelApi;
  start : Env;
  elapsed_ms : Z
}.

End Tasks.

Module ParallelExecutor.
Section WithRuntime.
Context `{Runtime}.

Definition user_message (text : string) : Message :=
  {| role := "user"; msg_content := Some text; msg_name := None;
     msg_tool_calls := None; msg_tool_call_id := None |}.

(** [f"{get_system_prompt()}\n\n{agent_config.system_prompt}"] *)
Definition combined_prompt (agent_config : AgentConfig) : string :=
  get_system_prompt ++ String PyStr.LF (String PyStr.LF (agent_system_prompt agent_config)).

Definition execute_agent_task (te : TaskEnv) (task_prompt : string) (index : Z)
    (agent_config : AgentConfig) (functions : option (list ToolSchema))
    (function_executor : option ToolExecutor) (max_iterations : Z)
  : result AgentResult :=
  let messages := [user_message task_prompt] in
  match fst (OpenAIClient.query (api te) messages (Some (combined_prompt agent_config))
                                functions function_executor max_iterations (start te)) with
  | Raise e => Raise e
  | Ok r =>
      Ok {| agent_index := index;
            content_of := qr_content r;
            tool_use_count := qr_tool_use_count r;
            tokens := total_tokens r;
            duration_ms := elapsed_ms te |}
  end.

(** The result that stands in for a task that raised. *)
Definition failed_agent (i : nat) (e : Exn) : AgentResult :=
  {| agent_index := Z.of_nat i;
     content_of := "Agent execution failed: " ++ message e;
     tool_use_count := 0;
     tokens := 0;
     duration_ms := 0 |}.

(** [for i, result in enumerate(results)], from index [i] on. *)
Fixpoint collect (i : nat) (results : list (result AgentResult)) : list AgentResult :=
  match results with
  | [] => []
  | Raise e :: rest => failed_agent i e :: collect (S i) rest
  | Ok r :: rest => r :: collect (S i) rest
  end.

(** [envs i] is what task [i] meets.  [asyncio.gather] with
    [return_exceptions=True] delivers the outcomes of the tasks, an
    exception as a value, in the order of [tasks]. *)
Definition execute_parallel_tasks (envs : nat -> TaskEnv) (task_prompt : string)
    (agent_config : AgentConfig) (num_agents : Z) (functions : option (list ToolSchema))
    (function_executor : option ToolExecutor) (max_iterations : Z)
  : list AgentResult :=
  let tasks :=
    map (fun i =>
           execute_agent_task (envs i)
             (task_prompt ++ String PyStr.LF (String PyStr.LF
                "Provide a thorough and complete analysis."))
             (Z.of_nat i) agent_config functions function_executor max_iterations)
        (seq 0 (Z.to_nat num_agents)) in
  let results := tasks in
  collect 0 results.

(** [sorted(agent_results, key=lambda r: r.agent_index)]: stable, so a
    result goes before the results after it that are not smaller. *)
Fixpoint insert_by_index (r : AgentResult) (sorted : list AgentResult) : list AgentResult :=
  match sorted with
  | [] => [r]
  | x :: rest =>
      if agent_index r <=? agent_index x then r :: x :: rest
      else x :: insert_by_index r rest
  end.

Definition sorted_by_index (l : list AgentResult) : list AgentResult :=
  fold_right insert_by_index [] l.

Definition response_block (r : AgentResult) : string :=
  "== AGENT " ++ PyStr.of_Z (agent_index r + 1) ++ " RESPONSE ==" ++ String PyStr.LF
    (content_of r ++ String PyStr.LF "").

Definition synthesis_prompt (original_task : string) (agent_results : list AgentResult)
  : string :=
  let results_text := map response_block (sorted_by_index agent_results) in
  "Original task: " ++ original_task ++ "

I've assigned multiple agents to tackle this task. Each agent has analyzed the problem and provided their findings.

" ++ PyStr.join_with (String PyStr.LF "") results_text ++ "

Based on all the information provided by these agents, synthesize a comprehensive and cohesive response that:
1. Combines the key insights from all agents
2. Resolves any contradictions between agent findings
3. Presents a unified solution that addresses the original task
4. Includes all important details from the individual responses
5. Is well-structured and complete

Your synthesis should be thorough but focused on the original task.".

Definition synthesize_results (te : TaskEnv) (original_task : string)
    (agent_results : list AgentResult) (agent_config : AgentConfig)
  : result AgentResult :=
  let messages := [user_message (synthesis_prompt original_task agent_results)] in
  match fst (OpenAIClient.query (api te) messages (Some (combined_prompt agent_config))
                                None None 1 (start te)) with
  | Raise e => Raise e
  | Ok r =>
      Ok {| agent_index := -1;
            content_of := qr_content r;
            tool_use_count := 0;
            tokens := total_tokens r;
            duration_ms := elapsed_ms te |}
  end.

End WithRuntime.
End ParallelExecutor.

(** ** tools/agent_tool.py *)

Record AgentToolResult := {
  at_content : string;
  at_tool_use_count : Z;
  at_tokens : Z;
  parallel_agents : option Z;
  synthesis : option bool
}.

Module AgentTool.
Section WithRuntime.
Context `{Runtime}.

Definition allowed (names : list string) (f : ToolSchema) : bool :=
  match function_name f with
  | Some n => existsb (String.eqb n) names
  | None => false
  end.

(** The tools handed to the agents. *)
Definition agent_functions (agent_config : AgentConfig)
    (functions : option (list ToolSchema)) : option (list ToolSchema) :=
  match functions with
  | Some (f :: fs) =>
      if negb (bool_decide (agent_tools agent_config = ["*"]))
      then Some (List.filter (allowed (agent_tools agent_config)) (f :: fs))
      else functions
  | _ => functions
  end.

Definition sum_Z (l : list Z) : Z := fold_right Z.add 0 l.

(** [execute]; [envs] serves the agents, [synth] the synthesis pass. *)
Definition execute (project_agents : list AgentConfig) (envs : nat -> TaskEnv)
    (synth : TaskEnv) (prompt subagent_type : string)
    (functions : option (list ToolSchema)) (function_executor : option ToolExecutor)
    (parallel_count : Z) : result AgentToolResult :=
  match find_agent_by_type project_agents subagent_type with
  | None =>
      Ok {| at_content := "Error: Agent type '" ++ subagent_type ++ "' not found";
            at_tool_use_count := 0; at_tokens := 0;
            parallel_agents := None; synthesis := None |}
  | Some agent_config =>
      let agent_functions := agent_functions agent_config functions in
      if 1 <? parallel_count then
        let agent_results :=
          ParallelExecutor.execute_parallel_tasks envs prompt agent_config parallel_count
            agent_functions function_executor 10 in
        match ParallelExecutor.synthesize_results synth prompt agent_results agent_config with
        | Raise e => Raise e
        | Ok synthesis_result =>
            let total_tool_uses := sum_Z (map tool_use_count agent_results) in
            let total_tokens := sum_Z (map tokens agent_results) + tokens synthesis_result in
            Ok {| at_content := content_of synthesis_result;
                  at_tool_use_count := total_tool_uses;
                  at_tokens := total_tokens;
                  parallel_agents := Some parallel_count;
                  synthesis := Some true |}
        end
      else
        match ParallelExecutor.execute_agent_task (envs 0%nat) prompt 0 agent_config
                agent_functions function_executor 10 with
        | Raise e => Raise e
        | Ok r =>
            Ok {| at_content := content_of r;
                  at_tool_use_count := tool_use_count r;
                  at_tokens := tokens r;
                  parallel_agents := Some 1;
                  synthesis := Some false |}
        end
  end.

End WithRuntime.
End AgentTool.

(** ** Vocabulary for the statements about the file system *)

(** [q] lies above [p]: it is reached from [p] by going to the
    directory that holds the path, once or more. *)
Definition above (q p : string) : Prop :=
  exists n, Nat.iter (S n) os.parent p = q.








(** ** Vocabulary for the statements about the client *)

(** The events of [k] attempts that hit the rate limit, the first of
    them request number [c] and attempt number [attempt]: each request
    is followed by a sleep of [backoff_seconds * 2 ** attempt]. *)
Fixpoint backoff_events (c attempt k : nat) : list Event :=
  match k with
  | O => []
  | S k' => EvCall c :: EvSleep (2 * 2 ^ Z.of_nat attempt)
            :: backoff_events (S c) (S attempt) k'
  end.

Definition is_iteration (ev : Event) : bool :=
  match ev with EvIteration _ => true | _ => false end.

(** The number of passes through the conversation loop in a trace. *)
Definition iterations_of (t : list Event) : nat :=
  List.length (List.filter is_iteration t).

(** The tools run in a trace, in order, and the seconds slept. *)
Definition tool_runs (t : list Event) : list string :=
  flat_map (fun ev => match ev with EvTool name => [name] | _ => [] end) t.

Definition slept (t : list Event) : Z :=
  fold_right (fun ev total => match ev with EvSleep s => s + total | _ => total end) 0 t.

(** [f from + ... + f (from + count - 1)] *)
Fixpoint sum_over (f : nat -> Z) (from count : nat) : Z :=
  match count with
  | O => 0
  | S count' => f from + sum_over f (S from) count'
  end.

Definition usage_of (r : Response) : Z := default 0 (resp_usage r).
Definition tool_calls_of (r : Response) : Z := Z.of_nat (List.length (resp_tool_calls r)).

Section Answers.
Context `{Runtime}.

(** A model that answers every request: the n-th request receives
    the n-th response of the sequence. *)
Definition answers (responses : nat -> Response) : ModelApi :=
  fun n _ _ => Ok (responses n).



(** The environment after [k] rate-limited attempts. *)
Definition after_backoff (env : Env) (attempt k : nat) : Env :=
  {| calls := calls env + k;
     trace := trace env ++ backoff_events (calls env) attempt k;
     exec_state := exec_state env |}.

End Answers.

(** ** A small session to run the tools on *)

Module Scenario.

(** Stand-ins for the library functions. *)
Definition plain_lib : PyLib :=
  {| b64encode := fun data => data;
     fmt_fixed := fun _ a b => PyStr.of_Z (a / b);
     unified_diff := fun _ _ _ => [] |}.

Definition file (text : string) (t : Z) (r wr : bool) : Node :=
  RegularFile {| content := text; mtime := t; readable := r; writable := wr |}.

Definition a_txt : string := "foo
bar
".

(** A working directory [/w] holding a text file read at its
    modification time 10, a notebook, a file this process may read
    but not write, and a file changed (at 15) after it was read (at
    10).  The clock stands at 20. *)
Definition world : World :=
  {| nodes := <["/w" := Directory {| dir_mtime := 5; dir_writable := true |}]>
              (<["/w/a.txt" := file a_txt 10 true true]>
              (<["/w/nb.ipynb" := file "{}" 10 true true]>
              (<["/w/ro.txt" := file a_txt 10 true false]>
              (<["/w/changed.txt" := file a_txt 15 true true]> ∅))));
     cwd := "/w";
     clock := 20 |}.

Definition ledger : Ledger :=
  <["/w/a.txt" := 10]> (<["/w/ro.txt" := 10]> (<["/w/changed.txt" := 10]> ∅)).

(** The notebook, read (at 5) before its last change. *)
Definition ledger_nb : Ledger := <["/w/nb.ipynb" := 5]> ledger.

(** Further files: one with Windows line ends, one holding ["aaa"],
  and one whose modification time is the epoch (0), each read at its
  modification time. *)
Definition crlf_txt : string :=
"foo" ++ String PyStr.CR (String PyStr.LF ("bar" ++ String PyStr.CR (String PyStr.LF ""))).

Definition more_files : World :=
{| nodes := <["/w/dos.txt" := file crlf_txt 10 true true]>
            (<["/w/aaa.txt" := file "aaa" 10 true true]>
            (<["/w/epoch.txt" := file a_txt 0 true true]> (nodes world)));
   cwd := "/w";
   clock := 20 |}.

Definition more_ledger : Ledger :=
<["/w/dos.txt" := 10]> (<["/w/aaa.txt" := 10]> (<["/w/epoch.txt" := 0]> ledger)).

(** The same with a directory [/w/locked] in which this process may
    make no entry. *)
Definition locked_world : World :=
  os.set_node world "/w/locked" (Directory {| dir_mtime := 5; dir_writable := false |}).


(** [a.txt] after "foo" has been replaced by "baz", and its second
    line on its own. *)
Definition baz_txt : string := "baz
bar
".

Definition bar_line : string := "bar
".

(** Output of five lines. *)
Definition five_lines : string := "a
b
c
d
e".

(** A runtime whose tools return text and count their runs. *)
Definition text_runtime : Runtime :=
  {| Args := unit; ToolValue := string; ExecState := nat;
     json_loads := fun _ => Some tt;
     empty_args := tt;
     render := fun value => value;
     get_system_prompt := "You are a coding assistant." |}.

Definition echo : @ToolExecutor text_runtime := fun name _ runs => (Ok name, S runs).



Definition env0 : @Env text_runtime := @Build_Env text_runtime 0 [] 0%nat.

Definition read_call : ToolCall :=
  {| tc_id := "call_1"; tc_type := "function"; tc_name := "read";
     tc_arguments := "{}" |}.

(** A response that asks for a tool, and one that does not. *)
Definition asks_tool : Response :=
  {| resp_content := None; resp_tool_calls := [read_call]; resp_usage := Some 7;
     resp_finish_reason := "tool_calls" |}.

Definition final : Response :=
  {| resp_content := Some "done"; resp_tool_calls := []; resp_usage := Some 5;
     resp_finish_reason := "stop" |}.

(** Two responses that ask for a tool, then one that does not. *)
Definition two_tools_then_done : nat -> Response :=
  fun n => if (n <? 2)%nat then asks_tool else final.

Definition too_many_requests : Exn :=
  {| status_code := Some 429; message := "Too Many Requests" |}.

Definition rate_limit_text : Exn :=
  {| status_code := None; message := "Rate Limit reached for requests" |}.

Definition server_error : Exn :=
  {| status_code := Some 500; message := "Internal Server Error" |}.

(** Models: one that is rate-limited twice and then answers, one that
    is always rate-limited, one that fails otherwise. *)
Definition throttled_twice : ModelApi :=
  fun n _ _ => if (n <? 2)%nat then Raise too_many_requests else Ok final.

Definition always_throttled : ModelApi :=
  fun _ _ _ => Raise rate_limit_text.

Definition broken : ModelApi := fun _ _ _ => Raise server_error.

Definition hello : list Message :=
  [{| role := "user"; msg_content := Some "hello"; msg_name := None;
      msg_tool_calls := None; msg_tool_call_id := None |}].

(** Three participants, the second of which meets the broken model. *)
Definition participants : nat -> @TaskEnv text_runtime :=
  fun i => @Build_TaskEnv text_runtime
             (if (i =? 1)%nat then broken else answers (fun _ => final))
             env0 40.

Definition synthesizer : @TaskEnv text_runtime :=
  @Build_TaskEnv text_runtime (answers (fun _ => final)) env0 15.

Definition general_purpose : AgentConfig :=
  match get_built_in_agents with
  | agent :: _ => agent
  | [] => {| agent_type := ""; when_to_use := ""; agent_tools := [];
             agent_system_prompt := ""; location := ""; agent_file_path := None |}
  end.

End Scenario.

(** * Properties *)

(** ** Strings *)

#[local] Arguments String.append !s1 s2 : simpl nomatch.

Section StringFacts.
Import PyStr.

Lemma append_empty_r (s : string) : s ++ "" = s.
Proof. induction s as [|a s IH]; simpl; [reflexivity | now rewrite IH]. Qed.

Lemma append_assoc (a b c : string) : (a ++ b) ++ c = a ++ (b ++ c).
Proof. induction a as [|x a IH]; simpl; [reflexivity | now rewrite IH]. Qed.

Lemma length_append (a b : string) :
  String.length (a ++ b) = (String.length a + String.length b)%nat.
Proof. induction a as [|x a IH]; simpl; [reflexivity | now rewrite IH]. Qed.

Lemma startswith_split (p s : string) :
  startswith p s = true -> s = p ++ drop (String.length p) s.
Proof.
  revert s. induction p as [|a p IH]; intros s Hs; simpl in *.
  - reflexivity.
  - destruct s as [|b s]; [discriminate |].
    destruct (Ascii.eqb_spec a b) as [->|]; [| discriminate].
    simpl. f_equal. now apply IH.
Qed.

Lemma startswith_append (p s : string) : startswith p (p ++ s) = true.
Proof.
  induction p as [|a p IH]; simpl; [reflexivity |].
  now rewrite Ascii.eqb_refl.
Qed.

Lemma startswith_longer (p s : string) :
  (String.length s < String.length p)%nat -> startswith p s = false.
Proof.
  revert s. induction p as [|a p IH]; intros s Hlen; simpl in *; [lia |].
  destruct s as [|b s]; [reflexivity |].
  destruct (Ascii.eqb a b); [| reflexivity]. apply IH. simpl in Hlen. lia.
Qed.

Lemma drop_drop (n m : nat) (s : string) : drop n (drop m s) = drop (m + n) s.
Proof.
  revert s. induction m as [|m IH]; intros s; simpl; [reflexivity |].
  destruct s as [|a s]; [now destruct n | apply IH].
Qed.

Lemma take_drop (n : nat) (s : string) : take n s ++ drop n s = s.
Proof.
  revert s. induction n as [|n IH]; intros s; simpl; [reflexivity |].
  destruct s as [|a s]; simpl; [reflexivity | now rewrite IH].
Qed.

Lemma length_take (n : nat) (s : string) :
  (n <= String.length s)%nat -> String.length (take n s) = n.
Proof.
  revert s. induction n as [|n IH]; intros s Hn; simpl; [reflexivity |].
  destruct s as [|a s]; simpl in *; [lia |]. rewrite IH; lia.
Qed.

(** [find] returns a position where [sub] starts, and the leftmost
    such. *)
Lemma find_some (sub s : string) (i : nat) :
  find sub s = Some i ->
  startswith sub (drop i s) = true
  /\ (i <= String.length s)%nat
  /\ forall j, (j < i)%nat -> startswith sub (drop j s) = false.
Proof.
  revert i. induction s as [|a s IH]; intros i Hf; simpl in Hf.
  - destruct (startswith sub "") eqn:E; [| discriminate].
    injection Hf as <-. simpl. repeat split; [exact E | lia | intros; lia].
  - destruct (startswith sub (String a s)) eqn:E.
    + injection Hf as <-. simpl. repeat split; [exact E | lia | intros; lia].
    + destruct (find sub s) as [k|] eqn:Ek; [| discriminate].
      simpl in Hf. injection Hf as <-.
      destruct (IH k eq_refl) as (H1 & H2 & H3).
      simpl. repeat split; [exact H1 | lia |].
      intros [|j] Hj; simpl; [exact E | apply H3; lia].
Qed.

Lemma find_none (sub s : string) :
  find sub s = None -> forall j, startswith sub (drop j s) = false.
Proof.
  induction s as [|a s IH]; intros Hf j; simpl in Hf.
  - destruct (startswith sub "") eqn:E; [discriminate |]. now destruct j.
  - destruct (startswith sub (String a s)) eqn:E; [discriminate |].
    destruct (find sub s) eqn:Ek; [discriminate |].
    destruct j as [|j]; simpl; [exact E | now apply IH].
Qed.

(** [sub in s] is true exactly when [s.count(sub)] is positive. *)
Lemma contains_count (sub s : string) :
  contains sub s = true <-> (0 < count s sub)%nat.
Proof.
  unfold contains, count. induction s as [|a s IH]; simpl.
  - destruct (startswith sub ""); simpl; split; (lia || discriminate || reflexivity).
  - destruct (startswith sub (String a s)); simpl.
    + split; [lia | reflexivity].
    + destruct (find sub s); simpl in *; exact IH.
Qed.

Lemma count_zero_not_contains (sub s : string) :
  count s sub = 0%nat <-> contains sub s = false.
Proof.
  pose proof (contains_count sub s) as Hc.
  destruct (contains sub s); split; intros; try reflexivity; try discriminate.
  - destruct Hc as [Hc _]. specialize (Hc eq_refl). lia.
  - destruct (count s sub); [reflexivity |]. destruct Hc as [_ Hc].
    discriminate Hc. lia.
Qed.

(** Passing [k] characters and then counting is counting in what is
    left. *)
Lemma count_from_skip (sub s : string) (k : nat) :
  sub <> "" -> count_from sub s k = count (drop k s) sub.
Proof.
  intros Hsub. revert s. induction k as [|k IH]; intros s; [reflexivity |].
  destruct s as [|a s]; simpl.
  - unfold count. simpl. destruct sub; [congruence | reflexivity].
  - apply IH.
Qed.

(** [replace(old, new, 1)] and [count] at the leftmost occurrence. *)
Lemma replace_first_at (s old new : string) (i : nat) :
  find old s = Some i ->
  replace_first s old new = take i s ++ new ++ drop (i + String.length old) s.
Proof.
  revert i. induction s as [|a s IH]; intros i Hf; simpl in *.
  - destruct (startswith old ""); [| discriminate]. injection Hf as <-. reflexivity.
  - destruct (startswith old (String a s)).
    + injection Hf as <-. reflexivity.
    + destruct (find old s) as [k|]; [| discriminate]. simpl in Hf. injection Hf as <-.
      simpl. f_equal. now apply IH.
Qed.

Lemma replace_first_absent (s old new : string) :
  find old s = None -> replace_first s old new = s.
Proof.
  induction s as [|a s IH]; intros Hf; simpl in *.
  - now destruct (startswith old "").
  - destruct (startswith old (String a s)); [discriminate |].
    destruct (find old s); [discriminate |]. f_equal. now apply IH.
Qed.

Lemma count_at (s old : string) (i : nat) :
  old <> "" -> find old s = Some i ->
  count s old = S (count (drop (i + String.length old) s) old).
Proof.
  intros Hold. unfold count. revert i.
  induction s as [|a s IH]; intros i Hf; simpl in Hf.
  - destruct old; [congruence | discriminate].
  - simpl. destruct (startswith old (String a s)) eqn:E.
    + injection Hf as <-. f_equal. rewrite count_from_skip by assumption.
      simpl. destruct old as [|b old]; [congruence |]. simpl.
      now rewrite Nat.sub_0_r.
    + destruct (find old s) as [k|]; [| discriminate]. simpl in Hf. injection Hf as <-.
      simpl. now apply IH.
Qed.

(** A string that [count] finds once splits at its leftmost (and
    only counted) occurrence. *)
Lemma unique_occurrence (s old new : string) :
  old <> "" -> count s old = 1%nat ->
  exists pre post,
    s = pre ++ old ++ post
    /\ find old s = Some (String.length pre)
    /\ contains old post = false
    /\ replace_first s old new = pre ++ new ++ post.
Proof.
  intros Hold Hc.
  destruct (find old s) as [i|] eqn:Hf.
  - exists (take i s), (drop (i + String.length old) s).
    destruct (find_some _ _ _ Hf) as (Hst & Hlen & _).
    pose proof (count_at s old i Hold Hf) as Hc'.
    rewrite length_take by exact Hlen.
    repeat split.
    + rewrite <- (take_drop i s) at 1. f_equal.
      rewrite (startswith_split _ _ Hst) at 1. now rewrite drop_drop.
    + apply count_zero_not_contains. lia.
    + now apply replace_first_at.
  - assert (contains old s = false) as Hn by (unfold contains; now rewrite Hf).
    apply count_zero_not_contains in Hn. lia.
Qed.

(** [count] against positions: a non-empty string that occurs at one
    position only is counted once, and one that is counted zero times
    occurs at no position.  (Two overlapping occurrences are counted
    once: "aa" in "aaa".) *)
Lemma length_zero_empty (s : string) : String.length s = 0%nat -> s = "".
Proof. destruct s; [reflexivity | discriminate]. Qed.

Lemma count_of_single_position (s old : string) (i : nat) :
  old <> "" ->
  occurs_at old s i = true ->
  (forall j, occurs_at old s j = true -> j = i) ->
  count s old = 1%nat.
Proof.
  unfold occurs_at. intros Hold Hocc Huniq.
  destruct (find old s) as [i'|] eqn:Hf.
  - destruct (find_some _ _ _ Hf) as (Hst & _ & _).
    pose proof (Huniq i' Hst) as ->.
    rewrite (count_at s old i Hold Hf). f_equal.
    apply count_zero_not_contains. unfold contains.
    destruct (find old (drop (i + String.length old) s)) as [j|] eqn:Hj; [| reflexivity].
    destruct (find_some _ _ _ Hj) as (Hst' & _ & _).
    rewrite drop_drop in Hst'. apply Huniq in Hst'.
    exfalso. apply Hold, length_zero_empty. lia.
  - pose proof (find_none _ _ Hf i) as Hno. congruence.
Qed.

Lemma count_zero_no_position (s old : string) :
  count s old = 0%nat <-> forall j, occurs_at old s j = false.
Proof.
  unfold occurs_at. rewrite count_zero_not_contains. unfold contains. split.
  - destruct (find old s) eqn:Hf; [discriminate |]. intros _. now apply find_none.
  - intros Hno. destruct (find old s) as [i|] eqn:Hf; [| reflexivity].
    destruct (find_some _ _ _ Hf) as (Hst & _). congruence.
Qed.

(** Text without carriage returns is delivered as stored. *)
Lemma universal_newlines_id (s : string) :
  no_cr s = true -> universal_newlines s = s.
Proof.
  induction s as [|c s IH]; simpl; [reflexivity |].
  destruct (Ascii.eqb c CR); simpl; [discriminate |].
  intros Hs. now rewrite IH.
Qed.

Lemma join_readlines_from (cur s : string) :
  join (readlines_from cur s) = cur ++ s.
Proof.
  revert cur. induction s as [|c s IH]; intros cur; simpl.
  - destruct cur; simpl; [reflexivity |]. now rewrite !append_empty_r.
  - destruct (Ascii.eqb c LF); simpl; rewrite IH; simpl;
      now rewrite ?append_assoc.
Qed.

(** [''.join(f.readlines())] is the text. *)
Lemma join_readlines (s : string) : join (readlines s) = s.
Proof. unfold readlines. now rewrite join_readlines_from. Qed.

End StringFacts.

(** ** The file system *)

Section WorldFacts.

Lemma path_exists_lookup (w : World) (p : string) :
  os.path_exists w p = true <-> is_Some (nodes w !! p).
Proof.
  unfold os.path_exists. destruct (nodes w !! p); split; intros Hx;
    try reflexivity; try discriminate; eauto.
  destruct Hx as [? Hx]. discriminate.
Qed.

Lemma getmtime_exists (w : World) (p : string) :
  os.path_exists w p = true -> exists t, os.getmtime w p = Ok t.
Proof.
  unfold os.path_exists, os.getmtime.
  destruct (nodes w !! p) as [[f|t]|]; intros Hx; try discriminate; eauto.
Qed.

Lemma create_ok (w w' : World) (p : string) (n : Node) :
  os.create w p n = Ok w' ->
  w' = os.set_node w p n
  /\ exists d, nodes w !! os.parent p = Some (Directory d) /\ dir_writable d = true.
Proof.
  unfold os.create. destruct (nodes w !! os.parent p) as [[f|d]|]; try discriminate.
  destruct (dir_writable d) eqn:Hd; [| discriminate]. intros [= <-]. eauto.
Qed.

(** What [makedirs] leaves when it returns: the directory is there,
    nothing that was there has changed, and what is new is a directory
    made at the time of the call, on the way up from [d]. *)
Lemma makedirs_from_keeps (fuel : nat) :
  forall (w w1 : World) (d : string),
    os.makedirs_from fuel w d = Ok w1 ->
    clock w1 = clock w /\ cwd w1 = cwd w
    /\ os.isdir w1 d = true
    /\ (forall q n, nodes w !! q = Some n -> nodes w1 !! q = Some n)
    /\ (forall q, nodes w !! q = None ->
          nodes w1 !! q = None
          \/ (nodes w1 !! q = Some (os.new_directory w)
              /\ exists k, Nat.iter k os.parent d = q)).
Proof.
  assert (forall (w w1 w2 : World) (d : string),
            nodes w !! d = None ->
            (clock w1 = clock w /\ cwd w1 = cwd w
             /\ (forall q n, nodes w !! q = Some n -> nodes w1 !! q = Some n)
             /\ (forall q, nodes w !! q = None ->
                   nodes w1 !! q = None
                   \/ (nodes w1 !! q = Some (os.new_directory w)
                       /\ exists k, Nat.iter k os.parent (os.parent d) = q))) ->
            os.create w1 d (os.new_directory w) = Ok w2 ->
            clock w2 = clock w /\ cwd w2 = cwd w
            /\ os.isdir w2 d = true
            /\ (forall q n, nodes w !! q = Some n -> nodes w2 !! q = Some n)
            /\ (forall q, nodes w !! q = None ->
                  nodes w2 !! q = None
                  \/ (nodes w2 !! q = Some (os.new_directory w)
                      /\ exists k, Nat.iter k os.parent d = q))) as Hstep.
  { intros w w1 w2 d Hnone (Hclk & Hcwd & Hkeep & Hnew) Hcr.
    apply create_ok in Hcr as [-> _]. unfold os.set_node, os.isdir. cbn [nodes cwd clock].
    split; [exact Hclk |]. split; [exact Hcwd |].
    split; [now rewrite lookup_insert_eq |]. split.
    - intros q n Hq. rewrite lookup_insert_ne by congruence. now apply Hkeep.
    - intros q Hq. destruct (decide (d = q)) as [<-|Hne].
      + right. split; [apply lookup_insert_eq | now exists 0%nat].
      + rewrite lookup_insert_ne by exact Hne.
        destruct (Hnew q Hq) as [Hn | [Hn [k Hk]]]; [now left |].
        right. split; [exact Hn |]. exists (S k). now rewrite Nat.iter_succ_r. }
  assert (forall w : World,
            clock w = clock w /\ cwd w = cwd w
            /\ (forall q n, nodes w !! q = Some n -> nodes w !! q = Some n)
            /\ (forall q (d : string), nodes w !! q = None ->
                  nodes w !! q = None
                  \/ (nodes w !! q = Some (os.new_directory w)
                      /\ exists k, Nat.iter k os.parent d = q))) as Hsame
    by (intros w; split_and!; auto).
  induction fuel as [|fuel IH]; intros w w1 d; cbn [os.makedirs_from];
    (destruct (nodes w !! d) as [[f|dir]|] eqn:Hd; [discriminate | |]).
  - intros [= <-]. destruct (Hsame w) as (? & ? & ? & ?). unfold os.isdir. rewrite Hd.
    split_and!; auto.
  - destruct (os.path_exists w (os.parent d)); apply Hstep; try exact Hd;
      destruct (Hsame w) as (? & ? & ? & ?); split_and!; auto.
  - intros [= <-]. destruct (Hsame w) as (? & ? & ? & ?). unfold os.isdir. rewrite Hd.
    split_and!; auto.
  - destruct (os.path_exists w (os.parent d)).
    + apply Hstep; try exact Hd. destruct (Hsame w) as (? & ? & ? & ?). split_and!; auto.
    + destruct (os.makedirs_from fuel w (os.parent d)) as [w0|e] eqn:Hup; [| discriminate].
      apply Hstep; try exact Hd.
      destruct (IH _ _ _ Hup) as (? & ? & _ & ? & ?). split_and!; auto.
Qed.

Lemma makedirs_keeps (w w1 : World) (d : string) :
  os.makedirs w d = Ok w1 ->
  clock w1 = clock w /\ cwd w1 = cwd w
  /\ os.isdir w1 d = true
  /\ (forall q n, nodes w !! q = Some n -> nodes w1 !! q = Some n)
  /\ (forall q, nodes w !! q = None ->
        nodes w1 !! q = None
        \/ (nodes w1 !! q = Some (os.new_directory w)
            /\ exists k, Nat.iter k os.parent d = q)).
Proof. apply makedirs_from_keeps. Qed.

(** [makedirs] does not touch the regular files. *)
Lemma makedirs_file (w w1 : World) (d q : string) (f : File) :
  os.makedirs w d = Ok w1 ->
  nodes w1 !! q = Some (RegularFile f) <-> nodes w !! q = Some (RegularFile f).
Proof.
  intros Hmk. destruct (makedirs_keeps _ _ _ Hmk) as (_ & _ & _ & Hkeep & Hnew). split.
  - intros Hq. destruct (nodes w !! q) as [n|] eqn:E.
    + rewrite (Hkeep _ _ E) in Hq. exact Hq.
    + destruct (Hnew q E) as [Hn | [Hn _]]; rewrite Hn in Hq; discriminate.
  - apply Hkeep.
Qed.

Lemma write_text_ok (w w' : World) (p s : string) :
  os.write_text w p s = Ok w' ->
  w' = os.set_node w p (RegularFile (os.written w p s)) /\ os.isdir w p = false.
Proof.
  unfold os.write_text, os.isdir.
  destruct (nodes w !! p) as [[f0|t]|] eqn:E; intros Hw; try discriminate.
  - destruct (writable f0) eqn:Ew; [| discriminate]. injection Hw as <-. auto.
  - apply create_ok in Hw as [-> _]. auto.
Qed.

Lemma write_text_getmtime (w w' : World) (p s : string) :
  os.write_text w p s = Ok w' -> os.getmtime w' p = Ok (clock w).
Proof.
  intros Hw. apply write_text_ok in Hw as [-> _].
  unfold os.getmtime, os.set_node. simpl. now rewrite lookup_insert_eq.
Qed.

Lemma write_text_other (w w' : World) (p q s : string) :
  os.write_text w p s = Ok w' -> q <> p -> nodes w' !! q = nodes w !! q.
Proof.
  intros Hw Hq. apply write_text_ok in Hw as [-> _].
  unfold os.set_node. simpl. now rewrite lookup_insert_ne.
Qed.

Lemma makedirs_directory (w : World) (d : string) :
  os.isdir w d = true -> os.makedirs w d = Ok w.
Proof.
  unfold os.isdir, os.makedirs. intros Hd.
  destruct (String.length d); cbn [os.makedirs_from];
    destruct (nodes w !! d) as [[f|t]|]; try discriminate; reflexivity.
Qed.

Lemma take_all (n : nat) (s : string) :
  (String.length s <= n)%nat -> PyStr.take n s = s.
Proof.
  revert n. induction s as [|a s IH]; intros [|n] Hn; cbn in *; try reflexivity; try lia.
  f_equal. apply IH. lia.
Qed.

Lemma take_length (n : nat) (s : string) :
  String.length (PyStr.take n s) = Nat.min n (String.length s).
Proof.
  revert n. induction s as [|a s IH]; intros [|n]; cbn; try reflexivity.
  now rewrite IH.
Qed.

Lemma rstrip_length (c : ascii) (s : string) :
  (String.length (PyStr.rstrip c s) <= String.length s)%nat.
Proof.
  induction s as [|a s IH]; cbn; [lia |].
  destruct (PyStr.rstrip c s) as [|b r]; [destruct (Ascii.eqb a c); cbn; lia | cbn in *; lia].
Qed.

Lemma rstrip_same_length (c : ascii) (s : string) :
  String.length (PyStr.rstrip c s) = String.length s -> PyStr.rstrip c s = s.
Proof.
  induction s as [|a s IH]; cbn; [reflexivity |].
  destruct (PyStr.rstrip c s) as [|b r] eqn:E.
  - destruct (Ascii.eqb a c); cbn; [lia |]. intros Hl.
    destruct s; [reflexivity | cbn in Hl; lia].
  - cbn. intros Hl. f_equal. apply IH. cbn. lia.
Qed.

Lemma rfind_end_le (c : ascii) (s : string) :
  (PyStr.rfind_end c s <= String.length s)%nat.
Proof.
  induction s as [|a s IH]; cbn; [lia |].
  destruct (PyStr.rfind_end c s); [destruct (Ascii.eqb a c); lia | lia].
Qed.

Lemma rstrip_fixed_rfind (c : ascii) (s : string) :
  s <> "" -> PyStr.rstrip c s = s -> (PyStr.rfind_end c s < String.length s)%nat.
Proof.
  induction s as [|a s IH]; [congruence |]. intros _. cbn.
  destruct (PyStr.rstrip c s) as [|b r] eqn:E.
  - destruct (Ascii.eqb a c); [discriminate |]. intros [= <-]. cbn. lia.
  - intros [= Hs]. rewrite <- Hs in IH |- *. specialize (IH ltac:(discriminate) eq_refl).
    rewrite Hs in IH |- *.
    destruct (PyStr.rfind_end c s); [destruct (Ascii.eqb a c); cbn in *; lia | lia].
Qed.

(** A step up leads to a shorter path, unless the path is its own
    parent or lies in the current directory. *)
Lemma parent_shorter (d : string) :
  d <> "" ->
  os.parent d = d \/ os.parent d = "."
  \/ (String.length (os.parent d) < String.length d)%nat.
Proof.
  intros Hd. unfold os.parent.
  destruct (os_path.dirname d) as [|a up] eqn:Hup; [right; now left |].
  cbn [PyStr.truthy]. rewrite <- Hup. clear a up Hup.
  unfold os_path.dirname.
  pose proof (take_length (PyStr.rfind_end "/" d) d) as Hhead.
  pose proof (rfind_end_le "/" d) as Hle.
  set (head := PyStr.take (PyStr.rfind_end "/" d) d) in *.
  pose proof (rstrip_length "/" head) as Hstrip.
  destruct (PyStr.rstrip "/" head) as [|b r] eqn:Hr.
  - destruct (Nat.eq_dec (PyStr.rfind_end "/" d) (String.length d)) as [Heq|Hne].
    + left. unfold head. apply take_all. lia.
    + right. right. lia.
  - rewrite <- Hr in *.
    destruct (Nat.eq_dec (String.length (PyStr.rstrip "/" head)) (String.length d))
      as [Heq|Hne]; [| right; right; lia].
    exfalso.
    assert (head = d) as Hhd by (unfold head; apply take_all; lia).
    rewrite Hhd in *.
    pose proof (rstrip_fixed_rfind "/" d Hd (rstrip_same_length _ _ Heq)). lia.
Qed.

Lemma makedirs_from_fixed (fuel : nat) (w : World) (d : string) :
  nodes w !! d = None -> os.parent d = d ->
  os.makedirs_from fuel w d = Raise (os_error "[Errno 2] No such file or directory" d).
Proof.
  intros Hd Hup. induction fuel as [|fuel IH]; cbn [os.makedirs_from];
    unfold os.path_exists; rewrite Hd, Hup, Hd; [| rewrite IH]; try reflexivity;
    unfold os.create; now rewrite Hup, Hd.
Qed.

(** The length of the path is fuel enough: more does not change what
    [makedirs] does. *)
Lemma makedirs_from_more (w : World) (n : nat) :
  forall (d : string) (fuel fuel' : nat),
    (String.length d <= n)%nat -> d <> "" ->
    (String.length d <= fuel)%nat -> (String.length d <= fuel')%nat ->
    os.makedirs_from fuel w d = os.makedirs_from fuel' w d.
Proof.
  induction n as [|n IH]; intros d fuel fuel' Hlen Hd Hfuel Hfuel'.
  - destruct d; [congruence | cbn in Hlen; lia].
  - assert (0 < String.length d)%nat by (destruct d; [congruence | cbn; lia]).
    destruct fuel as [|fuel]; [lia |]. destruct fuel' as [|fuel']; [lia |].
    cbn [os.makedirs_from].
    destruct (nodes w !! d) as [[f|dir]|] eqn:Hnode; try reflexivity.
    destruct (os.path_exists w (os.parent d)) eqn:Hex; [reflexivity |].
    assert (os.makedirs_from fuel w (os.parent d) = os.makedirs_from fuel' w (os.parent d))
      as ->; [| reflexivity].
    assert (nodes w !! os.parent d = None) as Hnone
      by (unfold os.path_exists in Hex; now destruct (nodes w !! os.parent d)).
    destruct (parent_shorter d Hd) as [Hfix | [Hdot | Hshort]].
    + rewrite Hfix in *. now rewrite !makedirs_from_fixed.
    + rewrite Hdot in *. now rewrite !makedirs_from_fixed.
    + assert (os.parent d <> "") as Hup.
      { unfold os.parent. destruct (os_path.dirname d); discriminate. }
      apply IH; (assumption || lia).
Qed.

Lemma makedirs_fuel (w : World) (d : string) (fuel : nat) :
  d <> "" -> (String.length d <= fuel)%nat ->
  os.makedirs_from fuel w d = os.makedirs w d.
Proof.
  intros Hd Hfuel. unfold os.makedirs.
  apply (makedirs_from_more w (String.length d)); (assumption || lia).
Qed.

(** [makedirs] without the fuel: what it does at [d] in terms of what
    it does one step up. *)
Lemma makedirs_eq (w : World) (d : string) :
  d <> "" ->
  os.makedirs w d
  = match nodes w !! d with
    | Some (Directory _) => Ok w
    | Some (RegularFile _) => Raise (os_error "[Errno 17] File exists" d)
    | None =>
        match (if os.path_exists w (os.parent d) then Ok w
               else os.makedirs w (os.parent d)) with
        | Raise e => Raise e
        | Ok w1 => os.create w1 d (os.new_directory w)
        end
    end.
Proof.
  intros Hd. unfold os.makedirs at 1.
  destruct (String.length d) as [|m] eqn:Hm; [destruct d; [congruence | discriminate] |].
  cbn [os.makedirs_from].
  destruct (nodes w !! d) as [[f|dir]|] eqn:Hnode; try reflexivity.
  destruct (os.path_exists w (os.parent d)) eqn:Hex; [reflexivity |].
  assert (os.makedirs_from m w (os.parent d) = os.makedirs w (os.parent d)) as ->;
    [| reflexivity].
  assert (nodes w !! os.parent d = None) as Hnone
    by (unfold os.path_exists in Hex; now destruct (nodes w !! os.parent d)).
  destruct (parent_shorter d Hd) as [Hfix | [Hdot | Hshort]].
  - unfold os.makedirs. rewrite Hfix in *. now rewrite !makedirs_from_fixed.
  - unfold os.makedirs. rewrite Hdot in *. now rewrite !makedirs_from_fixed.
  - apply makedirs_fuel; [| lia].
    unfold os.parent. destruct (os_path.dirname d); discriminate.
Qed.


End WorldFacts.

(** ** The guard: edit and write *)

Section GuardFacts.
Context `{PyLib}.

(** Validation that fails gives a message. *)
Lemma validate_input_message (w : World) (file_path old_string new_string : string)
    (ledger : Ledger) :
  fst (EditTool.validate_input w file_path old_string new_string ledger) = false ->
  exists msg,
    EditTool.validate_input w file_path old_string new_string ledger = (false, Some msg).
Proof.
  unfold EditTool.validate_input. intros Hv.
  repeat case_match; simpl in Hv; try discriminate; eauto.
Qed.

(** The ledger an edit leaves differs from the one it found at most
    in the entry of the resolved path. *)
Lemma edit_ledger_change (w : World) (file_path old_string new_string : string)
    (ledger : Ledger) :
  let ledger' := snd (EditTool.execute w file_path old_string new_string ledger) in
  ledger' = ledger \/ exists t, ledger' = <[full_path w file_path := t]> ledger.
Proof.
  unfold EditTool.execute.
  repeat case_match; simpl; eauto.
Qed.

Lemma write_ledger_change (w : World) (file_path text : string) (ledger : Ledger) :
  let ledger' := snd (WriteTool.execute w file_path text ledger) in
  ledger' = ledger \/ exists t, ledger' = <[full_path w file_path := t]> ledger.
Proof.
  unfold WriteTool.execute.
  repeat case_match; simpl; eauto.
Qed.

End GuardFacts.

(** C9. When edit validation fails, [EditTool.execute] returns a
    failure result carrying the validation message and changes
    nothing: the file system and the ledger it leaves are the ones it
    found. *)
Theorem edit_rejected_changes_nothing `{PyLib} (w : World)
    (file_path old_string new_string : string) (ledger : Ledger) :
  fst (EditTool.validate_input w file_path old_string new_string ledger) = false ->
  exists msg,
    EditTool.validate_input w file_path old_string new_string ledger = (false, Some msg)
    /\ EditTool.execute w file_path old_string new_string ledger
       = (Ok (EditFailure (Some msg) file_path), w, ledger).
Proof.
  intros Hv. destruct (validate_input_message _ _ _ _ _ Hv) as [msg Hmsg].
  exists msg. split; [exact Hmsg |].
  unfold EditTool.execute. now rewrite Hmsg.
Qed.

(** C10. [EditTool.execute] and [WriteTool.execute] on a path leave
    every ledger entry other than that of the resolved path as it was,
    whatever the outcome; the ledger they leave is the old one, or the
    old one with the single entry of the resolved path written. *)
Theorem ledger_frame `{PyLib} (w : World) (file_path old_string new_string text : string)
    (ledger : Ledger) :
  let p := full_path w file_path in
  let after_edit := snd (EditTool.execute w file_path old_string new_string ledger) in
  let after_write := snd (WriteTool.execute w file_path text ledger) in
  (forall q, q <> p -> after_edit !! q = ledger !! q /\ after_write !! q = ledger !! q)
  /\ (after_edit = ledger \/ exists t, after_edit = <[p := t]> ledger)
  /\ (after_write = ledger \/ exists t, after_write = <[p := t]> ledger).
Proof.
  intros p after_edit after_write.
  pose proof (edit_ledger_change w file_path old_string new_string ledger) as He.
  pose proof (write_ledger_change w file_path text ledger) as Hw.
  fold p after_edit in He. fold p after_write in Hw.
  split; [| split; assumption].
  intros q Hq. split.
  - destruct He as [-> | [t ->]]; [reflexivity | now rewrite lookup_insert_ne].
  - destruct Hw as [-> | [t ->]]; [reflexivity | now rewrite lookup_insert_ne].
Qed.

(** ** Unread and stale files *)

Section Rejections.
Context `{PyLib}.

Lemma exists_of_getmtime (w : World) (p : string) (m : Z) :
  os.getmtime w p = Ok m -> os.path_exists w p = true.
Proof.
  unfold os.getmtime, os.path_exists.
  destruct (nodes w !! p) as [[f|t]|]; [reflexivity | reflexivity | discriminate].
Qed.

(** The checks edit validation makes before it looks at the ledger. *)
Lemma validate_input_to_ledger (w : World) (file_path old_string new_string : string)
    (ledger : Ledger) :
  old_string <> new_string -> old_string <> "" ->
  os.path_exists w (full_path w file_path) = true ->
  PyStr.endswith (full_path w file_path) ".ipynb" = false ->
  EditTool.validate_input w file_path old_string new_string ledger
  = match ledger !! full_path w file_path with
    | None => (false, Some Msg.unread)
    | Some read_timestamp =>
        if read_timestamp =? 0 then (false, Some Msg.unread)
        else
          match os.getmtime w (full_path w file_path) with
          | Raise e => (false, Some (Msg.cannot_access e))
          | Ok last_write_time =>
              if last_write_time >? read_timestamp then (false, Some Msg.stale)
              else
                match EditTool._read_file w (full_path w file_path) with
                | Raise e => (false, Some (Msg.cannot_read e))
                | Ok file_content =>
                    if negb (PyStr.contains old_string file_content) then
                      (false, Some Msg.not_found)
                    else if (1 <? PyStr.count file_content old_string)%nat then
                      (false, Some (Msg.ambiguous (PyStr.count file_content old_string)))
                    else (true, None)
                end
          end
    end.
Proof.
  intros Hne Hold Hex Hnb. unfold EditTool.validate_input.
  destruct (String.eqb_spec old_string new_string) as [|_]; [contradiction |].
  destruct (String.eqb_spec old_string "") as [|_]; [contradiction |].
  rewrite Hex, Hnb. reflexivity.
Qed.

Lemma edit_execute_rejected (w : World) (file_path old_string new_string : string)
    (ledger : Ledger) (msg : string) :
  EditTool.validate_input w file_path old_string new_string ledger = (false, Some msg) ->
  EditTool.execute w file_path old_string new_string ledger
  = (Ok (EditFailure (Some msg) file_path), w, ledger).
Proof. intros Hv. unfold EditTool.execute. now rewrite Hv. Qed.

Lemma write_rejects_unread (w : World) (file_path text : string) (ledger : Ledger) :
  os.path_exists w (full_path w file_path) = true ->
  PyStr.endswith (full_path w file_path) ".ipynb" = false ->
  ledger !! full_path w file_path = None ->
  WriteTool.execute w file_path text ledger = (WriteFailure Msg.unread file_path, w, ledger).
Proof. intros Hex Hnb Hled. unfold WriteTool.execute. now rewrite Hex, Hnb, Hled. Qed.

Lemma edit_rejects_unread (w : World) (file_path old_string new_string : string)
    (ledger : Ledger) :
  old_string <> new_string -> old_string <> "" ->
  os.path_exists w (full_path w file_path) = true ->
  PyStr.endswith (full_path w file_path) ".ipynb" = false ->
  ledger !! full_path w file_path = None ->
  EditTool.validate_input w file_path old_string new_string ledger
  = (false, Some Msg.unread).
Proof.
  intros Hne Hold Hex Hnb Hled.
  rewrite validate_input_to_ledger by assumption. now rewrite Hled.
Qed.

Lemma write_rejects_stale (w : World) (file_path text : string) (ledger : Ledger)
    (read_timestamp last_write_time : Z) :
  PyStr.endswith (full_path w file_path) ".ipynb" = false ->
  ledger !! full_path w file_path = Some read_timestamp ->
  read_timestamp <> 0 ->
  os.getmtime w (full_path w file_path) = Ok last_write_time ->
  read_timestamp < last_write_time ->
  WriteTool.execute w file_path text ledger = (WriteFailure Msg.stale file_path, w, ledger).
Proof.
  intros Hnb Hled Hts Hm Hlt.
  pose proof (exists_of_getmtime _ _ _ Hm) as Hex.
  assert ((read_timestamp =? 0) = false) as Hz by now apply Z.eqb_neq.
  assert ((last_write_time >? read_timestamp) = true) as Hgt by (apply Z.gtb_lt; lia).
  unfold WriteTool.execute. now rewrite Hex, Hnb, Hled, Hz, Hm, Hgt.
Qed.

Lemma edit_rejects_stale (w : World) (file_path old_string new_string : string)
    (ledger : Ledger) (read_timestamp last_write_time : Z) :
  old_string <> new_string -> old_string <> "" ->
  PyStr.endswith (full_path w file_path) ".ipynb" = false ->
  ledger !! full_path w file_path = Some read_timestamp ->
  read_timestamp <> 0 ->
  os.getmtime w (full_path w file_path) = Ok last_write_time ->
  read_timestamp < last_write_time ->
  EditTool.validate_input w file_path old_string new_string ledger
  = (false, Some Msg.stale).
Proof.
  intros Hne Hold Hnb Hled Hts Hm Hlt.
  pose proof (exists_of_getmtime _ _ _ Hm) as Hex.
  assert ((read_timestamp =? 0) = false) as Hz by now apply Z.eqb_neq.
  assert ((last_write_time >? read_timestamp) = true) as Hgt by (apply Z.gtb_lt; lia).
  rewrite validate_input_to_ledger by assumption. now rewrite Hled, Hz, Hm, Hgt.
Qed.

End Rejections.

(** C2, as amended.  A file that exists, is not a notebook and has no
    ledger entry is refused by the write tool with the unread message,
    whatever it holds; so it is by edit validation (and [execute]) when
    the edit is not a no-op and [old_string] is not empty.  Nothing is
    changed. *)
Theorem unread_file_rejected `{PyLib} (w : World)
    (file_path old_string new_string text : string) (ledger : Ledger) :
  os.path_exists w (full_path w file_path) = true ->
  PyStr.endswith (full_path w file_path) ".ipynb" = false ->
  ledger !! full_path w file_path = None ->
  WriteTool.execute w file_path text ledger = (WriteFailure Msg.unread file_path, w, ledger)
  /\ (old_string <> new_string -> old_string <> "" ->
      EditTool.validate_input w file_path old_string new_string ledger
      = (false, Some Msg.unread)
      /\ EditTool.execute w file_path old_string new_string ledger
         = (Ok (EditFailure (Some Msg.unread) file_path), w, ledger)).
Proof.
  intros Hex Hnb Hled. split.
  - now apply write_rejects_unread.
  - intros Hne Hold.
    pose proof (edit_rejects_unread w file_path _ _ ledger Hne Hold Hex Hnb Hled) as Hv.
    split; [exact Hv | now apply edit_execute_rejected].
Qed.

(** C3, as amended.  A file that is not a notebook, whose ledger entry
    is a non-zero timestamp older than its modification time, is
    refused by the write tool with the stale message; so it is by edit
    validation (and [execute]) when the edit is not a no-op and
    [old_string] is not empty.  Nothing is changed. *)
Theorem stale_file_rejected `{PyLib} (w : World)
    (file_path old_string new_string text : string) (ledger : Ledger)
    (read_timestamp last_write_time : Z) :
  PyStr.endswith (full_path w file_path) ".ipynb" = false ->
  ledger !! full_path w file_path = Some read_timestamp ->
  read_timestamp <> 0 ->
  os.getmtime w (full_path w file_path) = Ok last_write_time ->
  read_timestamp < last_write_time ->
  WriteTool.execute w file_path text ledger = (WriteFailure Msg.stale file_path, w, ledger)
  /\ (old_string <> new_string -> old_string <> "" ->
      EditTool.validate_input w file_path old_string new_string ledger
      = (false, Some Msg.stale)
      /\ EditTool.execute w file_path old_string new_string ledger
         = (Ok (EditFailure (Some Msg.stale) file_path), w, ledger)).
Proof.
  intros Hnb Hled Hts Hm Hlt. split.
  - now apply (write_rejects_stale w file_path text ledger read_timestamp last_write_time).
  - intros Hne Hold.
    pose proof (edit_rejects_stale w file_path _ _ ledger _ _ Hne Hold Hnb Hled Hts Hm Hlt)
      as Hv.
    split; [exact Hv | now apply edit_execute_rejected].
Qed.

(** C2: the claim fails on a notebook. The notebook of the scenario
    exists and has no ledger entry, and both tools refuse it with the
    notebook message, not the unread one. *)
Lemma unread_notebook_gets_notebook_error :
  os.path_exists Scenario.world (full_path Scenario.world "nb.ipynb") = true
  /\ Scenario.ledger !! full_path Scenario.world "nb.ipynb" = None
  /\ EditTool.validate_input Scenario.world "nb.ipynb" "foo" "baz" Scenario.ledger
     = (false, Some Msg.notebook)
  /\ @WriteTool.execute Scenario.plain_lib Scenario.world "nb.ipynb" "baz" Scenario.ledger
     = (WriteFailure Msg.notebook "nb.ipynb", Scenario.world, Scenario.ledger)
  /\ Msg.notebook <> Msg.unread.
Proof. repeat split; try (vm_compute; reflexivity). discriminate. Qed.

(** C3: the claim fails on a notebook. The notebook of the scenario has
    a ledger entry (5) older than its modification time (10), and both
    tools refuse it with the notebook message, not the stale one. *)
Lemma stale_notebook_gets_notebook_error :
  Scenario.ledger_nb !! full_path Scenario.world "nb.ipynb" = Some 5
  /\ os.getmtime Scenario.world (full_path Scenario.world "nb.ipynb") = Ok 10
  /\ EditTool.validate_input Scenario.world "nb.ipynb" "foo" "baz" Scenario.ledger_nb
     = (false, Some Msg.notebook)
  /\ @WriteTool.execute Scenario.plain_lib Scenario.world "nb.ipynb" "baz" Scenario.ledger_nb
     = (WriteFailure Msg.notebook "nb.ipynb", Scenario.world, Scenario.ledger_nb)
  /\ Msg.notebook <> Msg.stale.
Proof. repeat split; try (vm_compute; reflexivity). discriminate. Qed.

(** ** Writing *)

Section WriteFacts.
Context `{PyLib}.

(** A regular file that can be read and written, in a directory. *)
Lemma write_existing (w : World) (file_path text : string) (ledger : Ledger)
    (f : File) (read_timestamp : Z) :
  PyStr.endswith (full_path w file_path) ".ipynb" = false ->
  ledger !! full_path w file_path = Some read_timestamp ->
  read_timestamp <> 0 ->
  nodes w !! full_path w file_path = Some (RegularFile f) ->
  mtime f <= read_timestamp ->
  readable f = true -> writable f = true ->
  os.isdir w (EditTool.parent_or_dot (full_path w file_path)) = true ->
  WriteTool.execute w file_path text ledger
  = (WriteSuccess file_path text Update
       (if PyStr.truthy (PyStr.universal_newlines (content f))
        then unified_diff (PyStr.universal_newlines (content f)) text file_path
        else []),
     os.set_node w (full_path w file_path)
                 (RegularFile (os.written w (full_path w file_path) text)),
     <[full_path w file_path := clock w]> ledger).
Proof.
  intros Hnb Hled Hts Hnode Hm Hr Hw Hdir.
  unfold WriteTool.execute, WriteTool._read_file, WriteTool._write_file.
  unfold os.path_exists, os.getmtime, os.read_text, os.read_bytes, os.write_text.
  rewrite (makedirs_directory _ _ Hdir), Hnode, Hnb, Hled, Hr, Hw.
  destruct (Z.eqb_spec read_timestamp 0) as [|_]; [contradiction |].
  destruct (Z.gtb_spec (mtime f) read_timestamp) as [|_]; [lia |].
  unfold os.set_node. simpl. now rewrite lookup_insert_eq.
Qed.


End WriteFacts.


(** ** Editing *)

Section EditFacts.
Context `{PyLib}.

(** [get_snippet] raises only on an empty [old_str] in a non-empty
    text. *)
Lemma get_snippet_ok (initial_text old_str new_str : string) :
  old_str <> "" ->
  exists snippet start_line,
    EditTool.get_snippet initial_text old_str new_str = Ok (snippet, start_line).
Proof.
  intros Hold. unfold EditTool.get_snippet.
  destruct (String.eqb_spec old_str "") as [|_]; [contradiction |].
  rewrite andb_false_r.
  destruct (PyStr.find old_str initial_text); eauto.
Qed.

(** What validation decides once the earlier checks have passed: it
    is a matter of [count] on the text as read. *)
Lemma validate_input_on_text (w : World) (file_path old_string new_string : string)
    (ledger : Ledger) (f : File) (read_timestamp : Z) :
  old_string <> new_string -> old_string <> "" ->
  nodes w !! full_path w file_path = Some (RegularFile f) ->
  PyStr.endswith (full_path w file_path) ".ipynb" = false ->
  ledger !! full_path w file_path = Some read_timestamp ->
  read_timestamp <> 0 -> mtime f <= read_timestamp ->
  readable f = true ->
  EditTool.validate_input w file_path old_string new_string ledger
  = match PyStr.count (PyStr.universal_newlines (content f)) old_string with
    | O => (false, Some Msg.not_found)
    | S O => (true, None)
    | n => (false, Some (Msg.ambiguous n))
    end.
Proof.
  intros Hne Hold Hnode Hnb Hled Hts Hm Hr.
  rewrite validate_input_to_ledger; try assumption.
  2:{ unfold os.path_exists. now rewrite Hnode. }
  rewrite Hled. unfold EditTool._read_file, os.getmtime, os.read_text, os.read_bytes.
  rewrite Hnode, Hr.
  destruct (Z.eqb_spec read_timestamp 0) as [|_]; [contradiction |].
  destruct (Z.gtb_spec (mtime f) read_timestamp) as [|_]; [lia |].
  set (text := PyStr.universal_newlines (content f)).
  pose proof (contains_count old_string text) as Hc.
  destruct (PyStr.count text old_string) as [|[|n]] eqn:Ec.
  - destruct (PyStr.contains old_string text); [| reflexivity].
    destruct Hc as [Hc _]. specialize (Hc eq_refl). lia.
  - destruct (PyStr.contains old_string text); [reflexivity |].
    destruct Hc as [_ Hc]. discriminate Hc. lia.
  - destruct (PyStr.contains old_string text); [reflexivity |].
    destruct Hc as [_ Hc]. discriminate Hc. lia.
Qed.

(** What [execute] does once validation has passed on a regular file
    that can be read and written, in a directory. *)
Lemma edit_execute_valid (w : World) (file_path old_string new_string : string)
    (ledger : Ledger) (f : File) :
  EditTool.validate_input w file_path old_string new_string ledger = (true, None) ->
  old_string <> "" ->
  nodes w !! full_path w file_path = Some (RegularFile f) ->
  readable f = true -> writable f = true ->
  os.isdir w (EditTool.parent_or_dot (full_path w file_path)) = true ->
  let original_file := PyStr.universal_newlines (content f) in
  let updated_file := PyStr.replace_first original_file old_string new_string in
  exists snippet start_line,
    EditTool.execute w file_path old_string new_string ledger
    = (Ok (EditSuccess file_path snippet start_line
                       (unified_diff original_file updated_file file_path)
                       original_file updated_file),
       os.set_node w (full_path w file_path)
                   (RegularFile {| content := updated_file; mtime := clock w;
                                   readable := true; writable := true |}),
       <[full_path w file_path := clock w]> ledger).
Proof.
  intros Hv Hold Hnode Hr Hw Hdir original_file updated_file.
  destruct (get_snippet_ok original_file old_string new_string Hold)
    as (snippet & start_line & Hsn).
  exists snippet, start_line.
  unfold EditTool.execute. rewrite Hv, (makedirs_directory _ _ Hdir).
  unfold EditTool._read_file, EditTool._write_file.
  unfold os.path_exists, os.read_text, os.read_bytes, os.write_text, os.written.
  rewrite Hnode, Hr, Hw.
  destruct (String.eqb_spec old_string "") as [|_]; [contradiction |].
  fold original_file. fold updated_file.
  unfold os.getmtime, os.set_node. simpl. rewrite lookup_insert_eq. simpl.
  now rewrite Hsn.
Qed.

End EditFacts.

(** C1, as amended.  Let the earlier checks of edit validation pass:
    [old_string] differs from [new_string] and is not empty, the path
    names a readable regular file that is not a notebook, its ledger
    entry is non-zero and not older than its modification time; and
    let the stored text hold no carriage return.  If [count] finds
    [old_string] once in the text, validation passes, and
    [EditTool.execute], when the file is writable and lies in a
    directory, succeeds: the text splits as [pre ++ old_string ++ post]
    at the leftmost occurrence, [old_string] does not occur in [post],
    and the file then holds [pre ++ new_string ++ post].  If [count]
    finds none, validation fails with the not-found message; if it
    finds two or more, with the multiple-matches message. *)
Theorem edit_single_occurrence `{PyLib} (w : World)
    (file_path old_string new_string : string) (ledger : Ledger)
    (f : File) (read_timestamp : Z) :
  let p := full_path w file_path in
  old_string <> new_string -> old_string <> "" ->
  nodes w !! p = Some (RegularFile f) ->
  PyStr.endswith p ".ipynb" = false ->
  ledger !! p = Some read_timestamp -> read_timestamp <> 0 ->
  mtime f <= read_timestamp ->
  readable f = true ->
  PyStr.no_cr (content f) = true ->
  (PyStr.count (content f) old_string = 1%nat ->
     EditTool.validate_input w file_path old_string new_string ledger = (true, None)
     /\ (writable f = true -> os.isdir w (EditTool.parent_or_dot p) = true ->
         exists pre post snippet start_line diff,
           content f = pre ++ old_string ++ post
           /\ PyStr.find old_string (content f) = Some (String.length pre)
           /\ PyStr.contains old_string post = false
           /\ EditTool.execute w file_path old_string new_string ledger
              = (Ok (EditSuccess file_path snippet start_line diff
                                 (content f) (pre ++ new_string ++ post)),
                 os.set_node w p
                   (RegularFile {| content := pre ++ new_string ++ post; mtime := clock w;
                                   readable := true; writable := true |}),
                 <[p := clock w]> ledger)))
  /\ (PyStr.count (content f) old_string = 0%nat ->
      EditTool.validate_input w file_path old_string new_string ledger
      = (false, Some Msg.not_found))
  /\ ((2 <= PyStr.count (content f) old_string)%nat ->
      EditTool.validate_input w file_path old_string new_string ledger
      = (false, Some (Msg.ambiguous (PyStr.count (content f) old_string)))).
Proof.
  intros p Hne Hold Hnode Hnb Hled Hts Hm Hr Hcr. subst p.
  pose proof (validate_input_on_text w file_path old_string new_string ledger f
                read_timestamp Hne Hold Hnode Hnb Hled Hts Hm Hr) as Hv.
  rewrite (universal_newlines_id _ Hcr) in Hv.
  split; [| split].
  - intros Hc. rewrite Hc in Hv. split; [exact Hv |].
    intros Hw Hdir.
    destruct (unique_occurrence (content f) old_string new_string Hold Hc)
      as (pre & post & Hsplit & Hfind & Hpost & Hrep).
    destruct (edit_execute_valid w file_path old_string new_string ledger f
                Hv Hold Hnode Hr Hw Hdir) as (snippet & start_line & Hex).
    rewrite (universal_newlines_id _ Hcr), Hrep in Hex.
    exists pre, post, snippet, start_line. eexists.
    repeat split; [exact Hsplit | exact Hfind | exact Hpost | exact Hex].
  - intros Hc. now rewrite Hc in Hv.
  - intros Hc. destruct (PyStr.count (content f) old_string) as [|[|n]]; [lia | lia | exact Hv].
Qed.

(** C1: the claim fails on a file that cannot be written.  In the
    scenario [/w/ro.txt] holds ["foo"] once, was read at its
    modification time, and validation passes; but the write is refused
    and [execute] returns a failure, the file unchanged. *)
Lemma edit_of_read_only_file_fails :
  PyStr.count Scenario.a_txt "foo" = 1%nat
  /\ nodes Scenario.world !! "/w/ro.txt"
     = Some (Scenario.file Scenario.a_txt 10 true false)
  /\ Scenario.ledger !! "/w/ro.txt" = Some 10
  /\ EditTool.validate_input Scenario.world "ro.txt" "foo" "baz" Scenario.ledger
     = (true, None)
  /\ @EditTool.execute Scenario.plain_lib Scenario.world "ro.txt" "foo" "baz" Scenario.ledger
     = (Ok (EditFailure
              (Some "Failed to write file: [Errno 13] Permission denied: '/w/ro.txt'")
              "ro.txt"),
        Scenario.world, Scenario.ledger).
Proof. repeat split; vm_compute; reflexivity. Qed.


(** ** Writing, then reading *)

Section RoundTrip.
Context `{PyLib}.

(** What a successful write went through. *)
Lemma write_success_inv (w w' : World) (file_path text fp tx : string)
    (ledger ledger' : Ledger) (kind : WriteKind) (diff : list string) :
  WriteTool.execute w file_path text ledger = (WriteSuccess fp tx kind diff, w', ledger') ->
  exists w1,
    os.makedirs w (EditTool.parent_or_dot (full_path w file_path)) = Ok w1
    /\ os.write_text w1 (full_path w file_path) text = Ok w'
    /\ ledger' = <[full_path w file_path := clock w]> ledger
    /\ (os.path_exists w (full_path w file_path) = true ->
        exists old, os.read_text w (full_path w file_path) = Ok old).
Proof.
  unfold WriteTool.execute, WriteTool._read_file, WriteTool._write_file.
  set (p := full_path w file_path).
  destruct (if os.path_exists w p then _ else None) as [err|] eqn:Hrej; [discriminate |].
  destruct (if os.path_exists w p then os.read_text w p else Ok "") as [old|e] eqn:Hold;
    [| discriminate].
  destruct (os.makedirs w (EditTool.parent_or_dot p)) as [w1|e] eqn:Hmk; [| discriminate].
  destruct (os.write_text w1 p text) as [w2|e] eqn:Hwr; [| discriminate].
  rewrite (write_text_getmtime _ _ _ _ Hwr).
  destruct (makedirs_keeps _ _ _ Hmk) as (Hclk & _).
  intros Hx. injection Hx as _ _ _ _ <- <-.
  exists w1. rewrite Hclk. split; [reflexivity |]. split; [exact Hwr |].
  split; [reflexivity |].
  intros Hex. rewrite Hex in Hold. eauto.
Qed.

(** The file a successful write leaves can be read. *)
Lemma write_success_readable (w w1 w' : World) (p d text : string) :
  os.makedirs w d = Ok w1 ->
  os.write_text w1 p text = Ok w' ->
  (os.path_exists w p = true -> exists old, os.read_text w p = Ok old) ->
  readable (os.written w1 p text) = true.
Proof.
  intros Hmk Hwr Hold. unfold os.written.
  destruct (nodes w1 !! p) as [[f0|t]|] eqn:E1; try reflexivity.
  assert (nodes w !! p = Some (RegularFile f0)) as E0
    by now apply (makedirs_file _ _ _ _ _ Hmk).
  destruct Hold as [old Hold]; [unfold os.path_exists; now rewrite E0 |].
  unfold os.read_text, os.read_bytes in Hold. rewrite E0 in Hold.
  now destruct (readable f0).
Qed.

Lemma slice_from_zero {A} (l : list A) : PyStr.slice_from l 0 = l.
Proof.
  unfold PyStr.slice_from, PyStr.clamp_index.
  change (0 <? 0) with false. cbv iota.
  replace (Z.min 0 (Z.of_nat (List.length l))) with 0 by lia. reflexivity.
Qed.

(** Reading, with no offset and no limit, a text file that is small
    enough and holds no carriage return. *)
Lemma read_plain_text (w : World) (file_path : string) (ledger : Ledger) (f : File) :
  nodes w !! full_path w file_path = Some (RegularFile f) ->
  readable f = true ->
  ReadTool._is_image_file (full_path w file_path) = false ->
  Z.of_nat (String.length (content f)) <= ReadTool.MAX_OUTPUT_SIZE ->
  PyStr.no_cr (content f) = true ->
  ReadTool.execute w file_path None None (Some ledger)
  = (Ok (ReadText file_path (content f)
                  (List.length (PyStr.readlines (content f)))
                  (List.length (PyStr.readlines (content f))) 1),
     Some (<[full_path w file_path := mtime f]> ledger)).
Proof.
  intros Hnode Hr Himg Hsize Hcr.
  assert ((Z.of_nat (String.length (content f)) >? ReadTool.MAX_OUTPUT_SIZE) = false)
    as Hsmall.
  { destruct (Z.gtb_spec (Z.of_nat (String.length (content f))) ReadTool.MAX_OUTPUT_SIZE);
      [lia | reflexivity]. }
  unfold ReadTool.execute, ReadTool._read_text_file, ReadTool.record_read.
  unfold os.path_exists, os.isdir, os.getsize, os.read_text, os.read_bytes, os.getmtime.
  rewrite Hnode, Himg, Hr.
  change (ReadTool.given None) with false. change (Z.max 0 0) with 0.
  cbv beta iota. rewrite Hsmall. cbn [negb andb].
  rewrite (universal_newlines_id _ Hcr), slice_from_zero, join_readlines, Hsmall.
  reflexivity.
Qed.

End RoundTrip.

(** C8, as amended.  After a [WriteTool.execute] that succeeds, the
    ledger entry of the resolved path is the new modification time of
    the file; and if the path has no image extension and the text is
    at most [MAX_OUTPUT_SIZE] long and holds no carriage return, a
    [ReadTool.execute] on the same path that follows immediately (no
    offset, no limit) succeeds and returns exactly the text written. *)
Theorem write_then_read `{PyLib} (w w' : World) (file_path text : string)
    (ledger ledger' : Ledger) (kind : WriteKind) (diff : list string) :
  WriteTool.execute w file_path text ledger
  = (WriteSuccess file_path text kind diff, w', ledger') ->
  (ledger' !! full_path w file_path = Some (clock w)
   /\ os.getmtime w' (full_path w file_path) = Ok (clock w))
  /\ (ReadTool._is_image_file (full_path w file_path) = false ->
      Z.of_nat (String.length text) <= ReadTool.MAX_OUTPUT_SIZE ->
      PyStr.no_cr text = true ->
      exists line_count,
        ReadTool.execute w' file_path None None (Some ledger')
        = (Ok (ReadText file_path text line_count line_count 1), Some ledger')).
Proof.
  intros Hx.
  destruct (write_success_inv _ _ _ _ _ _ _ _ _ _ Hx) as (w1 & Hmk & Hwr & -> & Hold).
  destruct (makedirs_keeps _ _ _ Hmk) as (Hclk & Hcwd & _).
  pose proof (write_text_getmtime _ _ _ _ Hwr) as Hgm. rewrite Hclk in Hgm.
  split; [split; [apply lookup_insert_eq | exact Hgm] |].
  intros Himg Hsize Hcr.
  pose proof (write_success_readable _ _ _ _ _ _ Hmk Hwr Hold) as Hr.
  destruct (write_text_ok _ _ _ _ Hwr) as [Hw' _].
  assert (full_path w' file_path = full_path w file_path) as Hp.
  { unfold full_path. rewrite Hw'. simpl. now rewrite Hcwd. }
  assert (nodes w' !! full_path w' file_path
          = Some (RegularFile (os.written w1 (full_path w file_path) text))) as Hnode.
  { rewrite Hp, Hw'. unfold os.set_node. simpl. apply lookup_insert_eq. }
  eexists.
  rewrite (read_plain_text w' file_path _ _ Hnode Hr); try (rewrite ?Hp; assumption).
  rewrite Hp. cbn [os.written content mtime]. rewrite Hclk.
  now rewrite insert_insert_eq.
Qed.

(** C8: the claim fails on a path with an image extension.  Writing
    ["baz"] to [pic.png] succeeds, and the read that follows succeeds
    too, but returns an image result (the encoded bytes and a media
    type), not the text. *)
Lemma read_after_write_of_png_is_image :
  @WriteTool.execute Scenario.plain_lib Scenario.world "pic.png" "baz" Scenario.ledger
  = (WriteSuccess "pic.png" "baz" Create [],
     os.set_node Scenario.world "/w/pic.png" (Scenario.file "baz" 20 true true),
     <["/w/pic.png" := 20]> Scenario.ledger)
  /\ @ReadTool.execute Scenario.plain_lib
       (os.set_node Scenario.world "/w/pic.png" (Scenario.file "baz" 20 true true))
       "pic.png" None None (Some (<["/w/pic.png" := 20]> Scenario.ledger))
     = (Ok (ReadImage (@b64encode Scenario.plain_lib "baz") "image/png" "/w/pic.png"),
        Some (<["/w/pic.png" := 20]> Scenario.ledger)).
Proof. split; vm_compute; reflexivity. Qed.

(** ** The conversation loop *)

Section ClientFacts.
Context `{Runtime}.
Implicit Types (env : Env) (create : ModelApi).

Lemma env_eq (c1 c2 : nat) (t1 t2 : list Event) (s1 s2 : ExecState) :
  c1 = c2 -> t1 = t2 -> s1 = s2 ->
  {| calls := c1; trace := t1; exec_state := s1 |}
  = {| calls := c2; trace := t2; exec_state := s2 |}.
Proof. now intros -> -> ->. Qed.

(** An attempt that is answered. *)
Lemma request_answered create api_messages tools remaining attempt env response :
  create (calls env) api_messages tools = Ok response ->
  OpenAIClient.request create api_messages tools (S remaining) attempt env
  = (Ok response, count_call env).
Proof. intros Hc. cbn [OpenAIClient.request]. now rewrite Hc. Qed.

(** An attempt that raises and is not retried. *)
Lemma request_raises create api_messages tools remaining attempt env e :
  create (calls env) api_messages tools = Raise e ->
  OpenAIClient.is_rate_limited e = false \/ (9 <= attempt)%nat ->
  OpenAIClient.request create api_messages tools (S remaining) attempt env
  = (Raise e, count_call env).
Proof.
  intros Hc Hno. cbn [OpenAIClient.request]. rewrite Hc.
  change (OpenAIClient.retry_attempts - 1)%nat with 9%nat.
  destruct Hno as [-> | Hatt]; [reflexivity |].
  destruct (Nat.ltb_spec attempt 9) as [Hlt|_]; [lia |].
  now rewrite andb_false_r.
Qed.

(** [k] rate-limited attempts in a row are each followed by a sleep
    and another attempt. *)
Lemma request_backoff create api_messages tools (k : nat) :
  forall remaining attempt env,
    (forall j, (j < k)%nat ->
       exists e, create (calls env + j)%nat api_messages tools = Raise e
                 /\ OpenAIClient.is_rate_limited e = true) ->
    (attempt + k <= 9)%nat ->
    OpenAIClient.request create api_messages tools (k + remaining) attempt env
    = OpenAIClient.request create api_messages tools remaining (attempt + k)
                           (after_backoff env attempt k).
Proof.
  induction k as [|k IH]; intros remaining attempt env Hfail Hle.
  - cbn [Nat.add]. rewrite Nat.add_0_r. f_equal. unfold after_backoff.
    destruct env; simpl.
    apply env_eq; [lia | now rewrite app_nil_r | reflexivity].
  - destruct (Hfail 0%nat ltac:(lia)) as (e & He & Hrl).
    rewrite Nat.add_0_r in He. cbn [Nat.add OpenAIClient.request]. rewrite He, Hrl.
    change (OpenAIClient.retry_attempts - 1)%nat with 9%nat.
    destruct (Nat.ltb_spec attempt 9) as [_|Hge]; [| lia].
    cbn [andb]. rewrite IH.
    + replace (S attempt + k)%nat with (attempt + S k)%nat by lia. f_equal.
      unfold after_backoff, emit, count_call. simpl.
      apply env_eq; [lia | | reflexivity].
      rewrite <- !app_assoc. reflexivity.
    + intros j Hj. destruct (Hfail (S j) ltac:(lia)) as (e' & He' & Hrl').
      exists e'. split; [| exact Hrl']. unfold emit, count_call. simpl.
      rewrite <- He'. f_equal. lia.
    + lia.
Qed.

Lemma is_rate_limited_iff (e : Exn) :
  OpenAIClient.is_rate_limited e = true
  <-> status_code e = Some 429
      \/ PyStr.contains "rate limit" (PyStr.lower (message e)) = true
      \/ PyStr.contains "max rpm" (PyStr.lower (message e)) = true.
Proof.
  unfold OpenAIClient.is_rate_limited. rewrite !orb_true_iff.
  destruct (status_code e) as [s|]; simpl.
  - rewrite Z.eqb_eq. split.
    + intros [[->|?]|?]; auto.
    + intros [Hs|[?|?]]; auto. injection Hs as ->. auto.
  - split.
    + intros [[?|?]|?]; auto. discriminate.
    + intros [?|[?|?]]; auto. discriminate.
Qed.

(** An exception that leaves [request] leaves the conversation. *)
Lemma conversation_raises create tools tool_executor remaining iteration api_messages
    tt tc env e env1 :
  OpenAIClient.request create api_messages tools OpenAIClient.retry_attempts 0
                       (emit (EvIteration iteration) env) = (Raise e, env1) ->
  OpenAIClient.conversation create tools tool_executor (S remaining) iteration
                            api_messages tt tc env = (Raise e, env1).
Proof. intros Hr. cbn [OpenAIClient.conversation]. now rewrite Hr. Qed.

End ClientFacts.

(** C5. An exception raised by the model call is classified as
    rate-limited when its status code is 429 or its lower-cased text
    contains "rate limit" or "max rpm".  After [k <= 9] rate-limited
    failures in a row, each followed by a sleep of 2 * 2^attempt
    seconds (2, 4, 8, ...), attempt [k] is made: if it is answered the
    response is used; if it raises an exception that is not
    rate-limited, that exception leaves the conversation at once (for
    [k = 0]: on the first attempt, with no sleep and no retry); and if
    it is the tenth attempt ([k = 9]) its exception leaves the
    conversation, rate-limited or not. *)
Theorem rate_limit_backoff `{Runtime} (create : ModelApi) (tools : option (list ToolSchema))
    (tool_executor : option ToolExecutor) (remaining iteration : nat)
    (api_messages : list Message) (total_tokens tool_use_count : Z) (env : Env) (k : nat) :
  (k <= 9)%nat ->
  (forall j, (j < k)%nat ->
     exists e, create (calls env + j)%nat api_messages tools = Raise e
               /\ OpenAIClient.is_rate_limited e = true) ->
  let after :=
    {| calls := calls env + k + 1;
       trace := trace env ++ [EvIteration iteration]
                ++ backoff_events (calls env) 0 k ++ [EvCall (calls env + k)];
       exec_state := exec_state env |} in
  (forall e, OpenAIClient.is_rate_limited e = true
             <-> status_code e = Some 429
                 \/ PyStr.contains "rate limit" (PyStr.lower (message e)) = true
                 \/ PyStr.contains "max rpm" (PyStr.lower (message e)) = true)
  /\ (forall response,
        create (calls env + k)%nat api_messages tools = Ok response ->
        OpenAIClient.request create api_messages tools OpenAIClient.retry_attempts 0
                             (emit (EvIteration iteration) env)
        = (Ok response, after))
  /\ (forall e,
        create (calls env + k)%nat api_messages tools = Raise e ->
        OpenAIClient.is_rate_limited e = false ->
        OpenAIClient.conversation create tools tool_executor (S remaining) iteration
                                  api_messages total_tokens tool_use_count env
        = (Raise e, after))
  /\ (forall e,
        k = 9%nat ->
        create (calls env + k)%nat api_messages tools = Raise e ->
        OpenAIClient.conversation create tools tool_executor (S remaining) iteration
                                  api_messages total_tokens tool_use_count env
        = (Raise e, after)).
Proof.
  intros Hk Hfail after.
  set (env0 := emit (EvIteration iteration) env).
  assert (OpenAIClient.request create api_messages tools OpenAIClient.retry_attempts 0 env0
          = OpenAIClient.request create api_messages tools (S (9 - k)) k
                                 (after_backoff env0 0 k)) as Hstep.
  { replace OpenAIClient.retry_attempts with (k + S (9 - k))%nat
      by (unfold OpenAIClient.retry_attempts; lia).
    rewrite request_backoff; [reflexivity | exact Hfail | lia]. }
  assert (count_call (after_backoff env0 0 k) = after) as Hafter.
  { unfold count_call, after_backoff, after, env0, emit. simpl.
    apply env_eq; [lia | | reflexivity]. now rewrite <- !app_assoc. }
  split; [exact is_rate_limited_iff |].
  split; [| split].
  - intros response Hr. rewrite Hstep, <- Hafter. now apply request_answered.
  - intros e He Hno. apply conversation_raises. fold env0.
    rewrite Hstep, <- Hafter. apply request_raises; [exact He | now left].
  - intros e -> He. apply conversation_raises. fold env0.
    rewrite Hstep, <- Hafter. apply request_raises; [exact He | right; lia].
Qed.

Section Termination.
Context `{Runtime}.
Implicit Types (env : Env) (responses : nat -> Response).

Lemma iterations_of_app (t u : list Event) :
  iterations_of (t ++ u) = (iterations_of t + iterations_of u)%nat.
Proof. unfold iterations_of. now rewrite List.filter_app, length_app. Qed.







End Termination.



(** ** The fan-out *)

Section FanOut.
Context `{Runtime}.

Lemma collect_length (results : list (result AgentResult)) :
  forall i, List.length (ParallelExecutor.collect i results) = List.length results.
Proof.
  induction results as [|[r|e] rest IH]; intros i; simpl; [reflexivity | |];
    now rewrite IH.
Qed.

(** Position [j] of what [collect] returns is the outcome at
    position [j], a raised exception replaced by the degraded result
    of that index. *)
Lemma collect_lookup (results : list (result AgentResult)) :
  forall i j x,
    results !! j = Some x ->
    ParallelExecutor.collect i results !! j
    = Some (match x with
            | Ok r => r
            | Raise e => ParallelExecutor.failed_agent (i + j) e
            end).
Proof.
  induction results as [|y rest IH]; intros i j x Hj; [discriminate |].
  destruct j as [|j]; simpl in Hj.
  - injection Hj as ->. rewrite Nat.add_0_r. now destruct x.
  - specialize (IH (S i) j x Hj).
    replace (i + S j)%nat with (S i + j)%nat by lia.
    destruct y; simpl; exact IH.
Qed.

Lemma execute_agent_task_index (te : TaskEnv) (task_prompt : string) (index : Z)
    (agent_config : AgentConfig) (functions : option (list ToolSchema))
    (function_executor : option ToolExecutor) (max_iterations : Z) (r : AgentResult) :
  ParallelExecutor.execute_agent_task te task_prompt index agent_config functions
                                      function_executor max_iterations = Ok r ->
  agent_index r = index.
Proof.
  unfold ParallelExecutor.execute_agent_task.
  destruct (fst _) as [q|e]; intros Hr; [| discriminate]. now injection Hr as <-.
Qed.

(** The synthesis pass, when its one request is answered. *)
Lemma synthesize_answered (te : TaskEnv) (original_task : string)
    (agent_results : list AgentResult) (agent_config : AgentConfig) (response : Response) :
  (forall api_messages tools,
     api te (calls (start te)) api_messages tools = Ok response) ->
  ParallelExecutor.synthesize_results te original_task agent_results agent_config
  = Ok {| agent_index := -1;
          content_of := match resp_tool_calls response with
                        | [] => default "" (resp_content response)
                        | _ => "Maximum tool call iterations reached"
                        end;
          tool_use_count := 0;
          tokens := usage_of response;
          duration_ms := elapsed_ms te |}.
Proof.
  intros Hans. unfold ParallelExecutor.synthesize_results, OpenAIClient.query.
  change (Z.to_nat 1) with 1%nat. cbn [OpenAIClient.conversation].
  change OpenAIClient.retry_attempts with (S 9).
  erewrite request_answered by apply Hans.
  unfold usage_of. destruct (resp_tool_calls response); reflexivity.
Qed.

End FanOut.

(** C6. For [num_agents >= 1], [execute_parallel_tasks] returns exactly
    [num_agents] results; the one at position [i] has agent index [i]:
    it is the result of participant [i] if that participant returned,
    and if it raised, the degraded result with the failure description
    as content and zero tool uses (and tokens, and duration).  No
    exception of a participant leaves the fan-out; and in
    [AgentTool.execute] with more than one agent the synthesis pass
    runs on these results whatever the participants did: when its
    request is answered the tool returns the synthesis, with the tool
    uses summed over all results. *)
Theorem fan_out_tolerates_failures `{Runtime} (envs : nat -> TaskEnv) (task_prompt : string)
    (agent_config : AgentConfig) (num_agents : Z) (functions : option (list ToolSchema))
    (function_executor : option ToolExecutor) (max_iterations : Z) :
  1 <= num_agents ->
  let results :=
    ParallelExecutor.execute_parallel_tasks envs task_prompt agent_config num_agents
                                            functions function_executor max_iterations in
  let participant (i : nat) :=
    ParallelExecutor.execute_agent_task (envs i)
      (task_prompt ++ String PyStr.LF (String PyStr.LF
         "Provide a thorough and complete analysis."))
      (Z.of_nat i) agent_config functions function_executor max_iterations in
  Z.of_nat (List.length results) = num_agents
  /\ (forall i, Z.of_nat i < num_agents ->
        exists r,
          results !! i = Some r
          /\ agent_index r = Z.of_nat i
          /\ match participant i with
             | Ok returned => r = returned
             | Raise e =>
                 r = {| agent_index := Z.of_nat i;
                        content_of := "Agent execution failed: " ++ message e;
                        tool_use_count := 0; tokens := 0; duration_ms := 0 |}
             end)
  /\ (forall project_agents synth subagent_type all_functions response,
        find_agent_by_type project_agents subagent_type = Some agent_config ->
        1 < num_agents ->
        (forall api_messages tools,
           api synth (calls (start synth)) api_messages tools = Ok response) ->
        exists answer,
          AgentTool.execute project_agents envs synth task_prompt subagent_type
                            all_functions function_executor num_agents = Ok answer
          /\ at_content answer = match resp_tool_calls response with
                                 | [] => default "" (resp_content response)
                                 | _ => "Maximum tool call iterations reached"
                                 end
          /\ at_tool_use_count answer
             = AgentTool.sum_Z
                 (map tool_use_count
                    (ParallelExecutor.execute_parallel_tasks envs task_prompt agent_config
                       num_agents (AgentTool.agent_functions agent_config all_functions)
                       function_executor 10))
          /\ parallel_agents answer = Some num_agents
          /\ synthesis answer = Some true).
Proof.
  intros Hn results participant.
  assert (List.length results = Z.to_nat num_agents) as Hlen.
  { unfold results, ParallelExecutor.execute_parallel_tasks.
    now rewrite collect_length, length_map, length_seq. }
  split; [lia |]. split.
  - intros i Hi.
    assert (map participant (seq 0 (Z.to_nat num_agents)) !! i = Some (participant i)) as Hi'.
    { rewrite list_lookup_fmap, lookup_seq_lt by lia. reflexivity. }
    pose proof (collect_lookup _ 0%nat i _ Hi') as Hc. simpl in Hc.
    fold participant in Hc.
    destruct (participant i) as [returned|e] eqn:Hp.
    + exists returned. split; [exact Hc |]. split; [| reflexivity].
      unfold participant in Hp. now apply execute_agent_task_index in Hp.
    + eexists. split; [exact Hc |]. split; reflexivity.
  - intros project_agents synth subagent_type all_functions response Hfind Hmany Hans.
    unfold AgentTool.execute. rewrite Hfind.
    destruct (Z.ltb_spec 1 num_agents) as [_|]; [| lia].
    rewrite (synthesize_answered synth _ _ _ response Hans).
    eexists. split; [reflexivity |]. simpl. repeat split.
Qed.

(** ** Reading: windows of lines, and what a read leaves in the ledger *)

Section ReadFacts.
Context `{PyLib}.

Lemma join_app (l1 l2 : list string) :
  PyStr.join (l1 ++ l2)%list = PyStr.join l1 ++ PyStr.join l2.
Proof.
  induction l1 as [|x l1 IH]; simpl; [reflexivity |].
  now rewrite IH, append_assoc.
Qed.

Lemma clamp_index_nonneg (len i : Z) :
  0 <= i -> PyStr.clamp_index len i = Z.min i len.
Proof.
  intros Hi. unfold PyStr.clamp_index.
  destruct (Z.ltb_spec i 0); [lia | reflexivity].
Qed.

Lemma clamp_index_range (len i : Z) :
  0 <= len -> 0 <= PyStr.clamp_index len i <= len.
Proof.
  intros Hlen. unfold PyStr.clamp_index. destruct (Z.ltb_spec i 0); lia.
Qed.

(** A slice is a run of consecutive elements. *)
Lemma slice_window {A} (l : list A) (start stop : Z) :
  exists before after,
    l = (before ++ PyStr.slice l start stop ++ after)%list
    /\ Z.of_nat (List.length before) = PyStr.clamp_index (Z.of_nat (List.length l)) start.
Proof.
  unfold PyStr.slice.
  set (len := Z.of_nat (List.length l)).
  pose proof (clamp_index_range len start ltac:(lia)) as Ha.
  set (a := PyStr.clamp_index len start) in *.
  set (k := Z.to_nat (PyStr.clamp_index len stop - a)).
  exists (List.firstn (Z.to_nat a) l), (List.skipn k (List.skipn (Z.to_nat a) l)).
  split.
  - now rewrite List.firstn_skipn, List.firstn_skipn.
  - rewrite List.length_firstn. subst len. lia.
Qed.

Lemma slice_from_window {A} (l : list A) (start : Z) :
  exists before,
    l = (before ++ PyStr.slice_from l start)%list
    /\ Z.of_nat (List.length before) = PyStr.clamp_index (Z.of_nat (List.length l)) start.
Proof.
  unfold PyStr.slice_from.
  set (len := Z.of_nat (List.length l)).
  pose proof (clamp_index_range len start ltac:(lia)) as Ha.
  set (a := PyStr.clamp_index len start) in *.
  exists (List.firstn (Z.to_nat a) l). split.
  - now rewrite List.firstn_skipn.
  - rewrite List.length_firstn. subst len. lia.
Qed.

(** Two windows that meet make the window that starts where the first
    one does. *)
Lemma slice_then_rest {A} (l : list A) (start count : Z) :
  0 <= start -> 0 <= count ->
  (PyStr.slice l start (start + count) ++ PyStr.slice_from l (start + count))%list
  = PyStr.slice_from l start.
Proof.
  intros Hs Hc. unfold PyStr.slice, PyStr.slice_from.
  rewrite !clamp_index_nonneg by lia.
  set (len := Z.of_nat (List.length l)).
  set (a := Z.to_nat (Z.min start len)).
  set (k := Z.to_nat (Z.min (start + count) len - Z.min start len)).
  replace (Z.to_nat (Z.min (start + count) len)) with (k + a)%nat by (subst a k; lia).
  rewrite <- List.skipn_skipn. apply List.firstn_skipn.
Qed.

(** [_read_text_file] on a file that can be read. *)
Lemma read_text_file_lines (w : World) (p : string) (offset limit : option Z)
    (delivered : string) :
  os.read_text w p = Ok delivered ->
  exists selected,
    ReadTool._read_text_file w p offset limit
    = Ok (PyStr.join selected, List.length selected,
          List.length (PyStr.readlines delivered))
    /\ exists before after,
         PyStr.readlines delivered = (before ++ selected ++ after)%list.
Proof.
  intros Hread. unfold ReadTool._read_text_file. rewrite Hread.
  eexists. split; [reflexivity |].
  destruct limit as [l|]; [destruct (ReadTool.given (Some l)) |].
  - destruct (slice_window (PyStr.readlines delivered)
                (Z.max 0 match offset with
                         | Some o => if ReadTool.given offset then o - 1 else 0
                         | None => 0
                         end)
                (Z.max 0 match offset with
                         | Some o => if ReadTool.given offset then o - 1 else 0
                         | None => 0
                         end + l)) as (before & after & Heq & _).
    now exists before, after.
  - destruct (slice_from_window (PyStr.readlines delivered)
                (Z.max 0 match offset with
                         | Some o => if ReadTool.given offset then o - 1 else 0
                         | None => 0
                         end)) as (before & Heq & _).
    exists before, []. now rewrite app_nil_r.
  - destruct (slice_from_window (PyStr.readlines delivered)
                (Z.max 0 match offset with
                         | Some o => if ReadTool.given offset then o - 1 else 0
                         | None => 0
                         end)) as (before & Heq & _).
    exists before, []. now rewrite app_nil_r.
Qed.

End ReadFacts.

(** Closes a goal about an outcome of [ReadTool.execute] that is in sight. *)
Ltac read_outcome := do 2 eexists; split; [reflexivity | cbv beta iota; eauto].

Section ReadOutcome.
Context `{PyLib}.

Lemma read_bytes_inv (w : World) (p raw : string) :
  os.read_bytes w p = Ok raw ->
  exists f, nodes w !! p = Some (RegularFile f) /\ readable f = true /\ raw = content f.
Proof.
  unfold os.read_bytes.
  destruct (nodes w !! p) as [[f|t]|]; try discriminate.
  destruct (readable f) eqn:Hr; [| discriminate].
  intros [= <-]. eauto.
Qed.

Lemma read_text_inv (w : World) (p delivered : string) :
  os.read_text w p = Ok delivered ->
  exists f, nodes w !! p = Some (RegularFile f) /\ readable f = true
            /\ delivered = PyStr.universal_newlines (content f).
Proof.
  unfold os.read_text. destruct (os.read_bytes w p) as [raw|e] eqn:Hraw; [| discriminate].
  destruct (read_bytes_inv _ _ _ Hraw) as (f & Hnode & Hr & ->).
  intros [= <-]. eauto.
Qed.

Lemma record_read_file (w : World) (p : string) (f : File) (ledgers : option Ledger) :
  nodes w !! p = Some (RegularFile f) ->
  ReadTool.record_read w p ledgers
  = Ok ((fun ledger : Ledger => <[p := mtime f]> ledger) <$> ledgers).
Proof.
  intros Hnode. unfold ReadTool.record_read, os.getmtime. rewrite Hnode.
  now destruct ledgers.
Qed.

Lemma getsize_exists (w : World) (p : string) :
  os.path_exists w p = true -> exists n, os.getsize w p = Ok n.
Proof.
  unfold os.path_exists, os.getsize.
  destruct (nodes w !! p) as [[f|t]|]; [eauto | eauto | discriminate].
Qed.

(** The outcomes of [ReadTool.execute]: no exception escapes; a
    failure leaves the ledger as it was; a success is the read of a
    readable regular file, whose modification time it records. *)
Lemma read_execute_outcome (w : World) (file_path : string)
    (offset limit : option Z) (read_file_timestamps : option Ledger) :
  exists res ledger',
    ReadTool.execute w file_path offset limit read_file_timestamps = (Ok res, ledger')
    /\ match res with
       | ReadFailure _ _ => ledger' = read_file_timestamps
       | _ => exists f,
                nodes w !! full_path w file_path = Some (RegularFile f)
                /\ readable f = true
                /\ ledger' = (fun ledger : Ledger => <[full_path w file_path := mtime f]> ledger)
                             <$> read_file_timestamps
       end.
Proof.
  unfold ReadTool.execute. cbv zeta. set (p := full_path w file_path).
  destruct (os.path_exists w p) eqn:Hex; cbn [negb]; [| read_outcome].
  destruct (os.isdir w p) eqn:Hdir; [read_outcome |].
  destruct (getsize_exists _ _ Hex) as [n ->].
  destruct (ReadTool._is_image_file p).
  - destruct (n >? ReadTool.MAX_IMAGE_SIZE); [read_outcome |].
    unfold ReadTool._read_image_file.
    destruct (os.read_bytes w p) as [raw|e] eqn:Hraw;
      [| unfold ReadTool.failed_to_read; read_outcome].
    destruct (read_bytes_inv _ _ _ Hraw) as (f & Hnode & Hr & _).
    rewrite (record_read_file _ _ _ _ Hnode). read_outcome.
  - destruct ((n >? ReadTool.MAX_OUTPUT_SIZE) && negb (ReadTool.given offset)
              && negb (ReadTool.given limit)); [read_outcome |].
    unfold ReadTool._read_text_file.
    destruct (os.read_text w p) as [delivered|e] eqn:Hd;
      [| unfold ReadTool.failed_to_read; read_outcome].
    destruct (read_text_inv _ _ _ Hd) as (f & Hnode & Hr & _).
    rewrite (record_read_file _ _ _ _ Hnode).
    match goal with |- context [if ?c then _ else _] => destruct c end; read_outcome.
Qed.

End ReadOutcome.

(** X1. [ReadTool.execute] and the ledger.  No exception escapes the
    call.  A read that fails leaves the ledger as it was.  A read that
    succeeds (text or image) is the read of a readable regular file,
    and sets the ledger entry of the resolved path to that file's
    modification time, touching no other entry; without a ledger
    ([None]) there is none afterwards either. *)
Theorem read_records_timestamp `{PyLib} (w : World) (file_path : string)
    (offset limit : option Z) (read_file_timestamps : option Ledger) :
  let p := full_path w file_path in
  exists res ledger',
    ReadTool.execute w file_path offset limit read_file_timestamps = (Ok res, ledger')
    /\ match res with
       | ReadFailure _ _ => ledger' = read_file_timestamps
       | _ => exists f,
                nodes w !! p = Some (RegularFile f)
                /\ readable f = true
                /\ ledger' = (fun ledger : Ledger => <[p := mtime f]> ledger)
                             <$> read_file_timestamps
       end.
Proof. intros p. apply read_execute_outcome. Qed.

Section ReadInversion.
Context `{PyLib}.

(** What a successful text read went through. *)
Lemma read_text_success_inv (w : World) (file_path fp text : string)
    (offset limit : option Z) (ledgers ledgers' : option Ledger)
    (lc tl : nat) (sl : Z) :
  ReadTool.execute w file_path offset limit ledgers
  = (Ok (ReadText fp text lc tl sl), ledgers') ->
  ReadTool._is_image_file (full_path w file_path) = false
  /\ ReadTool._read_text_file w (full_path w file_path) offset limit = Ok (text, lc, tl)
  /\ Z.of_nat (String.length text) <= ReadTool.MAX_OUTPUT_SIZE
  /\ fp = file_path
  /\ sl = (if ReadTool.given offset then default 1 offset else 1).
Proof.
  unfold ReadTool.execute. cbv zeta. set (p := full_path w file_path).
  destruct (os.path_exists w p); cbn [negb]; [| discriminate].
  destruct (os.isdir w p); [discriminate |].
  destruct (os.getsize w p) as [n|e]; [| discriminate].
  destruct (ReadTool._is_image_file p).
  - destruct (n >? ReadTool.MAX_IMAGE_SIZE); [discriminate |].
    unfold ReadTool._read_image_file.
    destruct (os.read_bytes w p); [| discriminate].
    destruct (ReadTool.record_read w p ledgers); discriminate.
  - destruct ((n >? ReadTool.MAX_OUTPUT_SIZE) && negb (ReadTool.given offset)
              && negb (ReadTool.given limit)); [discriminate |].
    destruct (ReadTool._read_text_file w p offset limit) as [[[text0 lc0] tl0]|e];
      [| discriminate].
    destruct (Z.gtb_spec (Z.of_nat (String.length text0)) ReadTool.MAX_OUTPUT_SIZE);
      [discriminate |].
    destruct (ReadTool.record_read w p ledgers); [| discriminate].
    intros [= <- <- <- <- <- _]. repeat split; try reflexivity. assumption.
Qed.

End ReadInversion.

(** X2. A successful text read returns part of the file and nothing else:
    the text is a run of consecutive lines of the file's text (as
    delivered in text mode), at most [MAX_OUTPUT_SIZE] characters
    long; [line_count] does not exceed [total_lines], which is the
    number of lines of the whole file; the path comes back as given. *)
Theorem read_returns_part_of_file `{PyLib} (w : World) (file_path fp text : string)
    (offset limit : option Z) (read_file_timestamps ledger' : option Ledger)
    (line_count total_lines : nat) (start_line : Z) :
  ReadTool.execute w file_path offset limit read_file_timestamps
  = (Ok (ReadText fp text line_count total_lines start_line), ledger') ->
  exists f before selected after,
    nodes w !! full_path w file_path = Some (RegularFile f)
    /\ readable f = true
    /\ PyStr.readlines (PyStr.universal_newlines (content f))
       = (before ++ selected ++ after)%list
    /\ text = PyStr.join selected
    /\ PyStr.universal_newlines (content f)
       = PyStr.join before ++ text ++ PyStr.join after
    /\ Z.of_nat (String.length text) <= ReadTool.MAX_OUTPUT_SIZE
    /\ line_count = List.length selected
    /\ total_lines = List.length (PyStr.readlines (PyStr.universal_newlines (content f)))
    /\ (line_count <= total_lines)%nat
    /\ fp = file_path.
Proof.
  intros Hx.
  destruct (read_text_success_inv _ _ _ _ _ _ _ _ _ _ _ Hx) as (_ & Hread & Hlen & Hfp & _).
  destruct (os.read_text w (full_path w file_path)) as [delivered|e] eqn:Hd;
    [| unfold ReadTool._read_text_file in Hread; rewrite Hd in Hread; discriminate].
  destruct (read_text_inv _ _ _ Hd) as (f & Hnode & Hr & ->).
  destruct (read_text_file_lines w _ offset limit _ Hd)
    as (selected & Heq & before & after & Hlines).
  rewrite Hread in Heq. injection Heq as -> -> ->.
  exists f, before, selected, after.
  split; [exact Hnode |]. split; [exact Hr |]. split; [exact Hlines |].
  split; [reflexivity |].
  split; [rewrite <- (join_readlines (PyStr.universal_newlines (content f))) at 1;
          now rewrite Hlines, !join_app |].
  split; [exact Hlen |]. split; [reflexivity |]. split; [reflexivity |].
  split; [rewrite Hlines, !List.length_app; lia | exact Hfp].
Qed.

(** X3. Windows of lines compose.  On a file that can be read, the window
    of [limit] lines from line [offset] followed by the rest from line
    [offset + limit] is the rest from line [offset]: the texts
    concatenate and the line counts add up; all three calls report the
    same total.  From line 1 the two windows make up the whole text. *)
Theorem read_windows_compose (w : World) (p delivered : string) (offset limit : Z) :
  1 <= offset -> 1 <= limit ->
  os.read_text w p = Ok delivered ->
  exists t1 t2 c1 c2,
    ReadTool._read_text_file w p (Some offset) (Some limit)
    = Ok (t1, c1, List.length (PyStr.readlines delivered))
    /\ ReadTool._read_text_file w p (Some (offset + limit)) None
       = Ok (t2, c2, List.length (PyStr.readlines delivered))
    /\ ReadTool._read_text_file w p (Some offset) None
       = Ok (t1 ++ t2, (c1 + c2)%nat, List.length (PyStr.readlines delivered))
    /\ (offset = 1 -> t1 ++ t2 = delivered).
Proof.
  intros Ho Hl Hread. unfold ReadTool._read_text_file. rewrite Hread.
  assert (ReadTool.given (Some offset) = true) as ->
    by (unfold ReadTool.given; destruct (Z.eqb_spec offset 0); [lia | reflexivity]).
  assert (ReadTool.given (Some limit) = true) as ->
    by (unfold ReadTool.given; destruct (Z.eqb_spec limit 0); [lia | reflexivity]).
  assert (ReadTool.given (Some (offset + limit)) = true) as ->
    by (unfold ReadTool.given; destruct (Z.eqb_spec (offset + limit) 0); [lia | reflexivity]).
  replace (Z.max 0 (offset - 1)) with (offset - 1) by lia.
  replace (Z.max 0 (offset + limit - 1)) with (offset - 1 + limit) by lia.
  do 4 eexists. split; [reflexivity |]. split; [reflexivity |].
  rewrite <- (slice_then_rest (PyStr.readlines delivered) (offset - 1) limit) by lia.
  rewrite join_app, List.length_app. split; [reflexivity |].
  intros ->. rewrite <- join_app, slice_then_rest by lia.
  change (1 - 1) with 0. now rewrite slice_from_zero, join_readlines.
Qed.

Section PastEnd.
Context `{PyLib}.

Lemma given_nonzero (n : Z) : n <> 0 -> ReadTool.given (Some n) = true.
Proof. intros Hn. unfold ReadTool.given. now destruct (Z.eqb_spec n 0). Qed.

Lemma slice_past_end {A} (l : list A) (start stop : Z) :
  Z.of_nat (List.length l) <= start ->
  PyStr.slice l start stop = [] /\ PyStr.slice_from l start = [].
Proof.
  intros Hs. unfold PyStr.slice, PyStr.slice_from.
  rewrite (clamp_index_nonneg _ start) by lia.
  replace (Z.to_nat (Z.min start (Z.of_nat (List.length l)))) with (List.length l) by lia.
  rewrite List.skipn_all. split; [apply List.firstn_nil | reflexivity].
Qed.

Lemma read_text_file_past_end (w : World) (p delivered : string) (offset : Z)
    (limit : option Z) :
  os.read_text w p = Ok delivered ->
  Z.of_nat (List.length (PyStr.readlines delivered)) < offset ->
  ReadTool._read_text_file w p (Some offset) limit
  = Ok ("", 0%nat, List.length (PyStr.readlines delivered)).
Proof.
  intros Hread Ho. unfold ReadTool._read_text_file. rewrite Hread.
  rewrite given_nonzero by lia.
  replace (Z.max 0 (offset - 1)) with (offset - 1) by lia.
  assert (forall stop, PyStr.slice (PyStr.readlines delivered) (offset - 1) stop = [])
    as Hs by (intros stop; apply slice_past_end; lia).
  assert (PyStr.slice_from (PyStr.readlines delivered) (offset - 1) = [])
    as Hf by (apply (slice_past_end _ _ 0); lia).
  destruct limit as [l|]; [destruct (ReadTool.given (Some l)) |];
    now rewrite ?Hs, ?Hf.
Qed.

End PastEnd.

(** X4. Offsets out of range.  An offset of at most 1 (zero and negative
    numbers included) reads from the first line, like no offset.  An
    offset beyond the last line is no error: the call returns the empty
    text and a line count of 0, whatever the limit. *)
Theorem read_offset_out_of_range (w : World) (p delivered : string) (offset : Z)
    (limit : option Z) :
  os.read_text w p = Ok delivered ->
  (offset <= 1 ->
   ReadTool._read_text_file w p (Some offset) limit
   = ReadTool._read_text_file w p None limit)
  /\ (Z.of_nat (List.length (PyStr.readlines delivered)) < offset ->
      ReadTool._read_text_file w p (Some offset) limit
      = Ok ("", 0%nat, List.length (PyStr.readlines delivered))).
Proof.
  intros Hread. split; [| now apply read_text_file_past_end].
  intros Ho. unfold ReadTool._read_text_file. rewrite Hread.
  replace (Z.max 0 (if ReadTool.given (Some offset) then offset - 1 else 0)) with 0
    by (destruct (ReadTool.given (Some offset)); lia).
  reflexivity.
Qed.

(** X5. A read that returns nothing still counts as a read.  On a readable
    text file of any size, a read from an offset beyond the last line
    succeeds with the empty text, and the ledger entry of the path is
    set to the file's modification time. *)
Theorem read_past_end_is_recorded `{PyLib} (w : World) (file_path : string) (offset : Z)
    (limit : option Z) (ledger : Ledger) (f : File) :
  let p := full_path w file_path in
  nodes w !! p = Some (RegularFile f) ->
  readable f = true ->
  ReadTool._is_image_file p = false ->
  Z.of_nat (List.length (PyStr.readlines (PyStr.universal_newlines (content f)))) < offset ->
  ReadTool.execute w file_path (Some offset) limit (Some ledger)
  = (Ok (ReadText file_path "" 0
                  (List.length (PyStr.readlines (PyStr.universal_newlines (content f))))
                  offset),
     Some (<[p := mtime f]> ledger)).
Proof.
  intros p Hnode Hr Himg Ho.
  assert (os.read_text w p = Ok (PyStr.universal_newlines (content f))) as Hread
    by (unfold os.read_text, os.read_bytes; now rewrite Hnode, Hr).
  unfold ReadTool.execute. cbv zeta. fold p.
  rewrite (read_text_file_past_end w p _ offset limit Hread Ho).
  unfold os.path_exists, os.isdir, os.getsize, ReadTool.record_read, os.getmtime.
  rewrite Hnode, Himg, given_nonzero by lia.
  cbn [negb andb default]. rewrite andb_false_r. reflexivity.
Qed.

(** X6. Reading opens the guard.  After a read that succeeds on a file
    that is no notebook and whose modification time is not 0, the
    ledger the read leaves lets both tools through, in the same file
    system: a write replaces the file (when it is writable and lies in
    a directory), and edit validation depends on the number of
    occurrences only. *)
Theorem read_then_write `{PyLib} (w : World) (file_path text : string)
    (offset limit : option Z) (ledger ledger' : Ledger) (res : ReadResult) (f : File) :
  let p := full_path w file_path in
  ReadTool.execute w file_path offset limit (Some ledger) = (Ok res, Some ledger') ->
  (forall error fp, res <> ReadFailure error fp) ->
  nodes w !! p = Some (RegularFile f) ->
  PyStr.endswith p ".ipynb" = false ->
  mtime f <> 0 ->
  (writable f = true -> os.isdir w (EditTool.parent_or_dot p) = true ->
   exists diff,
     WriteTool.execute w file_path text ledger'
     = (WriteSuccess file_path text Update diff,
        os.set_node w p (RegularFile {| content := text; mtime := clock w;
                                        readable := true; writable := true |}),
        <[p := clock w]> ledger'))
  /\ (forall old_string new_string,
        old_string <> new_string -> old_string <> "" ->
        EditTool.validate_input w file_path old_string new_string ledger'
        = match PyStr.count (PyStr.universal_newlines (content f)) old_string with
          | O => (false, Some Msg.not_found)
          | S O => (true, None)
          | n => (false, Some (Msg.ambiguous n))
          end).
Proof.
  intros p Hread Hok Hnode Hnb Hm.
  destruct (read_execute_outcome w file_path offset limit (Some ledger))
    as (res0 & led0 & Hx & Hout).
  rewrite Hread in Hx. injection Hx as <- <-.
  assert (readable f = true /\ ledger' = <[p := mtime f]> ledger) as [Hr ->].
  { destruct res as [error fp| |]; [now destruct (Hok error fp) | |];
      destruct Hout as (f0 & Hnode0 & Hr0 & Hled); fold p in Hnode0;
      rewrite Hnode in Hnode0; injection Hnode0 as <-; injection Hled as ->; now split. }
  split.
  - intros Hw Hdir.
    rewrite (write_existing w file_path text _ f (mtime f) Hnb (lookup_insert_eq _ _ _)
               Hm Hnode (Z.le_refl _) Hr Hw Hdir).
    unfold os.written. fold p. rewrite Hnode, Hr. eauto.
  - intros old_string new_string Hne Hold.
    apply (validate_input_on_text w file_path old_string new_string _ f (mtime f)
             Hne Hold Hnode Hnb (lookup_insert_eq _ _ _) Hm (Z.le_refl _) Hr).
Qed.
(** ** What the tools require before they change a file *)

Section Soundness.
Context `{PyLib}.

(** What has been checked when edit validation accepts. *)
Lemma validate_input_true_inv (w : World) (file_path old_string new_string : string)
    (ledger : Ledger) (msg : option string) :
  EditTool.validate_input w file_path old_string new_string ledger = (true, msg) ->
  msg = None
  /\ old_string <> new_string
  /\ match nodes w !! full_path w file_path with
     | None => old_string = ""
     | Some node =>
         old_string <> ""
         /\ PyStr.endswith (full_path w file_path) ".ipynb" = false
         /\ exists f read_timestamp,
              node = RegularFile f
              /\ readable f = true
              /\ ledger !! full_path w file_path = Some read_timestamp
              /\ read_timestamp <> 0
              /\ mtime f <= read_timestamp
              /\ PyStr.count (PyStr.universal_newlines (content f)) old_string = 1%nat
     end.
Proof.
  unfold EditTool.validate_input. cbv zeta. set (p := full_path w file_path).
  destruct (String.eqb_spec old_string new_string) as [|Hne]; [discriminate |].
  unfold os.path_exists.
  destruct (nodes w !! p) as [node|] eqn:Hnode; cbn [negb andb].
  - destruct (String.eqb_spec old_string "") as [|Hold]; [discriminate |].
    destruct (PyStr.endswith p ".ipynb") eqn:Hnb; [discriminate |].
    destruct (ledger !! p) as [ts|] eqn:Hled; [| discriminate].
    destruct (Z.eqb_spec ts 0) as [|Hts]; [discriminate |].
    unfold os.getmtime, EditTool._read_file, os.read_text, os.read_bytes. rewrite Hnode.
    destruct node as [f|t].
    + destruct (Z.gtb_spec (mtime f) ts) as [|Hm]; [discriminate |].
      destruct (readable f) eqn:Hr; [| destruct (Z.gtb_spec (mtime f) ts); discriminate].
      destruct (PyStr.contains old_string (PyStr.universal_newlines (content f))) eqn:Hc;
        cbn [negb]; [| discriminate].
      destruct (Nat.ltb_spec 1 (PyStr.count (PyStr.universal_newlines (content f))
                                            old_string)) as [|Hcount]; [discriminate |].
      intros [= <-]. apply contains_count in Hc.
      repeat split; try assumption. exists f, ts. repeat split; try assumption. lia.
    + destruct (dir_mtime t >? ts); discriminate.
  - destruct (String.eqb_spec old_string "") as [->|Hold]; [| discriminate].
    intros [= <-]. repeat split. assumption.
Qed.


(** The target as [makedirs] leaves it: untouched, unless it did not
    exist and is among the directories made. *)
Lemma makedirs_target (w w1 : World) (d p : string) :
  os.makedirs w d = Ok w1 ->
  clock w1 = clock w /\ cwd w1 = cwd w
  /\ (nodes w1 !! p = nodes w !! p
      \/ (nodes w !! p = None
          /\ nodes w1 !! p
             = Some (Directory {| dir_mtime := clock w; dir_writable := true |}))).
Proof.
  intros Hmk. destruct (makedirs_keeps _ _ _ Hmk) as (Hclk & Hcwd & _ & Hkeep & Hnew).
  split; [exact Hclk |]. split; [exact Hcwd |].
  destruct (nodes w !! p) as [n|] eqn:Hp.
  - left. now apply Hkeep.
  - destruct (Hnew p Hp) as [Hn | [Hn _]]; [now left | now right].
Qed.

(** Once a file has been written in a directory, the directory need
    not be made again. *)
Lemma makedirs_again (w w1 w2 : World) (d p s : string) (now : Z) :
  os.makedirs w d = Ok w1 -> os.write_text w1 p s = Ok w2 ->
  os.makedirs {| nodes := nodes w2; cwd := cwd w2; clock := now |} d
  = Ok {| nodes := nodes w2; cwd := cwd w2; clock := now |}.
Proof.
  intros Hmk Hwr. apply makedirs_directory.
  destruct (makedirs_keeps _ _ _ Hmk) as (_ & _ & Hd & _).
  destruct (write_text_ok _ _ _ _ Hwr) as [-> Hnd].
  unfold os.isdir, os.set_node in *. cbn [nodes].
  destruct (decide (p = d)) as [->|Hne]; [now rewrite Hnd in Hd |].
  now rewrite lookup_insert_ne by exact Hne.
Qed.

(** What an edit that succeeded went through, and what it left. *)
Lemma edit_success_inv (w w' : World) (file_path old_string new_string fp snippet : string)
    (ledger ledger' : Ledger) (start_line : Z) (diff : list string)
    (original_file updated_file : string) :
  EditTool.execute w file_path old_string new_string ledger
  = (Ok (EditSuccess fp snippet start_line diff original_file updated_file), w', ledger') ->
  let p := full_path w file_path in
  EditTool.validate_input w file_path old_string new_string ledger = (true, None)
  /\ fp = file_path
  /\ diff = unified_diff original_file updated_file file_path
  /\ EditTool.get_snippet original_file old_string new_string = Ok (snippet, start_line)
  /\ nodes w' !! p
     = Some (RegularFile {| content := updated_file; mtime := clock w;
                            readable := true; writable := true |})
  /\ ledger' = <[p := clock w]> ledger
  /\ cwd w' = cwd w
  /\ (forall now,
       os.makedirs {| nodes := nodes w'; cwd := cwd w'; clock := now |}
                   (EditTool.parent_or_dot p)
       = Ok {| nodes := nodes w'; cwd := cwd w'; clock := now |})
  /\ match nodes w !! p with
     | None => original_file = "" /\ updated_file = new_string
     | Some node =>
         exists f,
           node = RegularFile f /\ writable f = true
           /\ original_file = PyStr.universal_newlines (content f)
           /\ updated_file = PyStr.replace_first original_file old_string new_string
     end.
Proof.
  unfold EditTool.execute. cbv zeta. set (p := full_path w file_path).
  destruct (EditTool.validate_input w file_path old_string new_string ledger)
    as [[|] msg] eqn:Hv; [| discriminate].
  destruct (validate_input_true_inv _ _ _ _ _ _ Hv) as (-> & Hne & Hcase). fold p in Hcase.
  destruct (os.makedirs w (EditTool.parent_or_dot p)) as [w1|e] eqn:Hmk; [| discriminate].
  destruct (makedirs_target _ _ _ p Hmk) as (Hclk & Hcwd & Hp).
  unfold os.path_exists, EditTool._read_file, EditTool._write_file.
  unfold os.read_text, os.read_bytes.
  destruct (nodes w !! p) as [node|] eqn:Hnode.
  - destruct Hcase as (Hold & _ & f & ts & -> & Hr & _).
    destruct Hp as [Hp | [Hp _]]; [| discriminate]. rewrite Hp, Hr.
    destruct (String.eqb_spec old_string "") as [|_]; [contradiction |].
    match goal with |- context [os.write_text w1 p ?s] =>
      destruct (os.write_text w1 p s) as [w2|e] eqn:Hwr; [| discriminate];
      pose proof (fun now => makedirs_again _ _ _ _ _ _ now Hmk Hwr) as Hagain
    end.
    revert Hwr. unfold os.write_text, os.written. rewrite Hp.
    destruct (writable f) eqn:Hw; [| discriminate]. intros [= <-].
    unfold os.getmtime, os.set_node in *. cbn [nodes cwd] in *.
    rewrite lookup_insert_eq. cbn [mtime].
    destruct (EditTool.get_snippet _ old_string new_string) as [[sn sl]|e] eqn:Hsn;
      [| discriminate].
    intros [= <- <- <- <- <- <- <- <-]. cbn [nodes cwd]. rewrite lookup_insert_eq, Hclk.
    rewrite Hclk, Hr in Hagain. rewrite ?Hr.
    split_and!; try reflexivity; try assumption. exists f. now split_and!.
  - subst old_string. destruct Hp as [Hp | [_ Hp]]; rewrite Hp; [| discriminate].
    cbn [String.eqb].
    destruct (os.write_text w1 p new_string) as [w2|e] eqn:Hwr; [| discriminate].
    pose proof (fun now => makedirs_again _ _ _ _ _ _ now Hmk Hwr) as Hagain.
    destruct (write_text_ok _ _ _ _ Hwr) as [-> _].
    unfold os.written in Hagain |- *. rewrite Hp in Hagain |- *.
    unfold os.getmtime, os.set_node in *. cbn [nodes cwd] in *.
    rewrite lookup_insert_eq. cbn [mtime].
    destruct (EditTool.get_snippet "" "" new_string) as [[sn sl]|e] eqn:Hsn;
      [| discriminate].
    intros [= <- <- <- <- <- <- <- <-]. cbn [nodes cwd]. rewrite lookup_insert_eq, Hclk.
    rewrite Hclk in Hagain.
    split_and!; try reflexivity; assumption.
Qed.

End Soundness.

(** X7. When edit validation accepts.  [validate_input] accepts exactly
    when [old_string] differs from [new_string] and either the path
    names nothing and [old_string] is empty (a file is to be created),
    or the path names a readable regular file that is no notebook,
    [old_string] is not empty, the ledger holds for the path a
    non-zero time not before the file's modification time, and
    [count] finds [old_string] exactly once in the text. *)
Theorem edit_validation_accepts_iff `{PyLib} (w : World)
    (file_path old_string new_string : string) (ledger : Ledger) :
  let p := full_path w file_path in
  EditTool.validate_input w file_path old_string new_string ledger = (true, None)
  <-> old_string <> new_string
      /\ match nodes w !! p with
         | None => old_string = ""
         | Some node =>
             old_string <> ""
             /\ PyStr.endswith p ".ipynb" = false
             /\ exists f read_timestamp,
                  node = RegularFile f
                  /\ readable f = true
                  /\ ledger !! p = Some read_timestamp
                  /\ read_timestamp <> 0
                  /\ mtime f <= read_timestamp
                  /\ PyStr.count (PyStr.universal_newlines (content f)) old_string = 1%nat
         end.
Proof.
  intros p. split.
  - intros Hv. now destruct (validate_input_true_inv _ _ _ _ _ _ Hv) as (_ & Hne & Hcase).
  - intros [Hne Hcase]. subst p.
    destruct (nodes w !! full_path w file_path) as [node|] eqn:Hnode.
    + destruct Hcase as (Hold & Hnb & f & ts & -> & Hr & Hled & Hts & Hm & Hc).
      rewrite (validate_input_on_text w file_path old_string new_string ledger f ts
                 Hne Hold Hnode Hnb Hled Hts Hm Hr).
      now rewrite Hc.
    + subst old_string. unfold EditTool.validate_input, os.path_exists.
      destruct (String.eqb_spec "" new_string) as [|_]; [contradiction |].
      cbv zeta. now rewrite Hnode.
Qed.

(** X8. An edit that succeeds was allowed, and did what it reports.  If
    [EditTool.execute] returns a success, then validation had accepted
    (so an existing target had been read, not changed since, and holds
    [old_string] once); the reported original text is the text of the
    file before (empty for a new file) and the reported updated text
    is the original with the leftmost [old_string] replaced (or
    [new_string] for a new file); afterwards the file holds the
    updated text, stamped with the time of the write, and the ledger
    entry of the path is that time. *)
Theorem edit_success_sound `{PyLib} (w w' : World)
    (file_path old_string new_string fp snippet : string) (ledger ledger' : Ledger)
    (start_line : Z) (diff : list string) (original_file updated_file : string) :
  EditTool.execute w file_path old_string new_string ledger
  = (Ok (EditSuccess fp snippet start_line diff original_file updated_file), w', ledger') ->
  let p := full_path w file_path in
  fp = file_path
  /\ diff = unified_diff original_file updated_file file_path
  /\ nodes w' !! p
     = Some (RegularFile {| content := updated_file; mtime := clock w;
                            readable := true; writable := true |})
  /\ ledger' = <[p := clock w]> ledger
  /\ old_string <> new_string
  /\ match nodes w !! p with
     | None => old_string = "" /\ original_file = "" /\ updated_file = new_string
     | Some node =>
         exists f read_timestamp,
           node = RegularFile f
           /\ old_string <> ""
           /\ PyStr.endswith p ".ipynb" = false
           /\ ledger !! p = Some read_timestamp
           /\ read_timestamp <> 0
           /\ mtime f <= read_timestamp
           /\ original_file = PyStr.universal_newlines (content f)
           /\ PyStr.count original_file old_string = 1%nat
           /\ updated_file = PyStr.replace_first original_file old_string new_string
     end.
Proof.
  intros Hx p.
  destruct (edit_success_inv _ _ _ _ _ _ _ _ _ _ _ _ _ Hx)
    as (Hv & Hfp & Hdiff & _ & Hnode' & Hled & _ & _ & Hcase).
  destruct (validate_input_true_inv _ _ _ _ _ _ Hv) as (_ & Hne & Hchecked).
  fold p in Hnode', Hled, Hcase, Hchecked.
  split; [exact Hfp |]. split; [exact Hdiff |]. split; [exact Hnode' |].
  split; [exact Hled |]. split; [exact Hne |].
  destruct (nodes w !! p) as [node|].
  - destruct Hcase as (f & -> & _ & Horig & Hupd).
    destruct Hchecked as (Hold & Hnb & f0 & ts & [= <-] & _ & Hl & Hts & Hm & Hc).
    exists f, ts. rewrite <- Horig in Hc. now repeat split.
  - destruct Hcase as [-> ->]. now repeat split.
Qed.
Section WriteSoundness.
Context `{PyLib}.

(** The checks [WriteTool.execute] makes on a file that exists. *)
Lemma write_not_rejected (w : World) (p : string) (ledger : Ledger) (node : Node) :
  nodes w !! p = Some node ->
  (if PyStr.endswith p ".ipynb" then Some Msg.notebook
   else match ledger !! p with
        | None => Some Msg.unread
        | Some read_timestamp =>
            if read_timestamp =? 0 then Some Msg.unread
            else match os.getmtime w p with
                 | Raise e => Some (Msg.cannot_access e)
                 | Ok last_write_time =>
                     if last_write_time >? read_timestamp then Some Msg.stale else None
                 end
        end) = None ->
  PyStr.endswith p ".ipynb" = false
  /\ exists read_timestamp last_write_time,
       ledger !! p = Some read_timestamp /\ read_timestamp <> 0
       /\ os.getmtime w p = Ok last_write_time /\ last_write_time <= read_timestamp.
Proof.
  intros Hnode.
  destruct (PyStr.endswith p ".ipynb"); [discriminate |].
  destruct (ledger !! p) as [ts|]; [| discriminate].
  destruct (Z.eqb_spec ts 0) as [|Hts]; [discriminate |].
  destruct (os.getmtime w p) as [t|e]; [| discriminate].
  destruct (Z.gtb_spec t ts); [discriminate |].
  intros _. split; [reflexivity |]. exists ts, t. repeat split; assumption || lia.
Qed.

Lemma write_success_facts (w w' : World) (file_path text fp tx : string)
    (ledger ledger' : Ledger) (kind : WriteKind) (diff : list string) :
  WriteTool.execute w file_path text ledger = (WriteSuccess fp tx kind diff, w', ledger') ->
  let p := full_path w file_path in
  fp = file_path /\ tx = text
  /\ (forall now,
       os.makedirs {| nodes := nodes w'; cwd := cwd w'; clock := now |}
                   (EditTool.parent_or_dot p)
       = Ok {| nodes := nodes w'; cwd := cwd w'; clock := now |})
  /\ cwd w' = cwd w
  /\ nodes w' !! p
     = Some (RegularFile {| content := text; mtime := clock w;
                            readable := true; writable := true |})
  /\ ledger' = <[p := clock w]> ledger
  /\ match nodes w !! p with
     | None => kind = Create /\ diff = []
     | Some node =>
         kind = Update
         /\ exists f read_timestamp,
              node = RegularFile f
              /\ readable f = true /\ writable f = true
              /\ PyStr.endswith p ".ipynb" = false
              /\ ledger !! p = Some read_timestamp
              /\ read_timestamp <> 0
              /\ mtime f <= read_timestamp
              /\ diff = (if PyStr.truthy (PyStr.universal_newlines (content f))
                         then unified_diff (PyStr.universal_newlines (content f))
                                           text file_path
                         else [])
     end.
Proof.
  unfold WriteTool.execute, WriteTool._read_file, WriteTool._write_file. cbv zeta.
  set (p := full_path w file_path). unfold os.path_exists.
  destruct (nodes w !! p) as [node|] eqn:Hnode.
  - match goal with
    | |- context [match ?r with Some error => _ | None => _ end] =>
        destruct r as [error|] eqn:Hrej; [discriminate |]
    end.
    destruct (write_not_rejected _ _ _ _ Hnode Hrej) as (Hnb & ts & t & Hled & Hts & Ht & Hm).
    destruct (os.read_text w p) as [old|e] eqn:Hold; [| discriminate].
    destruct (read_text_inv _ _ _ Hold) as (f & Hf & Hr & ->).
    rewrite Hnode in Hf. injection Hf as ->.
    unfold os.getmtime in Ht. rewrite Hnode in Ht. injection Ht as <-.
    destruct (os.makedirs w (EditTool.parent_or_dot p)) as [w1|e] eqn:Hmk; [| discriminate].
    destruct (makedirs_target _ _ _ p Hmk) as (Hclk & Hcwd & [Hp | [Hp _]]);
      [| rewrite Hnode in Hp; discriminate].
    destruct (os.write_text w1 p text) as [w2|e] eqn:Hwr; [| discriminate].
    pose proof (fun now => makedirs_again _ _ _ _ _ _ now Hmk Hwr) as Hagain.
    revert Hwr. unfold os.write_text, os.written. rewrite Hp, Hnode.
    destruct (writable f) eqn:Hw; [| discriminate]. intros [= <-].
    unfold os.getmtime, os.set_node in *. cbn [nodes cwd] in *.
    rewrite lookup_insert_eq. cbn [mtime andb].
    intros [= <- <- <- <- <- <-]. cbn [nodes cwd]. rewrite lookup_insert_eq, Hclk, Hr.
    rewrite Hclk, Hr in Hagain.
    split_and!; try reflexivity; try assumption. exists f, ts. now split_and!.
  - destruct (os.makedirs w (EditTool.parent_or_dot p)) as [w1|e] eqn:Hmk; [| discriminate].
    destruct (os.write_text w1 p text) as [w2|e] eqn:Hwr; [| discriminate].
    pose proof (fun now => makedirs_again _ _ _ _ _ _ now Hmk Hwr) as Hagain.
    destruct (write_text_ok _ _ _ _ Hwr) as [-> Hnd].
    destruct (makedirs_target _ _ _ p Hmk) as (Hclk & Hcwd & [Hp | [_ Hp]]);
      [| unfold os.isdir in Hnd; now rewrite Hp in Hnd].
    unfold os.written in Hagain |- *. rewrite Hp, Hnode in Hagain |- *.
    unfold os.getmtime, os.set_node in *. cbn [nodes cwd] in *.
    rewrite lookup_insert_eq. cbn [mtime andb].
    intros [= <- <- <- <- <- <-]. cbn [nodes cwd]. rewrite lookup_insert_eq, Hclk.
    rewrite Hclk in Hagain. now split_and!.
Qed.

End WriteSoundness.

(** X9. A write that succeeds was allowed, and did what it reports.  If
    [WriteTool.execute] returns a success, it reports the path and the
    text it was given; afterwards the file holds that text, stamped
    with the time of the write, and the ledger entry of the path is
    that time.  The result is a creation exactly when the path named
    nothing before.  Otherwise it named a readable and writable regular
    file that is no notebook, for which the ledger held a non-zero time
    not before the file's modification time. *)
Theorem write_success_sound `{PyLib} (w w' : World) (file_path text fp tx : string)
    (ledger ledger' : Ledger) (kind : WriteKind) (diff : list string) :
  WriteTool.execute w file_path text ledger = (WriteSuccess fp tx kind diff, w', ledger') ->
  let p := full_path w file_path in
  fp = file_path /\ tx = text
  /\ nodes w' !! p
     = Some (RegularFile {| content := text; mtime := clock w;
                            readable := true; writable := true |})
  /\ ledger' = <[p := clock w]> ledger
  /\ match nodes w !! p with
     | None => kind = Create /\ diff = []
     | Some node =>
         kind = Update
         /\ exists f read_timestamp,
              node = RegularFile f
              /\ readable f = true /\ writable f = true
              /\ PyStr.endswith p ".ipynb" = false
              /\ ledger !! p = Some read_timestamp
              /\ read_timestamp <> 0
              /\ mtime f <= read_timestamp
              /\ diff = (if PyStr.truthy (PyStr.universal_newlines (content f))
                         then unified_diff (PyStr.universal_newlines (content f))
                                           text file_path
                         else [])
     end.
Proof.
  intros Hx p.
  destruct (write_success_facts _ _ _ _ _ _ _ _ _ _ Hx) as (? & ? & _ & _ & ? & ? & ?).
  now split_and!.
Qed.
Section Frame.
Context `{PyLib}.






End Frame.

Section Creation.
Context `{PyLib}.

Lemma slice_prefix {A} (l : list A) (k : Z) :
  0 <= k -> PyStr.slice l 0 k = List.firstn (Z.to_nat k) l.
Proof.
  intros Hk. unfold PyStr.slice. rewrite !clamp_index_nonneg by lia.
  replace (Z.to_nat (Z.min 0 (Z.of_nat (List.length l)))) with 0%nat by lia.
  change (List.skipn 0 l) with l.
  destruct (Z.le_gt_cases k (Z.of_nat (List.length l))).
  - f_equal. lia.
  - rewrite !List.firstn_all2 by lia. reflexivity.
Qed.

End Creation.

Section Fresh.
Context `{PyLib}.

(** A file that the ledger knows at its modification time: both tools
    go through. *)
Lemma fresh_file_open (later : World) (file_path again s : string) (ledger' : Ledger)
    (t : Z) :
  let p := full_path later file_path in
  nodes later !! p = Some (RegularFile {| content := s; mtime := t;
                                          readable := true; writable := true |}) ->
  ledger' !! p = Some t -> t <> 0 ->
  PyStr.endswith p ".ipynb" = false ->
  os.makedirs later (EditTool.parent_or_dot p) = Ok later ->
  WriteTool.execute later file_path again ledger'
  = (WriteSuccess file_path again Update
       (if PyStr.truthy (PyStr.universal_newlines s)
        then unified_diff (PyStr.universal_newlines s) again file_path
        else []),
     os.set_node later p (RegularFile {| content := again; mtime := clock later;
                                         readable := true; writable := true |}),
     <[p := clock later]> ledger')
  /\ (forall old_string new_string,
        old_string <> new_string -> old_string <> "" ->
        EditTool.validate_input later file_path old_string new_string ledger'
        = match PyStr.count (PyStr.universal_newlines s) old_string with
          | O => (false, Some Msg.not_found)
          | S O => (true, None)
          | n => (false, Some (Msg.ambiguous n))
          end).
Proof.
  intros p Hnode Hled Ht Hnb Hmk. split.
  - unfold WriteTool.execute, WriteTool._read_file, WriteTool._write_file. cbv zeta. fold p.
    unfold os.path_exists, os.getmtime, os.read_text, os.read_bytes.
    rewrite Hmk, Hnode, Hnb, Hled. cbn [mtime readable content].
    destruct (Z.eqb_spec t 0) as [|_]; [contradiction |].
    destruct (Z.gtb_spec t t) as [|_]; [lia |].
    unfold os.write_text, os.written. rewrite Hnode. cbn [writable readable].
    unfold os.set_node. cbn [nodes]. now rewrite lookup_insert_eq.
  - intros old_string new_string Hne Hold.
    exact (validate_input_on_text later file_path old_string new_string ledger' _ t
             Hne Hold Hnode Hnb Hled Ht (Z.le_refl _) eq_refl).
Qed.

End Fresh.

(** X12. Writing again.  After a write that succeeds (at a time that is
    not 0, on a path that is no notebook), the session can write the
    same path again and edit it, at any later time and without
    reading it, as long as nobody else touches the file: the second
    write replaces the text, its diff is against the text written
    first, and edit validation depends on the occurrences in that text
    only. *)
Theorem write_then_write `{PyLib} (w w' : World) (file_path text again : string)
    (ledger ledger' : Ledger) (kind : WriteKind) (diff : list string) (now : Z) :
  let p := full_path w file_path in
  let later := {| nodes := nodes w'; cwd := cwd w'; clock := now |} in
  WriteTool.execute w file_path text ledger
  = (WriteSuccess file_path text kind diff, w', ledger') ->
  clock w <> 0 ->
  PyStr.endswith p ".ipynb" = false ->
  WriteTool.execute later file_path again ledger'
  = (WriteSuccess file_path again Update
       (if PyStr.truthy (PyStr.universal_newlines text)
        then unified_diff (PyStr.universal_newlines text) again file_path
        else []),
     os.set_node later p (RegularFile {| content := again; mtime := now;
                                         readable := true; writable := true |}),
     <[p := now]> ledger')
  /\ (forall old_string new_string,
        old_string <> new_string -> old_string <> "" ->
        EditTool.validate_input later file_path old_string new_string ledger'
        = match PyStr.count (PyStr.universal_newlines text) old_string with
          | O => (false, Some Msg.not_found)
          | S O => (true, None)
          | n => (false, Some (Msg.ambiguous n))
          end).
Proof.
  intros p later Hx Hclock Hnb.
  destruct (write_success_facts _ _ _ _ _ _ _ _ _ _ Hx)
    as (_ & _ & Hagain & Hcwd & Hnode & -> & _).
  fold p in Hagain, Hnode.
  assert (full_path later file_path = p) as Hp
    by (unfold p, full_path, later; cbn [cwd]; now rewrite Hcwd).
  pose proof (fresh_file_open later file_path again text (<[p := clock w]> ledger) (clock w))
    as Hopen.
  cbv zeta in Hopen. rewrite Hp in Hopen.
  apply Hopen; [exact Hnode | apply lookup_insert_eq | exact Hclock | exact Hnb |].
  apply Hagain.
Qed.

(** X13. Editing again.  After an edit that succeeds (at a time that is
    not 0), the session can edit the same file again and overwrite
    it, at any later time and without reading it, as long as nobody
    else touches the file: edit validation then depends on the
    occurrences in the updated text only, and a write replaces that
    text. *)
Theorem edit_then_edit `{PyLib} (w w' : World)
    (file_path old_string new_string snippet again : string) (ledger ledger' : Ledger)
    (start_line : Z) (diff : list string) (original_file updated_file : string) (now : Z) :
  let p := full_path w file_path in
  let later := {| nodes := nodes w'; cwd := cwd w'; clock := now |} in
  EditTool.execute w file_path old_string new_string ledger
  = (Ok (EditSuccess file_path snippet start_line diff original_file updated_file),
     w', ledger') ->
  clock w <> 0 ->
  PyStr.endswith p ".ipynb" = false ->
  (forall old_string' new_string',
     old_string' <> new_string' -> old_string' <> "" ->
     EditTool.validate_input later file_path old_string' new_string' ledger'
     = match PyStr.count (PyStr.universal_newlines updated_file) old_string' with
       | O => (false, Some Msg.not_found)
       | S O => (true, None)
       | n => (false, Some (Msg.ambiguous n))
       end)
  /\ WriteTool.execute later file_path again ledger'
     = (WriteSuccess file_path again Update
          (if PyStr.truthy (PyStr.universal_newlines updated_file)
           then unified_diff (PyStr.universal_newlines updated_file) again file_path
           else []),
        os.set_node later p (RegularFile {| content := again; mtime := now;
                                            readable := true; writable := true |}),
        <[p := now]> ledger').
Proof.
  intros p later Hx Hclock Hnb.
  destruct (edit_success_inv _ _ _ _ _ _ _ _ _ _ _ _ _ Hx)
    as (_ & _ & _ & _ & Hnode & -> & Hcwd & Hagain & _).
  fold p in Hagain, Hnode.
  assert (full_path later file_path = p) as Hp
    by (unfold p, full_path, later; cbn [cwd]; now rewrite Hcwd).
  pose proof (fresh_file_open later file_path again updated_file
                (<[p := clock w]> ledger) (clock w)) as Hopen.
  cbv zeta in Hopen. rewrite Hp in Hopen.
  destruct Hopen as [Hwrite Hedit];
    [exact Hnode | apply lookup_insert_eq | exact Hclock | exact Hnb | apply Hagain |].
  split; [exact Hedit | exact Hwrite].
Qed.
(** X14. The edit preview shows what the edit does.  [generate_preview]
    refuses exactly when [execute] is refused by validation, with the
    same message behind "Cannot preview edit: "; and an edit that
    succeeds reports the very diff the preview showed for it. *)
Theorem edit_preview_agrees `{PyLib} (w : World)
    (file_path old_string new_string : string) (ledger : Ledger) :
  let preview := EditTool.generate_preview w file_path old_string new_string ledger in
  let outcome := EditTool.execute w file_path old_string new_string ledger in
  (forall msg,
     EditTool.validate_input w file_path old_string new_string ledger = (false, Some msg)
     <-> preview = EditPreviewError ("Cannot preview edit: " ++ msg))
  /\ (forall msg,
        preview = EditPreviewError ("Cannot preview edit: " ++ msg) ->
        outcome = (Ok (EditFailure (Some msg) file_path), w, ledger))
  /\ (forall fp snippet start_line diff original_file updated_file w' ledger',
        outcome = (Ok (EditSuccess fp snippet start_line diff original_file updated_file),
                   w', ledger') ->
        preview = EditPreviewDiff diff file_path).
Proof.
  intros preview outcome.
  assert (forall msg,
            EditTool.validate_input w file_path old_string new_string ledger
            = (false, Some msg)
            <-> preview = EditPreviewError ("Cannot preview edit: " ++ msg)) as Hiff.
  { intros msg. subst preview. unfold EditTool.generate_preview.
    destruct (EditTool.validate_input w file_path old_string new_string ledger)
      as [[|] m] eqn:Hv.
    - split; [discriminate |]. cbv zeta.
      destruct (if os.path_exists w (full_path w file_path) then _ else _) as [orig|e];
        [discriminate |].
      intros [=].
    - destruct (validate_input_message w file_path old_string new_string ledger)
        as [m' Hm']; [now rewrite Hv |].
      rewrite Hv in Hm'. injection Hm' as ->. cbn [EditTool.str_of_option].
      split; [now intros [= ->] |].
      intros [= ->]. reflexivity. }
  split; [exact Hiff |]. split.
  - intros msg Hp. apply edit_execute_rejected. now apply Hiff.
  - intros fp snippet start_line diff original_file updated_file w' ledger' Hx.
    subst outcome preview.
    destruct (edit_success_inv _ _ _ _ _ _ _ _ _ _ _ _ _ Hx)
      as (Hv & _ & -> & _ & _ & _ & _ & _ & Hcase).
    destruct (validate_input_true_inv _ _ _ _ _ _ Hv) as (_ & _ & Hchecked).
    unfold EditTool.generate_preview. rewrite Hv. cbv zeta.
    unfold os.path_exists, EditTool._read_file, os.read_text, os.read_bytes.
    destruct (nodes w !! full_path w file_path) as [node|].
    + destruct Hcase as (f & -> & _ & -> & ->).
      destruct Hchecked as (Hold & _ & f0 & ts & [= <-] & Hr & _). rewrite Hr.
      destruct (String.eqb_spec old_string "") as [|_]; [contradiction | reflexivity].
    + destruct Hcase as [-> ->]. subst old_string. reflexivity.
Qed.
(** X15. The write preview shows what the write does.  When
    [generate_preview] refuses, [execute] fails with the same message
    and changes nothing.  When it shows a diff, it reports the path and
    text it was given and whether the path exists; [execute] then
    either succeeds with that same diff, as an update if the path
    exists and as a creation if not, or fails in one of the two steps
    the preview does not take: making the directory and writing. *)
Theorem write_preview_agrees `{PyLib} (w : World) (file_path text : string)
    (ledger : Ledger) :
  match WriteTool.generate_preview w file_path text ledger with
  | WritePreviewError error =>
      WriteTool.execute w file_path text ledger = (WriteFailure error file_path, w, ledger)
  | WritePreviewDiff diff fp file_exists tx =>
      fp = file_path /\ tx = text
      /\ file_exists = os.path_exists w (full_path w file_path)
      /\ match WriteTool.execute w file_path text ledger with
         | (WriteSuccess fp' tx' kind diff', _, _) =>
             fp' = file_path /\ tx' = text /\ diff' = diff
             /\ kind = (if file_exists then Update else Create)
         | (WriteFailure error _, _, ledger') =>
             ledger' = ledger
             /\ exists e, error = Msg.cannot_create_directory e
                          \/ error = Msg.failed_to_write e
         end
  end.
Proof.
  unfold WriteTool.generate_preview, WriteTool.execute. cbv zeta.
  set (p := full_path w file_path).
  match goal with
  | |- context [match ?r with Some error => WritePreviewError error | None => _ end] =>
      destruct r as [error|]; [reflexivity |]
  end.
  destruct (if os.path_exists w p then WriteTool._read_file w p else Ok "") as [old|e];
    [| reflexivity].
  split; [reflexivity |]. split; [reflexivity |]. split; [reflexivity |].
  destruct (os.makedirs w (EditTool.parent_or_dot p)) as [w1|e]; [| eauto].
  destruct (WriteTool._write_file w1 p text) as [w2|e]; [| eauto].
  now split_and!.
Qed.
(** ** Replacing every occurrence *)

Section ReplaceAll.
Import PyStr.

Lemma replace_all_from_skip (s old new : string) (k : nat) :
  old <> "" -> replace_all_from s old new k = replace_all (drop k s) old new.
Proof.
  intros Hold. revert s. induction k as [|k IH]; intros s; [reflexivity |].
  destruct s as [|a s]; simpl.
  - unfold replace_all. simpl. destruct old; [congruence | reflexivity].
  - apply IH.
Qed.

Lemma replace_all_at (s old new : string) (i : nat) :
  old <> "" -> find old s = Some i ->
  replace_all s old new
  = take i s ++ new ++ replace_all (drop (i + String.length old) s) old new.
Proof.
  intros Hold. unfold replace_all. revert i.
  induction s as [|a s IH]; intros i Hf; simpl in Hf.
  - destruct old; [congruence | discriminate].
  - simpl. destruct (startswith old (String a s)) eqn:E.
    + injection Hf as <-. simpl. f_equal.
      destruct old as [|b old]; [congruence |].
      rewrite replace_all_from_skip by assumption. simpl. now rewrite Nat.sub_0_r.
    + destruct (find old s) as [k|]; [| discriminate]. simpl in Hf. injection Hf as <-.
      simpl. f_equal. now apply IH.
Qed.

Lemma replace_all_absent (s old new : string) :
  find old s = None -> replace_all s old new = s.
Proof.
  unfold replace_all. induction s as [|a s IH]; intros Hf; simpl in *.
  - now destruct (startswith old "").
  - destruct (startswith old (String a s)); [discriminate |].
    destruct (find old s); [discriminate |]. f_equal. now apply IH.
Qed.

(** Where [count] finds one occurrence, replacing all is replacing
    the first. *)
Lemma replace_all_once (s old new : string) :
  old <> "" -> count s old = 1%nat ->
  replace_all s old new = replace_first s old new.
Proof.
  intros Hold Hc.
  destruct (find old s) as [i|] eqn:Hf.
  - rewrite (replace_all_at s old new i Hold Hf), (replace_first_at s old new i Hf).
    rewrite (count_at s old i Hold Hf) in Hc.
    assert (contains old (drop (i + String.length old) s) = false) as Hno
      by (apply count_zero_not_contains; lia).
    unfold contains in Hno.
    destruct (find old (drop (i + String.length old) s)) eqn:Hrest; [discriminate |].
    now rewrite (replace_all_absent _ _ _ Hrest).
  - now rewrite replace_all_absent, replace_first_absent.
Qed.

End ReplaceAll.

(** X16. The snippet is cut from the text that was written.  After an
    edit of an existing file that succeeds, let [line] be the number of
    line breaks before the (only) occurrence of [old_string] in the
    original text.  The reported start line is [max 0 (line - 4) + 1],
    and the snippet consists of the lines of the updated file from
    that line up to line [line + 4] plus the number of lines of
    [new_string] (counted from 0), joined by line breaks. *)
Theorem edit_snippet_of_updated_file `{PyLib} (w w' : World)
    (file_path old_string new_string fp snippet : string) (ledger ledger' : Ledger)
    (start_line : Z) (diff : list string) (original_file updated_file : string) :
  EditTool.execute w file_path old_string new_string ledger
  = (Ok (EditSuccess fp snippet start_line diff original_file updated_file), w', ledger') ->
  old_string <> "" ->
  exists i,
    PyStr.find old_string original_file = Some i
    /\ let line :=
         Z.of_nat (List.length (PyStr.split (PyStr.take i original_file) PyStr.LF)) - 1 in
       start_line = Z.max 0 (line - 4) + 1
       /\ snippet
          = PyStr.join_with (String PyStr.LF "")
              (PyStr.slice (PyStr.split updated_file PyStr.LF) (start_line - 1)
                 (line + 4 + Z.of_nat (List.length (PyStr.split new_string PyStr.LF)) + 1)).
Proof.
  intros Hx Hold.
  destruct (edit_success_inv _ _ _ _ _ _ _ _ _ _ _ _ _ Hx)
    as (Hv & _ & _ & Hsn & _ & _ & _ & _ & Hcase).
  destruct (validate_input_true_inv _ _ _ _ _ _ Hv) as (_ & _ & Hchecked).
  destruct (nodes w !! full_path w file_path) as [node|];
    [| now destruct Hchecked].
  destruct Hcase as (f & -> & _ & Horig & Hupd).
  destruct Hchecked as (_ & _ & f0 & ts & [= <-] & _ & _ & _ & _ & Hc).
  rewrite <- Horig in Hc.
  assert (PyStr.contains old_string original_file = true) as Hin
    by (apply contains_count; lia).
  unfold PyStr.contains in Hin.
  destruct (PyStr.find old_string original_file) as [i|] eqn:Hf; [| discriminate].
  exists i. split; [reflexivity |].
  revert Hsn. unfold EditTool.get_snippet. rewrite Hf.
  destruct (String.eqb_spec old_string "") as [|_]; [contradiction |].
  rewrite andb_false_r, (replace_all_once _ _ _ Hold Hc), <- Hupd.
  unfold EditTool.N_LINES_SNIPPET.
  destruct (PyStr.take i original_file) as [|c before] eqn:Hbefore.
  - cbn [PyStr.truthy]. intros [= <- <-]. cbv zeta.
    change (Z.of_nat (List.length (PyStr.split "" PyStr.LF)) - 1) with 0.
    split; [reflexivity |]. do 2 f_equal; lia.
  - cbn [PyStr.truthy]. intros [= <- <-]. cbv zeta.
    split; [reflexivity |]. do 2 f_equal; lia.
Qed.
(** ** The conversation loop against any model *)

Section AnyModel.
Context `{Runtime}.
Implicit Types (env : Env) (create : ModelApi).

Lemma tool_runs_app (t u : list Event) : tool_runs (t ++ u) = (tool_runs t ++ tool_runs u)%list.
Proof. apply flat_map_app. Qed.

Lemma slept_app (t u : list Event) : slept (t ++ u) = slept t + slept u.
Proof.
  unfold slept. induction t as [|ev t IH]; cbn [app fold_right]; [lia |].
  destruct ev; lia.
Qed.

(** What the attempts of one request do, whatever the model does:
    they add requests and sleeps to the trace and nothing else, at
    most [remaining] requests, and sleep at most until the backoff
    has reached 512 seconds. *)
Lemma request_cost create api_messages tools (remaining : nat) :
  forall attempt env res env',
    OpenAIClient.request create api_messages tools remaining attempt env = (res, env') ->
    exec_state env' = exec_state env
    /\ (calls env <= calls env' <= calls env + remaining)%nat
    /\ exists added,
         trace env' = (trace env ++ added)%list
         /\ iterations_of added = 0%nat
         /\ tool_runs added = []
         /\ 0 <= slept added <= Z.max 0 (1024 - 2 ^ (Z.of_nat attempt + 1)).
Proof.
  induction remaining as [|remaining IH]; intros attempt env res env' Hreq.
  - injection Hreq as <- <-. split; [reflexivity |]. split; [lia |].
    exists []. rewrite app_nil_r. cbn. repeat split; lia.
  - cbn [OpenAIClient.request] in Hreq.
    assert (exec_state (count_call env) = exec_state env
            /\ (calls env <= calls (count_call env) <= calls env + S remaining)%nat
            /\ exists added,
                 trace (count_call env) = (trace env ++ added)%list
                 /\ iterations_of added = 0%nat
                 /\ tool_runs added = []
                 /\ 0 <= slept added <= Z.max 0 (1024 - 2 ^ (Z.of_nat attempt + 1)))
      as Hone.
    { split; [reflexivity |]. split; [cbn; lia |].
      exists [EvCall (calls env)]. cbn. repeat split; lia. }
    destruct (create (calls env) api_messages tools) as [response|e];
      [injection Hreq as <- <-; exact Hone |].
    destruct (OpenAIClient.is_rate_limited e && (attempt <? OpenAIClient.retry_attempts - 1)%nat)
      eqn:Hretry; [| injection Hreq as <- <-; exact Hone].
    apply andb_true_iff in Hretry. destruct Hretry as [_ Hlt].
    change (OpenAIClient.retry_attempts - 1)%nat with 9%nat in Hlt.
    apply Nat.ltb_lt in Hlt.
    destruct (IH _ _ _ _ Hreq) as (Hst & Hcalls & added & Htr & Hit & Htools & Hsl).
    cbn [emit count_call calls trace exec_state] in Hst, Hcalls, Htr.
    split; [exact Hst |]. split; [lia |].
    exists ([EvCall (calls env); EvSleep (OpenAIClient.backoff_seconds * 2 ^ Z.of_nat attempt)]
            ++ added)%list.
    split; [rewrite Htr, <- !app_assoc; reflexivity |].
    rewrite iterations_of_app, tool_runs_app, slept_app, Hit, Htools.
    split; [reflexivity |]. split; [reflexivity |].
    unfold OpenAIClient.backoff_seconds. cbn [slept fold_right].
    assert (2 ^ (Z.of_nat attempt + 1) = 2 * 2 ^ Z.of_nat attempt) as Hp1
      by (rewrite Z.pow_add_r by lia; lia).
    assert (2 ^ (Z.of_nat (S attempt) + 1) = 4 * 2 ^ Z.of_nat attempt) as Hp2
      by (replace (Z.of_nat (S attempt) + 1) with (Z.of_nat attempt + 2) by lia;
          rewrite Z.pow_add_r by lia; lia).
    assert (0 < 2 ^ Z.of_nat attempt <= 2 ^ 8) as Hpow
      by (split; [apply Z.pow_pos_nonneg; lia | apply Z.pow_le_mono_r; lia]).
    change (2 ^ 8) with 256 in Hpow. lia.
Qed.

(** How a request ends, as [query] makes it (ten attempts, the first
    numbered 0): after [k] rate-limited failures the next attempt is
    answered, or raises what leaves the request. *)
Lemma request_outcome create api_messages tools (remaining : nat) :
  forall attempt env res env',
    OpenAIClient.request create api_messages tools remaining attempt env = (res, env') ->
    (0 < remaining)%nat -> (remaining + attempt = 10)%nat ->
    exists k,
      calls env' = (calls env + S k)%nat
      /\ (attempt + k <= 9)%nat
      /\ (forall j, (j < k)%nat ->
            exists e', create (calls env + j)%nat api_messages tools = Raise e'
                       /\ OpenAIClient.is_rate_limited e' = true)
      /\ match res with
         | Ok response => create (calls env + k)%nat api_messages tools = Ok response
         | Raise e => create (calls env + k)%nat api_messages tools = Raise e
                      /\ (OpenAIClient.is_rate_limited e = false \/ (attempt + k = 9)%nat)
         end.
Proof.
  induction remaining as [|remaining IH]; intros attempt env res env' Hreq Hpos Hsum; [lia |].
  cbn [OpenAIClient.request] in Hreq.
  destruct (create (calls env) api_messages tools) as [response|e] eqn:Hc.
  - injection Hreq as <- <-. exists 0%nat. rewrite !Nat.add_0_r.
    split; [cbn; lia |]. split; [lia |]. split; [intros; lia | exact Hc].
  - change (OpenAIClient.retry_attempts - 1)%nat with 9%nat in Hreq.
    destruct (OpenAIClient.is_rate_limited e) eqn:Hrl; cbn [andb] in Hreq.
    + destruct (Nat.ltb_spec attempt 9) as [Hlt|Hge].
      * destruct (IH _ _ _ _ Hreq ltac:(lia) ltac:(lia)) as (k & Hcalls & Hk & Hfail & Hres).
        cbn [emit count_call calls] in Hcalls, Hfail, Hres.
        exists (S k). split; [lia |]. split; [lia |]. split.
        -- intros [|j] Hj; [rewrite Nat.add_0_r; eauto |].
           destruct (Hfail j ltac:(lia)) as (e' & He' & Hrl').
           exists e'. split; [| exact Hrl']. rewrite <- He'. f_equal. lia.
        -- replace (calls env + S k)%nat with (S (calls env) + k)%nat by lia.
           destruct res as [response|e0]; [exact Hres |].
           destruct Hres as [Hraise Hwhy]. split; [exact Hraise |].
           destruct Hwhy as [Hno | Hlast]; [now left | right; lia].
      * injection Hreq as <- <-. exists 0%nat. rewrite !Nat.add_0_r.
        split; [cbn; lia |]. split; [lia |]. split; [intros; lia |].
        split; [exact Hc | right; lia].
    + injection Hreq as <- <-. exists 0%nat. rewrite !Nat.add_0_r.
      split; [cbn; lia |]. split; [lia |]. split; [intros; lia |].
      split; [exact Hc | now left].
Qed.

(** [run_tools] adds to the trace the calls it ran, in order: all of
    them when it returns, those up to the one that raised otherwise.
    It makes no request. *)
Lemma run_tools_trace (tool_executor : ToolExecutor) (tool_calls : list ToolCall) :
  forall api_messages env,
  exists ran,
    trace (snd (OpenAIClient.run_tools tool_executor tool_calls api_messages env))
    = (trace env ++ map (fun tc => EvTool (tc_name tc)) ran)%list
    /\ calls (snd (OpenAIClient.run_tools tool_executor tool_calls api_messages env))
       = calls env
    /\ match fst (OpenAIClient.run_tools tool_executor tool_calls api_messages env) with
       | Ok _ => ran = tool_calls
       | Raise e =>
           exists done tool_call rest st,
             tool_calls = (done ++ tool_call :: rest)%list
             /\ ran = (done ++ [tool_call])%list
             /\ fst (tool_executor (tc_name tool_call)
                       (default empty_args (json_loads (tc_arguments tool_call))) st)
                = Raise e
       end.
Proof.
  induction tool_calls as [|tool_call rest IH]; intros api_messages env.
  - exists []. cbn. rewrite app_nil_r. now split_and!.
  - cbn [OpenAIClient.run_tools].
    destruct (tool_executor (tc_name tool_call) _ _) as [[value|e] st] eqn:Hex;
      cbn [emit calls trace exec_state].
    + match goal with |- context [OpenAIClient.run_tools _ rest ?m ?e] =>
        destruct (IH m e) as (ran & Htrace & Hcalls & Hout)
      end.
      cbn [emit calls trace] in Htrace, Hcalls.
      exists (tool_call :: ran). rewrite Htrace, Hcalls, <- app_assoc.
      split; [reflexivity |]. split; [reflexivity |].
      destruct (fst (OpenAIClient.run_tools _ rest _ _)) as [transcript|e];
        [now subst ran |].
      destruct Hout as (done & tc & rest' & st' & -> & -> & Hraise).
      now exists (tool_call :: done), tc, rest', st'.
    + exists [tool_call]. cbn [fst snd emit calls trace map].
      split; [reflexivity |]. split; [reflexivity |].
      eexists [], tool_call, rest, _. split; [reflexivity |]. split; [reflexivity |].
      now rewrite Hex.
Qed.


Lemma tool_events (tool_calls : list ToolCall) :
  iterations_of (map (fun tc => EvTool (tc_name tc)) tool_calls) = 0%nat
  /\ slept (map (fun tc => EvTool (tc_name tc)) tool_calls) = 0
  /\ tool_runs (map (fun tc => EvTool (tc_name tc)) tool_calls) = map tc_name tool_calls.
Proof.
  induction tool_calls as [|tc rest (IH1 & IH2 & IH3)]; [now cbn |].
  cbn [map]. split; [exact IH1 |]. split; [exact IH2 |].
  cbn [tool_runs flat_map app]. f_equal. exact IH3.
Qed.

(** One pass of the loop, as far as the request: what it adds. *)
Lemma iteration_request create api_messages tools iteration env res env1 :
  OpenAIClient.request create api_messages tools OpenAIClient.retry_attempts 0
                       (emit (EvIteration iteration) env) = (res, env1) ->
  exec_state env1 = exec_state env
  /\ (calls env < calls env1 <= calls env + 10)%nat
  /\ exists added,
       trace env1 = (trace env ++ added)%list
       /\ iterations_of added = 1%nat
       /\ tool_runs added = []
       /\ 0 <= slept added <= 1022.
Proof.
  intros Hreq.
  destruct (request_cost _ _ _ _ _ _ _ _ Hreq) as (Hst & Hcalls & added & Htr & Hit & Htl & Hsl).
  destruct (request_outcome _ _ _ _ _ _ _ _ Hreq ltac:(unfold OpenAIClient.retry_attempts; lia)
              eq_refl) as (k & Hk & _).
  cbn [emit calls trace exec_state] in *.
  change (Z.max 0 (1024 - 2 ^ (Z.of_nat 0 + 1))) with 1022 in Hsl.
  unfold OpenAIClient.retry_attempts in Hcalls.
  split; [exact Hst |]. split; [lia |].
  exists ([EvIteration iteration] ++ added)%list.
  rewrite Htr, <- app_assoc, iterations_of_app, tool_runs_app, slept_app, Hit, Htl.
  repeat split; cbn; lia.
Qed.

(** The cost of a conversation, whatever the model and the tools do. *)
Lemma conversation_cost create tools (tool_executor : option ToolExecutor)
    (remaining : nat) :
  forall iteration api_messages tt tc env res env',
    OpenAIClient.conversation create tools tool_executor remaining iteration
                              api_messages tt tc env = (res, env') ->
    exists k added,
      (k <= remaining)%nat
      /\ trace env' = (trace env ++ added)%list
      /\ iterations_of added = k
      /\ (calls env + k <= calls env' <= calls env + 10 * k)%nat
      /\ 0 <= slept added <= 1022 * Z.of_nat k.
Proof.
  induction remaining as [|remaining IH]; intros iteration api_messages tt tc env res env' Hx.
  - injection Hx as <- <-. exists 0%nat, []. rewrite app_nil_r. cbn. repeat split; lia.
  - cbn [OpenAIClient.conversation] in Hx.
    destruct (OpenAIClient.request create api_messages tools OpenAIClient.retry_attempts 0
                (emit (EvIteration iteration) env)) as [[response|e] env1] eqn:Hreq;
      destruct (iteration_request _ _ _ _ _ _ _ Hreq)
        as (_ & Hcalls & added & Htr & Hit & _ & Hsl);
      assert (exists k added,
                (k <= S remaining)%nat
                /\ trace env1 = (trace env ++ added)%list
                /\ iterations_of added = k
                /\ (calls env + k <= calls env1 <= calls env + 10 * k)%nat
                /\ 0 <= slept added <= 1022 * Z.of_nat k) as Hone
        by (exists 1%nat, added; repeat split; try assumption; lia).
    2: { injection Hx as <- <-. exact Hone. }
    destruct (resp_tool_calls response) as [|tool_call rest] eqn:Htcs;
      [injection Hx as <- <-; exact Hone |].
    destruct tool_executor as [executor|]; [| injection Hx as <- <-; exact Hone].
    destruct (OpenAIClient.run_tools executor (tool_call :: rest) _ env1)
      as [outcome env2] eqn:Hrt.
    match type of Hrt with OpenAIClient.run_tools _ _ ?m _ = _ =>
      destruct (run_tools_trace executor (tool_call :: rest) m env1)
        as (ran & Htr2 & Hcalls2 & _)
    end.
    rewrite Hrt in Htr2, Hcalls2. cbn [snd] in Htr2, Hcalls2.
    destruct (tool_events ran) as (Hit2 & Hsl2 & _).
    destruct outcome as [api_messages'|e].
    + destruct (IH _ _ _ _ _ _ _ Hx) as (k & added' & Hk & Htr' & Hit' & Hcalls' & Hsl').
      exists (S k), (added ++ map (fun tc => EvTool (tc_name tc)) ran ++ added')%list.
      split; [lia |].
      split; [rewrite Htr', Htr2, Htr, <- !app_assoc; reflexivity |].
      rewrite !iterations_of_app, !slept_app, Hit, Hit2, Hit', Hsl2.
      repeat split; lia.
    + injection Hx as <- <-.
      exists 1%nat, (added ++ map (fun tc => EvTool (tc_name tc)) ran)%list.
      split; [lia |].
      split; [rewrite Htr2, Htr, <- !app_assoc; reflexivity |].
      rewrite !iterations_of_app, !slept_app, Hit, Hit2, Hsl2.
      repeat split; lia.
Qed.


End AnyModel.


(** X18. What a query can cost.  Whatever the model answers and whatever
    the tools do, [query] makes at most [max_iterations] passes through
    its loop, at least one and at most ten requests in each, and sleeps
    at most 1022 seconds (2 + 4 + ... + 512) in each; what it adds to
    the trace comes after what was there. *)
Theorem query_cost_bounded `{Runtime} (create : ModelApi) (messages : list Message)
    (system_prompt : option string) (tools : option (list ToolSchema))
    (tool_executor : option ToolExecutor) (max_iterations : Z) (env : Env) :
  let env' := snd (OpenAIClient.query create messages system_prompt tools tool_executor
                                      max_iterations env) in
  exists (k : nat) added,
    Z.of_nat k <= Z.max 0 max_iterations
    /\ trace env' = (trace env ++ added)%list
    /\ iterations_of added = k
    /\ (calls env + k <= calls env' <= calls env + 10 * k)%nat
    /\ 0 <= slept added <= 1022 * Z.of_nat k.
Proof.
  intros env'. subst env'. unfold OpenAIClient.query.
  destruct (OpenAIClient.conversation _ _ _ _ _ _ _ _ _) as [res env'] eqn:Hx.
  destruct (conversation_cost _ _ _ _ _ _ _ _ _ _ _ Hx) as (k & added & Hk & Hrest).
  exists k, added. split; [lia | exact Hrest].
Qed.
Section Tools.
Context `{Runtime}.
Implicit Types (env : Env) (create : ModelApi).

(** With an executor, the calls counted are the tools run; the state
    of the tools changes in [run_tools] only. *)
Lemma conversation_tool_runs create tools (executor : ToolExecutor) (remaining : nat) :
  forall iteration api_messages tt tc env r env',
    OpenAIClient.conversation create tools (Some executor) remaining iteration
                              api_messages tt tc env = (Ok r, env') ->
    Z.of_nat (List.length (tool_runs (trace env'))) + tc
    = Z.of_nat (List.length (tool_runs (trace env))) + qr_tool_use_count r.
Proof.
  induction remaining as [|remaining IH]; intros iteration api_messages tt tc env r env' Hx.
  - injection Hx as <- <-. cbn. lia.
  - cbn [OpenAIClient.conversation] in Hx.
    destruct (OpenAIClient.request create api_messages tools OpenAIClient.retry_attempts 0
                (emit (EvIteration iteration) env)) as [[response|e] env1] eqn:Hreq;
      [| discriminate].
    destruct (iteration_request _ _ _ _ _ _ _ Hreq) as (_ & _ & added & Htr & _ & Htl & _).
    destruct (resp_tool_calls response) as [|tool_call rest] eqn:Htcs.
    + injection Hx as <- <-. rewrite Htr, tool_runs_app, Htl, app_nil_r. cbn. lia.
    + destruct (OpenAIClient.run_tools executor (tool_call :: rest) _ env1)
        as [[api_messages'|e] env2] eqn:Hrt; [| discriminate].
      match type of Hrt with OpenAIClient.run_tools _ _ ?m _ = _ =>
        destruct (run_tools_trace executor (tool_call :: rest) m env1)
          as (ran & Htr2 & _ & Hran)
      end.
      rewrite Hrt in Htr2, Hran. cbn [fst snd] in Htr2, Hran. subst ran.
      destruct (tool_events (tool_call :: rest)) as (_ & _ & Hruns).
      pose proof (IH _ _ _ _ _ _ _ Hx) as Hrec.
      rewrite Htr2, Htr, !tool_runs_app, Htl, Hruns, app_nil_r, List.length_app,
        List.length_map in Hrec.
      lia.
Qed.

(** Without an executor nothing is run, and the loop is left after
    its first pass. *)
Lemma conversation_without_executor create tools (remaining : nat) iteration api_messages
    tt tc env res env' :
  OpenAIClient.conversation create tools None remaining iteration api_messages tt tc env
  = (res, env') ->
  exec_state env' = exec_state env
  /\ tool_runs (trace env') = tool_runs (trace env)
  /\ (iterations_of (trace env') <= iterations_of (trace env) + 1)%nat
  /\ (calls env' <= calls env + 10)%nat.
Proof.
  destruct remaining as [|remaining]; intros Hx.
  - injection Hx as <- <-. repeat split; lia.
  - cbn [OpenAIClient.conversation] in Hx.
    destruct (OpenAIClient.request create api_messages tools OpenAIClient.retry_attempts 0
                (emit (EvIteration iteration) env)) as [res1 env1] eqn:Hreq.
    destruct (iteration_request _ _ _ _ _ _ _ Hreq)
      as (Hst & Hcalls & added & Htr & Hit & Htl & _).
    assert (env' = env1) as ->.
    { destruct res1 as [response|e]; [| now injection Hx].
      destruct (resp_tool_calls response); now injection Hx. }
    rewrite Htr, tool_runs_app, iterations_of_app, Htl, Hit, app_nil_r.
    repeat split; [exact Hst | lia | lia].
Qed.

End Tools.


(** X20. The tool-use count is the number of tools run.  When [query]
    is given an executor and returns a result, whatever the model did,
    the result's [tool_use_count] is the number of times the executor
    was awaited during the query. *)
Theorem tool_use_count_counts_runs `{Runtime} (create : ModelApi) (messages : list Message)
    (system_prompt : option string) (tools : option (list ToolSchema))
    (executor : ToolExecutor) (max_iterations : Z) (env env' : Env) (r : QueryResult) :
  OpenAIClient.query create messages system_prompt tools (Some executor) max_iterations env
  = (Ok r, env') ->
  Z.of_nat (List.length (tool_runs (trace env')))
  = Z.of_nat (List.length (tool_runs (trace env))) + qr_tool_use_count r.
Proof.
  unfold OpenAIClient.query. intros Hx.
  pose proof (conversation_tool_runs _ _ _ _ _ _ _ _ _ _ _ Hx). lia.
Qed.

(** X21. Without an executor no tool runs.  Whatever the model does and
    whatever [max_iterations] is, a query without a tool executor
    leaves the state of the tools as it was, runs no tool, and makes at
    most one pass through the loop (ten requests at most).  If the
    model asks for tools in its answer, the query ends at once with the
    max-iterations result, and counts the calls asked for as tool
    uses. *)
Theorem query_without_executor `{Runtime} (create : ModelApi) (messages : list Message)
    (system_prompt : option string) (tools : option (list ToolSchema))
    (max_iterations : Z) (env : Env) :
  let outcome :=
    OpenAIClient.query create messages system_prompt tools None max_iterations env in
  exec_state (snd outcome) = exec_state env
  /\ tool_runs (trace (snd outcome)) = tool_runs (trace env)
  /\ (iterations_of (trace (snd outcome)) <= iterations_of (trace env) + 1)%nat
  /\ (calls (snd outcome) <= calls env + 10)%nat
  /\ (forall response,
        1 <= max_iterations ->
        create (calls env)
               (OpenAIClient.system_message system_prompt
                ++ map OpenAIClient.api_message messages)%list
               (OpenAIClient.tools_or_none tools) = Ok response ->
        resp_tool_calls response <> [] ->
        outcome
        = (Ok (OpenAIClient.max_iterations_reached (usage_of response)
                                                   (tool_calls_of response)),
           count_call (emit (EvIteration 0) env))).
Proof.
  intros outcome. subst outcome. unfold OpenAIClient.query.
  destruct (OpenAIClient.conversation _ _ _ _ _ _ _ _ _) as [res env'] eqn:Hx.
  destruct (conversation_without_executor _ _ _ _ _ _ _ _ _ _ Hx) as (H1 & H2 & H3 & H4).
  cbn [snd]. split_and!; try assumption.
  intros response Hmax Hcreate Hasks. rewrite <- Hx.
  destruct (Z.to_nat max_iterations) as [|n] eqn:Hn; [lia |].
  cbn [OpenAIClient.conversation].
  change OpenAIClient.retry_attempts with (S 9).
  rewrite (request_answered create _ _ 9 0 (emit (EvIteration 0) env) response Hcreate).
  destruct (resp_tool_calls response) as [|tool_call rest] eqn:Htcs; [contradiction |].
  unfold usage_of, tool_calls_of. rewrite Htcs. reflexivity.
Qed.
Section PlainAnswer.
Context `{Runtime}.


End PlainAnswer.

(** ** The results of a fan-out, and the agent tool around it *)

Section FanOutOrder.
Context `{Runtime}.

Lemma collect_indices (results : list (result AgentResult)) :
  forall i,
    (forall j r, results !! j = Some (Ok r) -> agent_index r = Z.of_nat (i + j)) ->
    map agent_index (ParallelExecutor.collect i results)
    = map Z.of_nat (seq i (List.length results)).
Proof.
  induction results as [|x rest IH]; intros i Hidx; [reflexivity |].
  assert (map agent_index (ParallelExecutor.collect (S i) rest)
          = map Z.of_nat (seq (S i) (List.length rest))) as Hrest.
  { apply IH. intros j r Hj. replace (S i + j)%nat with (i + S j)%nat by lia.
    now apply Hidx. }
  destruct x as [r|e]; cbn [ParallelExecutor.collect map List.length seq]; rewrite Hrest;
    f_equal.
  - rewrite (Hidx 0%nat r eq_refl). f_equal. lia.
Qed.

(** A list whose indices count up from [a] is sorted already. *)
Lemma sorted_by_index_counting (l : list AgentResult) :
  forall a,
    map agent_index l = map Z.of_nat (seq a (List.length l)) ->
    ParallelExecutor.sorted_by_index l = l.
Proof.
  unfold ParallelExecutor.sorted_by_index.
  induction l as [|r rest IH]; intros a Hidx; [reflexivity |].
  cbn [map List.length seq] in Hidx. injection Hidx as Hr Hrest.
  cbn [fold_right]. rewrite (IH (S a) Hrest).
  destruct rest as [|x rest']; [reflexivity |].
  cbn [map List.length seq] in Hrest. injection Hrest as Hx _.
  cbn [ParallelExecutor.insert_by_index].
  destruct (Z.leb_spec (agent_index r) (agent_index x)); [reflexivity | lia].
Qed.

Lemma parallel_tasks_indices (envs : nat -> TaskEnv) (task_prompt : string)
    (agent_config : AgentConfig) (num_agents : Z) (functions : option (list ToolSchema))
    (function_executor : option ToolExecutor) (max_iterations : Z) :
  map agent_index
      (ParallelExecutor.execute_parallel_tasks envs task_prompt agent_config num_agents
         functions function_executor max_iterations)
  = map Z.of_nat (seq 0 (Z.to_nat num_agents)).
Proof.
  unfold ParallelExecutor.execute_parallel_tasks.
  rewrite collect_indices; [now rewrite length_map, length_seq |].
  intros j r Hj. rewrite list_lookup_fmap in Hj.
  destruct (seq 0 (Z.to_nat num_agents) !! j) as [i|] eqn:Hi; [| discriminate].
  apply lookup_seq in Hi. destruct Hi as [-> _].
  cbn [fmap option_fmap option_map] in Hj. injection Hj as Hj.
  now apply execute_agent_task_index in Hj.
Qed.

(** The sums over the results of a fan-out, participant by
    participant. *)
Lemma collect_sum (f : AgentResult -> Z) (g : nat -> result AgentResult) (k : nat) :
  (forall i e, f (ParallelExecutor.failed_agent i e) = 0) ->
  forall a,
    AgentTool.sum_Z (map f (ParallelExecutor.collect a (map g (seq a k))))
    = sum_over (fun i => match g i with Ok r => f r | Raise _ => 0 end) a k.
Proof.
  intros Hfailed. induction k as [|k IH]; intros a; [reflexivity |].
  cbn [seq map ParallelExecutor.collect sum_over].
  destruct (g a) as [r|e]; cbn [map AgentTool.sum_Z fold_right];
    fold (AgentTool.sum_Z (map f (ParallelExecutor.collect (S a) (map g (seq (S a) k)))));
    rewrite IH, ?Hfailed; reflexivity.
Qed.

End FanOutOrder.

(** X23. The synthesis sees the agents in order.  The results of a
    fan-out carry the indices 0, 1, ..., [num_agents - 1] in this
    order, so sorting them by index, as the synthesis does, changes
    nothing: the blocks of the synthesis prompt are those of the
    results, in the order of the participants. *)
Theorem synthesis_lists_agents_in_order `{Runtime} (envs : nat -> TaskEnv)
    (task_prompt : string) (agent_config : AgentConfig) (num_agents : Z)
    (functions : option (list ToolSchema)) (function_executor : option ToolExecutor)
    (max_iterations : Z) :
  let results :=
    ParallelExecutor.execute_parallel_tasks envs task_prompt agent_config num_agents
                                            functions function_executor max_iterations in
  map agent_index results = map Z.of_nat (seq 0 (Z.to_nat num_agents))
  /\ ParallelExecutor.sorted_by_index results = results
  /\ map ParallelExecutor.response_block (ParallelExecutor.sorted_by_index results)
     = map (fun r => "== AGENT " ++ PyStr.of_Z (agent_index r + 1) ++ " RESPONSE =="
                     ++ String PyStr.LF (content_of r ++ String PyStr.LF ""))
           results.
Proof.
  intros results.
  pose proof (parallel_tasks_indices envs task_prompt agent_config num_agents functions
                function_executor max_iterations) as Hidx.
  fold results in Hidx.
  assert (ParallelExecutor.sorted_by_index results = results) as Hsorted.
  { apply (sorted_by_index_counting results 0).
    assert (List.length results = Z.to_nat num_agents) as ->
      by (rewrite <- (List.length_map agent_index results), Hidx, List.length_map;
          apply List.length_seq).
    exact Hidx. }
  split; [exact Hidx |]. split; [exact Hsorted |]. now rewrite Hsorted.
Qed.

(** X24. What the agent tool adds up.  In [AgentTool.execute] with more
    than one agent, when the synthesis request is answered: the
    answer's tool uses are those of the participants that returned,
    its tokens are theirs plus those of the synthesis; a participant
    that raised counts for nothing, and the synthesis counts for no
    tool use. *)
Theorem agent_tool_totals `{Runtime} (project_agents : list AgentConfig)
    (envs : nat -> TaskEnv) (synth : TaskEnv) (prompt subagent_type : string)
    (functions : option (list ToolSchema)) (function_executor : option ToolExecutor)
    (parallel_count : Z) (agent_config : AgentConfig) (response : Response) :
  find_agent_by_type project_agents subagent_type = Some agent_config ->
  1 < parallel_count ->
  (forall api_messages tools,
     api synth (calls (start synth)) api_messages tools = Ok response) ->
  let participant (i : nat) :=
    ParallelExecutor.execute_agent_task (envs i)
      (prompt ++ String PyStr.LF (String PyStr.LF
         "Provide a thorough and complete analysis."))
      (Z.of_nat i) agent_config (AgentTool.agent_functions agent_config functions)
      function_executor 10 in
  exists answer,
    AgentTool.execute project_agents envs synth prompt subagent_type functions
                      function_executor parallel_count = Ok answer
    /\ at_tool_use_count answer
       = sum_over (fun i => match participant i with
                            | Ok r => tool_use_count r
                            | Raise _ => 0
                            end) 0 (Z.to_nat parallel_count)
    /\ at_tokens answer
       = sum_over (fun i => match participant i with
                            | Ok r => tokens r
                            | Raise _ => 0
                            end) 0 (Z.to_nat parallel_count)
         + usage_of response.
Proof.
  intros Hfind Hmany Hans participant.
  unfold AgentTool.execute. rewrite Hfind.
  destruct (Z.ltb_spec 1 parallel_count) as [_|]; [| lia].
  rewrite (synthesize_answered synth _ _ _ response Hans).
  eexists. split; [reflexivity |]. cbn [at_tool_use_count at_tokens tokens].
  unfold ParallelExecutor.execute_parallel_tasks. fold participant.
  now rewrite !collect_sum by reflexivity.
Qed.
Section Allowlist.

Lemma allowed_iff (names : list string) (f : ToolSchema) :
  AgentTool.allowed names f = true
  <-> exists n, function_name f = Some n /\ In n names.
Proof.
  unfold AgentTool.allowed. destruct (function_name f) as [n|].
  - rewrite existsb_exists. split.
    + intros (x & Hin & Heq). apply String.eqb_eq in Heq. subst x. eauto.
    + intros (x & [= <-] & Hin). exists n. split; [exact Hin | apply String.eqb_refl].
  - split; [discriminate | intros (n & Hn & _); discriminate].
Qed.

Lemma truthy_append (a b : string) (c : ascii) : PyStr.truthy (a ++ String c b) = true.
Proof. now destruct a. Qed.

End Allowlist.

(** X25. An agent is handed the tools on its list only.  Unless the
    agent's tool list is exactly ["*"], the tools handed to it are
    those of the given tools whose function name is on the list, in
    their order; a tool without a function name is dropped.  With the
    list ["*"], or when no tools are given, the tools are handed on as
    they are.  An agent with an empty list gets no tools at all: the
    model is then called without tools. *)
Theorem agent_functions_allowlist (agent_config : AgentConfig)
    (functions : option (list ToolSchema)) :
  (agent_tools agent_config = ["*"] \/ functions = None ->
   AgentTool.agent_functions agent_config functions = functions)
  /\ (forall fs,
        agent_tools agent_config <> ["*"] -> functions = Some fs ->
        AgentTool.agent_functions agent_config functions
        = Some (List.filter (AgentTool.allowed (agent_tools agent_config)) fs)
        /\ forall f,
             In f (List.filter (AgentTool.allowed (agent_tools agent_config)) fs)
             <-> In f fs
                 /\ exists n, function_name f = Some n /\ In n (agent_tools agent_config))
  /\ (agent_tools agent_config = [] ->
      OpenAIClient.tools_or_none (AgentTool.agent_functions agent_config functions) = None).
Proof.
  unfold AgentTool.agent_functions. split_and!.
  - intros [Hstar | ->]; [| reflexivity].
    destruct functions as [[|f fs]|]; try reflexivity.
    now rewrite bool_decide_eq_true_2.
  - intros fs Hnot ->. split.
    + destruct fs as [|f fs]; [reflexivity |]. now rewrite bool_decide_eq_false_2.
    + intros f. rewrite List.filter_In, allowed_iff. reflexivity.
  - intros Hnone. destruct functions as [[|f fs]|]; try reflexivity.
    rewrite bool_decide_eq_false_2 by (rewrite Hnone; discriminate). cbn [negb].
    rewrite Hnone.
    replace (List.filter (AgentTool.allowed []) (f :: fs)) with (@nil ToolSchema);
      [reflexivity |].
    symmetry. induction (f :: fs) as [|x l IH]; [reflexivity |].
    cbn [List.filter]. unfold AgentTool.allowed at 1.
    destruct (function_name x); exact IH.
Qed.

(** X26. Looking up an agent.  The built-in agents come first: the type
    "general-purpose" always resolves to the built-in agent, whatever
    the project defines under that name.  Any other type resolves to
    the first project agent of that type, and to nothing exactly when
    there is none; an agent that is found has the type asked for. *)
Theorem find_agent_by_type_lookup (project_agents : list AgentConfig) (wanted : string) :
  find_agent_by_type project_agents "general-purpose" = head get_built_in_agents
  /\ (exists agent, head get_built_in_agents = Some agent
                    /\ location agent = "built-in" /\ agent_tools agent = ["*"])
  /\ (wanted <> "general-purpose" ->
      find_agent_by_type project_agents wanted
      = List.find (fun agent => String.eqb (agent_type agent) wanted) project_agents)
  /\ (forall agent,
        find_agent_by_type project_agents wanted = Some agent ->
        agent_type agent = wanted)
  /\ (find_agent_by_type project_agents wanted = None
      <-> wanted <> "general-purpose"
          /\ forall agent, In agent project_agents -> agent_type agent <> wanted).
Proof.
  unfold find_agent_by_type, load_all_agents, get_built_in_agents.
  cbn [app List.find agent_type head].
  split; [reflexivity |]. split; [eexists; repeat split |].
  assert (wanted <> "general-purpose" -> String.eqb "general-purpose" wanted = false) as Hne
    by (intros Hw; apply String.eqb_neq; congruence).
  split; [intros Hw; now rewrite (Hne Hw) |]. split.
  - intros agent. destruct (String.eqb_spec "general-purpose" wanted) as [Heq|_].
    + intros [= <-]. exact Heq.
    + intros Hf. apply List.find_some in Hf. now apply String.eqb_eq.
  - destruct (String.eqb_spec "general-purpose" wanted) as [Heq|Hw].
    + split; [discriminate | intros [Hw _]; congruence].
    + split.
      * intros Hnone. split; [congruence |]. intros agent Hin Heq.
        pose proof (List.find_none _ _ Hnone agent Hin) as Hno.
        cbv beta in Hno. apply String.eqb_neq in Hno. contradiction.
      * intros [_ Hall].
        destruct (List.find _ project_agents) as [agent|] eqn:Hf; [| reflexivity].
        apply List.find_some in Hf. destruct Hf as [Hin Heq].
        apply String.eqb_eq in Heq. now destruct (Hall agent Hin).
Qed.

(** X27. One agent, no safety net.  With [parallel_count] at most 1 the
    agent tool runs a single agent: the model is sent the combined
    system prompt and the task as it was given, with the tools of the
    agent's list.  If that first request fails with an error that is
    no rate-limit error, the error leaves the tool as an exception:
    nothing stands in for the agent, as it does in a fan-out.  If it is
    answered without tool calls, the answer is returned as the result
    of one agent, without synthesis. *)
Theorem agent_tool_single_agent `{Runtime} (project_agents : list AgentConfig)
    (envs : nat -> TaskEnv) (synth : TaskEnv) (prompt subagent_type : string)
    (functions : option (list ToolSchema)) (function_executor : option ToolExecutor)
    (parallel_count : Z) (agent_config : AgentConfig) :
  find_agent_by_type project_agents subagent_type = Some agent_config ->
  parallel_count <= 1 ->
  let first_request :=
    api (envs 0%nat) (calls (start (envs 0%nat)))
        [{| role := "system";
            msg_content := Some (ParallelExecutor.combined_prompt agent_config);
            msg_name := None; msg_tool_calls := None; msg_tool_call_id := None |};
         {| role := "user"; msg_content := Some prompt;
            msg_name := None; msg_tool_calls := None; msg_tool_call_id := None |}]
        (OpenAIClient.tools_or_none (AgentTool.agent_functions agent_config functions)) in
  (forall e,
     first_request = Raise e -> OpenAIClient.is_rate_limited e = false ->
     AgentTool.execute project_agents envs synth prompt subagent_type functions
                       function_executor parallel_count = Raise e)
  /\ (forall response,
        first_request = Ok response -> resp_tool_calls response = [] ->
        AgentTool.execute project_agents envs synth prompt subagent_type functions
                          function_executor parallel_count
        = Ok {| at_content := default "" (resp_content response);
                at_tool_use_count := 0;
                at_tokens := usage_of response;
                parallel_agents := Some 1;
                synthesis := Some false |}).
Proof.
  intros Hfind Hone first_request.
  assert (OpenAIClient.system_message (Some (ParallelExecutor.combined_prompt agent_config))
          = [{| role := "system";
                msg_content := Some (ParallelExecutor.combined_prompt agent_config);
                msg_name := None; msg_tool_calls := None; msg_tool_call_id := None |}])
    as Hsys.
  { unfold OpenAIClient.system_message, ParallelExecutor.combined_prompt.
    now rewrite truthy_append. }
  unfold AgentTool.execute. rewrite Hfind.
  destruct (Z.ltb_spec 1 parallel_count) as [|_]; [lia |].
  unfold ParallelExecutor.execute_agent_task, OpenAIClient.query. rewrite Hsys.
  change (Z.to_nat 10) with 10%nat.
  unfold ParallelExecutor.user_message, OpenAIClient.api_message.
  cbn [OpenAIClient.conversation map app role msg_content msg_name msg_tool_calls
       msg_tool_call_id].
  change OpenAIClient.retry_attempts with (S 9).
  split.
  - intros e Hraise Hno.
    rewrite (request_raises (api (envs 0%nat)) _ _ 9 0
               (emit (EvIteration 0) (start (envs 0%nat))) e Hraise (or_introl Hno)).
    reflexivity.
  - intros response Hok Hplain.
    rewrite (request_answered (api (envs 0%nat)) _ _ 9 0
               (emit (EvIteration 0) (start (envs 0%nat))) response Hok).
    rewrite Hplain. cbn [fst qr_content qr_tool_use_count total_tokens content_of
                         tool_use_count tokens].
    unfold usage_of. reflexivity.
Qed.
(** ** A session of file tools *)

Section SessionFacts.
Context `{PyLib}.







End SessionFacts.

(** ** The lines of a text *)

Section Lines.
Import PyStr.

Lemma is_line_snoc (cur : string) (c : ascii) :
  no_lf cur = true -> is_line (cur ++ String c "") = true.
Proof.
  induction cur as [|a cur IH]; [reflexivity |]. cbn [no_lf]. intros Hno.
  apply andb_true_iff in Hno. destruct Hno as [Ha Hcur].
  change (String a cur ++ String c "") with (String a (cur ++ String c "")).
  cbn [is_line]. destruct (cur ++ String c "") eqn:E; [now destruct cur |].
  rewrite Ha. now apply IH.
Qed.

Lemma is_line_no_lf (cur : string) :
  no_lf cur = true -> cur <> "" -> is_line cur = true.
Proof.
  induction cur as [|a cur IH]; [congruence |]. cbn [no_lf is_line]. intros Hno _.
  apply andb_true_iff in Hno. destruct Hno as [Ha Hcur].
  destruct cur as [|b cur]; [reflexivity |]. rewrite Ha. now apply IH.
Qed.

Lemma ends_with_lf_snoc (cur : string) : ends_with_lf (cur ++ String LF "") = true.
Proof.
  induction cur as [|a cur IH]; [reflexivity |].
  change (String a cur ++ String LF "") with (String a (cur ++ String LF "")).
  cbn [ends_with_lf]. destruct (cur ++ String LF "") eqn:E; [now destruct cur |].
  exact IH.
Qed.

Lemma no_lf_snoc (cur : string) (c : ascii) :
  no_lf cur = true -> Ascii.eqb c LF = false -> no_lf (cur ++ String c "") = true.
Proof.
  intros Hcur Hc. induction cur as [|a cur IH]; cbn [no_lf append] in *;
    [now rewrite Hc |].
  apply andb_true_iff in Hcur. destruct Hcur as [-> Hcur]. now apply IH.
Qed.

(** What [readlines] returns are lines. *)
Lemma readlines_from_are_lines (s : string) :
  forall cur, no_lf cur = true -> are_lines (readlines_from cur s) = true.
Proof.
  induction s as [|c s IH]; intros cur Hcur; cbn [readlines_from].
  - destruct cur as [|a cur]; [reflexivity |]. cbn [are_lines].
    now rewrite is_line_no_lf.
  - destruct (Ascii.eqb c LF) eqn:Hc.
    + apply Ascii.eqb_eq in Hc. subst c. cbn [are_lines].
      rewrite is_line_snoc, ends_with_lf_snoc, IH by (assumption || reflexivity).
      now destruct (readlines_from "" s).
    + apply IH. now apply no_lf_snoc.
Qed.

Lemma are_lines_app (l1 l2 : list string) :
  are_lines (l1 ++ l2) = true -> are_lines l1 = true /\ are_lines l2 = true.
Proof.
  induction l1 as [|x l1 IH]; [intros Hl2; split; [reflexivity | exact Hl2] |].
  change ((x :: l1) ++ l2)%list with (x :: (l1 ++ l2))%list. cbn [are_lines].
  rewrite !andb_true_iff. intros [[Hx Hend] Hrest].
  destruct (IH Hrest) as [H1 H2]. split; [| exact H2].
  split; [split; [exact Hx |] | exact H1].
  destruct l1; [reflexivity | exact Hend].
Qed.

(** Reading a line, and reading a line that is followed by more. *)
Lemma readlines_from_line (x : string) :
  forall cur, is_line x = true -> readlines_from cur x = [cur ++ x].
Proof.
  induction x as [|c x IH]; intros cur Hx; [discriminate |].
  cbn [readlines_from]. destruct x as [|d x].
  - destruct (Ascii.eqb c LF); [reflexivity |]. cbn [readlines_from].
    now destruct cur.
  - cbn [is_line] in Hx. apply andb_true_iff in Hx. destruct Hx as [Hc Hx].
    apply negb_true_iff in Hc. rewrite Hc, (IH _ Hx), append_assoc. reflexivity.
Qed.

Lemma readlines_from_first (x s : string) :
  forall cur,
    is_line x = true -> ends_with_lf x = true ->
    readlines_from cur (x ++ s) = (cur ++ x) :: readlines s.
Proof.
  induction x as [|c x IH]; intros cur Hx Hend; [discriminate |].
  change (String c x ++ s) with (String c (x ++ s)). cbn [readlines_from].
  destruct x as [|d x].
  - cbn [ends_with_lf] in Hend. rewrite Hend. reflexivity.
  - cbn [is_line] in Hx. apply andb_true_iff in Hx. destruct Hx as [Hc Hx].
    apply negb_true_iff in Hc. rewrite Hc.
    rewrite (IH _ Hx Hend), append_assoc. reflexivity.
Qed.

(** Lines joined are read back as they were. *)
Lemma readlines_join (l : list string) :
  are_lines l = true -> readlines (join l) = l.
Proof.
  induction l as [|x l IH]; [reflexivity |]. cbn [are_lines].
  rewrite !andb_true_iff. intros [[Hx Hend] Hrest].
  change (join (x :: l)) with (x ++ join l). unfold readlines.
  destruct l as [|y l].
  - change (join []) with "". rewrite append_empty_r. now apply readlines_from_line.
  - rewrite (readlines_from_first _ _ "" Hx Hend). f_equal. now apply IH.
Qed.

End Lines.

(** X29. The line count is that of the text.  In the result of a text
    read that succeeds, [line_count] is the number of lines of the
    text returned: reading that text line by line gives as many
    lines. *)
Theorem read_line_count `{PyLib} (w : World) (file_path fp text : string)
    (offset limit : option Z) (read_file_timestamps ledger' : option Ledger)
    (line_count total_lines : nat) (start_line : Z) :
  ReadTool.execute w file_path offset limit read_file_timestamps
  = (Ok (ReadText fp text line_count total_lines start_line), ledger') ->
  line_count = List.length (PyStr.readlines text).
Proof.
  intros Hx.
  destruct (read_text_success_inv _ _ _ _ _ _ _ _ _ _ _ Hx) as (_ & Hread & _).
  destruct (os.read_text w (full_path w file_path)) as [delivered|e] eqn:Hd;
    [| unfold ReadTool._read_text_file in Hread; rewrite Hd in Hread; discriminate].
  destruct (read_text_file_lines w _ offset limit _ Hd)
    as (selected & Heq & before & after & Hlines).
  rewrite Hread in Heq. injection Heq as -> -> _.
  pose proof (readlines_from_are_lines delivered "" eq_refl) as Hok.
  fold (PyStr.readlines delivered) in Hok. rewrite Hlines in Hok.
  apply are_lines_app in Hok. destruct Hok as [_ Hok].
  apply are_lines_app in Hok. destruct Hok as [Hok _].
  now rewrite (readlines_join _ Hok).
Qed.
(** ** Cutting long output *)

Section Truncation.
Import PyStr.

Lemma split_from_cons (c : ascii) (s : string) :
  forall cur, exists x rest, split_from c cur s = x :: rest.
Proof.
  induction s as [|a s IH]; intros cur; cbn [split_from]; [eauto |].
  destruct (Ascii.eqb a c); [eauto | apply IH].
Qed.

(** Splitting at a character and joining with it gives the text
    back. *)
Lemma join_split_from (c : ascii) (s : string) :
  forall cur, join_with (String c "") (split_from c cur s) = cur ++ s.
Proof.
  induction s as [|a s IH]; intros cur; cbn [split_from].
  - cbn [join_with]. now rewrite append_empty_r.
  - destruct (Ascii.eqb_spec a c) as [->|Hne].
    + destruct (split_from_cons c s "") as (x & rest & Hx).
      specialize (IH ""). rewrite Hx in *.
      change (join_with (String c "") (cur :: x :: rest))
        with (cur ++ String c "" ++ join_with (String c "") (x :: rest)).
      rewrite IH. reflexivity.
    + rewrite IH, append_assoc. reflexivity.
Qed.

Lemma join_split (s : string) (c : ascii) : join_with (String c "") (split s c) = s.
Proof. unfold split. now rewrite join_split_from. Qed.

Lemma slice_from_suffix {A} (l : list A) (k : Z) :
  0 < k -> slice_from l (- k) = List.skipn (List.length l - Z.to_nat k) l.
Proof.
  intros Hk. unfold slice_from, clamp_index.
  destruct (Z.ltb_spec (- k) 0); [| lia]. f_equal. lia.
Qed.

End Truncation.

(** X30. What [truncate_output] keeps.  It reports the number of lines
    of the output.  Output of at most [max_lines] lines is returned as
    it is.  Longer output, for [max_lines] of at least 2, is cut to
    its first and its last [max_lines // 2] lines with one marker line
    between them that tells how many lines there are beyond
    [max_lines].  For [max_lines] 0 or 1 nothing is cut: the marker is
    put in front of the whole output. *)
Theorem truncate_output_keeps_ends (output : string) (max_lines : Z) :
  let lines := PyStr.split output PyStr.LF in
  let total_lines := Z.of_nat (List.length lines) in
  let keep_lines := Z.to_nat (max_lines / 2) in
  output <> "" ->
  snd (truncate_output output max_lines) = total_lines
  /\ 1 <= total_lines
  /\ (total_lines <= max_lines -> fst (truncate_output output max_lines) = output)
  /\ (2 <= max_lines < total_lines ->
      fst (truncate_output output max_lines)
      = PyStr.join_with (String PyStr.LF "")
          (List.firstn keep_lines lines
           ++ [truncation_marker (total_lines - max_lines)]
           ++ List.skipn (List.length lines - keep_lines) lines)%list
      /\ (1 <= keep_lines)%nat
      /\ 2 * Z.of_nat keep_lines <= max_lines)
  /\ (0 <= max_lines <= 1 -> max_lines < total_lines ->
      fst (truncate_output output max_lines)
      = truncation_marker (total_lines - max_lines) ++ String PyStr.LF output).
Proof.
  intros lines total_lines keep_lines Hout. unfold truncate_output.
  assert (PyStr.truthy output = true) as -> by (destruct output; [contradiction | reflexivity]).
  cbn [negb]. fold lines. fold total_lines.
  pose proof (join_split output PyStr.LF) as Hjoin. fold lines in Hjoin.
  assert (exists x rest, lines = x :: rest) as (x & rest & Hl)
    by apply split_from_cons.
  assert (1 <= total_lines) as Hpos by (subst total_lines; rewrite Hl; cbn [List.length]; lia).
  split; [now destruct (total_lines <=? max_lines) |]. split; [exact Hpos |].
  destruct (Z.leb_spec total_lines max_lines) as [Hle|Hgt].
  - split; [reflexivity |]. split; [lia | lia].
  - split; [lia |]. cbn [fst]. split.
    + intros [Hmax _].
      assert (2 <= 2 * (max_lines / 2) <= max_lines) as Hk.
      { pose proof (Z.div_mod max_lines 2 ltac:(lia)) as Hdm.
        pose proof (Z.mod_pos_bound max_lines 2 ltac:(lia)). lia. }
      rewrite slice_prefix by lia. rewrite slice_from_suffix by lia.
      fold keep_lines. split; [reflexivity |]. subst keep_lines. lia.
    + intros Hsmall _.
      assert (max_lines / 2 = 0) as -> by (apply Z.div_small; lia).
      change (- 0) with 0. rewrite slice_from_zero, slice_prefix by lia.
      change (List.firstn (Z.to_nat 0) lines) with (@nil string). cbn [app].
      rewrite <- Hjoin. rewrite Hl. reflexivity.
Qed.

(** ** The theorems at work on the scenario *)

Section OnTheScenario.
Import Scenario.

(** C1 at [a.txt]: "foo" occurs once, the edit to "baz" succeeds. *)
Lemma edit_single_occurrence_witness :
  ("foo" <> "baz" /\ "foo" <> ""
   /\ nodes world !! full_path world "a.txt" = Some (file a_txt 10 true true)
   /\ PyStr.endswith (full_path world "a.txt") ".ipynb" = false
   /\ ledger !! full_path world "a.txt" = Some 10
   /\ PyStr.count a_txt "foo" = 1%nat)
  /\ EditTool.validate_input world "a.txt" "foo" "baz" ledger = (true, None)
  /\ exists pre post snippet start_line diff,
       a_txt = pre ++ "foo" ++ post
       /\ PyStr.find "foo" a_txt = Some (String.length pre)
       /\ PyStr.contains "foo" post = false
       /\ @EditTool.execute plain_lib world "a.txt" "foo" "baz" ledger
          = (Ok (EditSuccess "a.txt" snippet start_line diff a_txt (pre ++ "baz" ++ post)),
             os.set_node world (full_path world "a.txt")
               (RegularFile {| content := pre ++ "baz" ++ post; mtime := clock world;
                               readable := true; writable := true |}),
             <[full_path world "a.txt" := clock world]> ledger).
Proof.
  assert ("foo" <> "baz") as H1 by discriminate.
  assert ("foo" <> "") as H2 by discriminate.
  assert (nodes world !! full_path world "a.txt" = Some (file a_txt 10 true true)) as H3
    by (vm_compute; reflexivity).
  assert (PyStr.endswith (full_path world "a.txt") ".ipynb" = false) as H4
    by (vm_compute; reflexivity).
  assert (ledger !! full_path world "a.txt" = Some 10) as H5 by (vm_compute; reflexivity).
  assert (PyStr.count a_txt "foo" = 1%nat) as H6 by reflexivity.
  split; [repeat split; assumption |].
  destruct (@edit_single_occurrence plain_lib world "a.txt" "foo" "baz" ledger
              {| content := a_txt; mtime := 10; readable := true; writable := true |} 10
              H1 H2 H3 H4 H5 ltac:(lia) ltac:(simpl; lia) eq_refl eq_refl)
    as (Honce & _ & _).
  destruct (Honce H6) as [Hv Hx]. split; [exact Hv |].
  apply Hx; vm_compute; reflexivity.
Defined.

(** C2 at [a.txt] with an empty ledger. *)
Lemma unread_file_rejected_witness :
  (os.path_exists world (full_path world "a.txt") = true
   /\ PyStr.endswith (full_path world "a.txt") ".ipynb" = false
   /\ (∅ : Ledger) !! full_path world "a.txt" = None)
  /\ @WriteTool.execute plain_lib world "a.txt" "new text" ∅
     = (WriteFailure Msg.unread "a.txt", world, ∅)
  /\ EditTool.validate_input world "a.txt" "foo" "baz" ∅ = (false, Some Msg.unread)
  /\ @EditTool.execute plain_lib world "a.txt" "foo" "baz" ∅
     = (Ok (EditFailure (Some Msg.unread) "a.txt"), world, ∅).
Proof.
  assert (os.path_exists world (full_path world "a.txt") = true) as H1
    by (vm_compute; reflexivity).
  assert (PyStr.endswith (full_path world "a.txt") ".ipynb" = false) as H2
    by (vm_compute; reflexivity).
  assert ((∅ : Ledger) !! full_path world "a.txt" = None) as H3 by apply lookup_empty.
  split; [repeat split; assumption |].
  destruct (@unread_file_rejected plain_lib world "a.txt" "foo" "baz" "new text" ∅
              H1 H2 H3) as [Hw He].
  split; [exact Hw |]. apply He; discriminate.
Defined.

(** C3 at [changed.txt], read at 10 and changed at 15. *)
Lemma stale_file_rejected_witness :
  (PyStr.endswith (full_path world "changed.txt") ".ipynb" = false
   /\ ledger !! full_path world "changed.txt" = Some 10
   /\ os.getmtime world (full_path world "changed.txt") = Ok 15)
  /\ @WriteTool.execute plain_lib world "changed.txt" "new text" ledger
     = (WriteFailure Msg.stale "changed.txt", world, ledger)
  /\ EditTool.validate_input world "changed.txt" "foo" "baz" ledger
     = (false, Some Msg.stale)
  /\ @EditTool.execute plain_lib world "changed.txt" "foo" "baz" ledger
     = (Ok (EditFailure (Some Msg.stale) "changed.txt"), world, ledger).
Proof.
  assert (PyStr.endswith (full_path world "changed.txt") ".ipynb" = false) as H1
    by (vm_compute; reflexivity).
  assert (ledger !! full_path world "changed.txt" = Some 10) as H2
    by (vm_compute; reflexivity).
  assert (os.getmtime world (full_path world "changed.txt") = Ok 15) as H3
    by (vm_compute; reflexivity).
  split; [repeat split; assumption |].
  destruct (@stale_file_rejected plain_lib world "changed.txt" "foo" "baz" "new text"
              ledger 10 15 H1 H2 ltac:(lia) H3 ltac:(lia)) as [Hw He].
  split; [exact Hw |]. apply He; discriminate.
Defined.


(** C8 at [a.txt]: what is written is what is read. *)
Lemma write_then_read_witness :
  @WriteTool.execute plain_lib world "a.txt" "new text" ledger
  = (WriteSuccess "a.txt" "new text" Update [],
     os.set_node world "/w/a.txt" (file "new text" 20 true true),
     <["/w/a.txt" := 20]> ledger)
  /\ (<["/w/a.txt" := 20]> ledger : Ledger) !! full_path world "a.txt" = Some (clock world)
  /\ exists line_count,
       @ReadTool.execute plain_lib
         (os.set_node world "/w/a.txt" (file "new text" 20 true true))
         "a.txt" None None (Some (<["/w/a.txt" := 20]> ledger))
       = (Ok (ReadText "a.txt" "new text" line_count line_count 1),
          Some (<["/w/a.txt" := 20]> ledger)).
Proof.
  assert (@WriteTool.execute plain_lib world "a.txt" "new text" ledger
          = (WriteSuccess "a.txt" "new text" Update [],
             os.set_node world "/w/a.txt" (file "new text" 20 true true),
             <["/w/a.txt" := 20]> ledger)) as Hw by (vm_compute; reflexivity).
  split; [exact Hw |].
  destruct (@write_then_read plain_lib _ _ _ _ _ _ _ _ Hw) as [[Hl _] Hread].
  split; [exact Hl |].
  apply Hread; [vm_compute; reflexivity | vm_compute; discriminate | reflexivity].
Defined.

(** C9 at the notebook, which validation refuses. *)
Lemma edit_rejected_changes_nothing_witness :
  fst (EditTool.validate_input world "nb.ipynb" "foo" "baz" ledger) = false
  /\ exists msg,
       EditTool.validate_input world "nb.ipynb" "foo" "baz" ledger = (false, Some msg)
       /\ @EditTool.execute plain_lib world "nb.ipynb" "foo" "baz" ledger
          = (Ok (EditFailure (Some msg) "nb.ipynb"), world, ledger).
Proof.
  assert (fst (EditTool.validate_input world "nb.ipynb" "foo" "baz" ledger) = false) as Hv
    by (vm_compute; reflexivity).
  split; [exact Hv |].
  exact (@edit_rejected_changes_nothing plain_lib world "nb.ipynb" "foo" "baz" ledger Hv).
Defined.

(** C10 at [a.txt]: the entry of [/w/ro.txt] is not touched. *)
Lemma ledger_frame_witness :
  "/w/ro.txt" <> full_path world "a.txt"
  /\ snd (@EditTool.execute plain_lib world "a.txt" "foo" "baz" ledger) !! "/w/ro.txt"
     = ledger !! "/w/ro.txt"
  /\ snd (@WriteTool.execute plain_lib world "a.txt" "new text" ledger) !! "/w/ro.txt"
     = ledger !! "/w/ro.txt".
Proof.
  assert ("/w/ro.txt" <> full_path world "a.txt") as Hq by (vm_compute; discriminate).
  split; [exact Hq |].
  destruct (@ledger_frame plain_lib world "a.txt" "foo" "baz" "new text" ledger)
    as (Hframe & _ & _).
  exact (Hframe "/w/ro.txt" Hq).
Defined.


(** C5 with a model that is rate-limited twice and then answers. *)
Lemma rate_limit_backoff_witness :
  ((2 <= 9)%nat
   /\ forall j, (j < 2)%nat ->
        exists e, throttled_twice (calls env0 + j)%nat hello None = Raise e
                  /\ @OpenAIClient.is_rate_limited e = true)
  /\ @OpenAIClient.request text_runtime throttled_twice hello None
                           OpenAIClient.retry_attempts 0 (emit (EvIteration 0) env0)
     = (Ok final,
        @Build_Env text_runtime 3
          [EvIteration 0; EvCall 0; EvSleep 2; EvCall 1; EvSleep 4; EvCall 2] 0%nat).
Proof.
  assert ((2 <= 9)%nat) as H1 by lia.
  assert (forall j, (j < 2)%nat ->
            exists e, throttled_twice (calls env0 + j)%nat hello None = Raise e
                      /\ @OpenAIClient.is_rate_limited e = true) as H2.
  { intros j Hj. exists too_many_requests.
    destruct j as [|[|j]]; [split; reflexivity | split; reflexivity | lia]. }
  split; [split; assumption |].
  destruct (@rate_limit_backoff text_runtime throttled_twice None (Some echo) 0 0 hello
              0 0 env0 2 H1 H2) as (_ & Hanswered & _).
  exact (Hanswered final eq_refl).
Defined.

(** C6 with three participants, the second of which raises. *)
Lemma fan_out_tolerates_failures_witness :
  1 <= 3
  /\ Z.of_nat (List.length
                 (@ParallelExecutor.execute_parallel_tasks text_runtime participants "task"
                    general_purpose 3 None (Some echo) 10)) = 3
  /\ exists r,
       @ParallelExecutor.execute_parallel_tasks text_runtime participants "task"
         general_purpose 3 None (Some echo) 10 !! 1%nat = Some r
       /\ agent_index r = 1
       /\ r = {| agent_index := 1;
                 content_of := "Agent execution failed: Internal Server Error";
                 tool_use_count := 0; tokens := 0; duration_ms := 0 |}.
Proof.
  assert (1 <= 3) as H1 by lia.
  split; [exact H1 |].
  destruct (@fan_out_tolerates_failures text_runtime participants "task" general_purpose 3
              None (Some echo) 10 H1) as (Hlen & Hat & _).
  split; [exact Hlen |].
  destruct (Hat 1%nat ltac:(lia)) as (r & Hr & Hi & Ho).
  exists r. repeat split; assumption.
Defined.

End OnTheScenario.

(** ** The further properties at work on the scenario *)

Section MoreOnTheScenario.
Import Scenario.

(** X2 at [a.txt], second line only. *)
Lemma read_returns_part_of_file_witness :
  @ReadTool.execute plain_lib world "a.txt" (Some 2) (Some 1) (Some ledger)
  = (Ok (ReadText "a.txt" bar_line 1 2 2), Some (<["/w/a.txt" := 10]> ledger))
  /\ exists f before selected after,
       nodes world !! full_path world "a.txt" = Some (RegularFile f)
       /\ readable f = true
       /\ PyStr.readlines (PyStr.universal_newlines (content f))
          = (before ++ selected ++ after)%list
       /\ bar_line = PyStr.join selected
       /\ PyStr.universal_newlines (content f)
          = PyStr.join before ++ bar_line ++ PyStr.join after
       /\ Z.of_nat (String.length bar_line) <= ReadTool.MAX_OUTPUT_SIZE
       /\ 1%nat = List.length selected
       /\ 2%nat = List.length (PyStr.readlines (PyStr.universal_newlines (content f)))
       /\ (1 <= 2)%nat
       /\ "a.txt" = "a.txt".
Proof.
  assert (@ReadTool.execute plain_lib world "a.txt" (Some 2) (Some 1) (Some ledger)
          = (Ok (ReadText "a.txt" bar_line 1 2 2), Some (<["/w/a.txt" := 10]> ledger)))
    as Hx by (vm_compute; reflexivity).
  split; [exact Hx |].
  exact (@read_returns_part_of_file plain_lib _ _ _ _ _ _ _ _ _ _ _ Hx).
Defined.

(** X3 at [a.txt]: the first line, then the rest. *)
Lemma read_windows_compose_witness :
  os.read_text world "/w/a.txt" = Ok a_txt
  /\ exists t1 t2 c1 c2,
       ReadTool._read_text_file world "/w/a.txt" (Some 1) (Some 1)
       = Ok (t1, c1, List.length (PyStr.readlines a_txt))
       /\ ReadTool._read_text_file world "/w/a.txt" (Some (1 + 1)) None
          = Ok (t2, c2, List.length (PyStr.readlines a_txt))
       /\ ReadTool._read_text_file world "/w/a.txt" (Some 1) None
          = Ok (t1 ++ t2, (c1 + c2)%nat, List.length (PyStr.readlines a_txt))
       /\ (1 = 1 -> t1 ++ t2 = a_txt).
Proof.
  assert (os.read_text world "/w/a.txt" = Ok a_txt) as Hread by (vm_compute; reflexivity).
  split; [exact Hread |].
  exact (read_windows_compose world "/w/a.txt" a_txt 1 1 ltac:(lia) ltac:(lia) Hread).
Defined.

(** X4 at [a.txt]: offset 0, and offset 5 of a file of two lines. *)
Lemma read_offset_out_of_range_witness :
  os.read_text world "/w/a.txt" = Ok a_txt
  /\ ReadTool._read_text_file world "/w/a.txt" (Some 0) (Some 1)
     = ReadTool._read_text_file world "/w/a.txt" None (Some 1)
  /\ ReadTool._read_text_file world "/w/a.txt" (Some 5) (Some 1) = Ok ("", 0%nat, 2%nat).
Proof.
  assert (os.read_text world "/w/a.txt" = Ok a_txt) as Hread by (vm_compute; reflexivity).
  split; [exact Hread |].
  destruct (read_offset_out_of_range world "/w/a.txt" a_txt 0 (Some 1) Hread) as [Hfloor _].
  destruct (read_offset_out_of_range world "/w/a.txt" a_txt 5 (Some 1) Hread) as [_ Hpast].
  split; [apply Hfloor; lia | apply Hpast; vm_compute; reflexivity].
Defined.

(** X5 at [a.txt], from line 3 of two, with an empty ledger. *)
Lemma read_past_end_is_recorded_witness :
  nodes world !! full_path world "a.txt" = Some (file a_txt 10 true true)
  /\ @ReadTool.execute plain_lib world "a.txt" (Some 3) None (Some ∅)
     = (Ok (ReadText "a.txt" "" 0 2 3), Some (<["/w/a.txt" := 10]> ∅)).
Proof.
  assert (nodes world !! full_path world "a.txt" = Some (file a_txt 10 true true)) as Hnode
    by (vm_compute; reflexivity).
  split; [exact Hnode |].
  exact (@read_past_end_is_recorded plain_lib world "a.txt" 3 None ∅
           {| content := a_txt; mtime := 10; readable := true; writable := true |}
           Hnode eq_refl ltac:(vm_compute; reflexivity) ltac:(vm_compute; reflexivity)).
Defined.

(** X6 at [a.txt]: read with an empty ledger, then written. *)
Lemma read_then_write_witness :
  @ReadTool.execute plain_lib world "a.txt" None None (Some ∅)
  = (Ok (ReadText "a.txt" a_txt 2 2 1), Some (<["/w/a.txt" := 10]> ∅))
  /\ (exists diff,
        @WriteTool.execute plain_lib world "a.txt" "new text" (<["/w/a.txt" := 10]> ∅)
        = (WriteSuccess "a.txt" "new text" Update diff,
           os.set_node world (full_path world "a.txt")
             (RegularFile {| content := "new text"; mtime := clock world;
                             readable := true; writable := true |}),
           <[full_path world "a.txt" := clock world]> (<["/w/a.txt" := 10]> ∅)))
  /\ EditTool.validate_input world "a.txt" "foo" "baz" (<["/w/a.txt" := 10]> ∅)
     = (true, None).
Proof.
  assert (@ReadTool.execute plain_lib world "a.txt" None None (Some ∅)
          = (Ok (ReadText "a.txt" a_txt 2 2 1), Some (<["/w/a.txt" := 10]> ∅))) as Hx
    by (vm_compute; reflexivity).
  split; [exact Hx |].
  destruct (@read_then_write plain_lib world "a.txt" "new text" None None ∅
              (<["/w/a.txt" := 10]> ∅) _
              {| content := a_txt; mtime := 10; readable := true; writable := true |}
              Hx ltac:(discriminate) ltac:(vm_compute; reflexivity)
              ltac:(vm_compute; reflexivity) ltac:(simpl; lia)) as [Hwrite Hedit].
  split; [apply Hwrite; vm_compute; reflexivity |].
  exact (Hedit "foo" "baz" ltac:(discriminate) ltac:(discriminate)).
Defined.

(** X8 at [a.txt]: "foo" replaced by "baz". *)
Lemma edit_success_sound_witness :
  @EditTool.execute plain_lib world "a.txt" "foo" "baz" ledger
  = (Ok (EditSuccess "a.txt" baz_txt 1 [] a_txt baz_txt),
     os.set_node world "/w/a.txt" (file baz_txt 20 true true),
     <["/w/a.txt" := 20]> ledger)
  /\ nodes (os.set_node world "/w/a.txt" (file baz_txt 20 true true))
           !! full_path world "a.txt"
     = Some (RegularFile {| content := baz_txt; mtime := clock world;
                            readable := true; writable := true |})
  /\ "foo" <> "baz".
Proof.
  assert (@EditTool.execute plain_lib world "a.txt" "foo" "baz" ledger
          = (Ok (EditSuccess "a.txt" baz_txt 1 [] a_txt baz_txt),
             os.set_node world "/w/a.txt" (file baz_txt 20 true true),
             <["/w/a.txt" := 20]> ledger)) as Hx by (vm_compute; reflexivity).
  split; [exact Hx |].
  destruct (@edit_success_sound plain_lib _ _ _ _ _ _ _ _ _ _ _ _ _ Hx)
    as (_ & _ & Hnode & _ & Hne & _).
  split; [exact Hnode | exact Hne].
Defined.

(** X9 at [a.txt], overwritten. *)
Lemma write_success_sound_witness :
  @WriteTool.execute plain_lib world "a.txt" "new text" ledger
  = (WriteSuccess "a.txt" "new text" Update [],
     os.set_node world "/w/a.txt" (file "new text" 20 true true),
     <["/w/a.txt" := 20]> ledger)
  /\ nodes (os.set_node world "/w/a.txt" (file "new text" 20 true true))
           !! full_path world "a.txt"
     = Some (RegularFile {| content := "new text"; mtime := clock world;
                            readable := true; writable := true |})
  /\ <["/w/a.txt" := 20]> ledger = <[full_path world "a.txt" := clock world]> ledger.
Proof.
  assert (@WriteTool.execute plain_lib world "a.txt" "new text" ledger
          = (WriteSuccess "a.txt" "new text" Update [],
             os.set_node world "/w/a.txt" (file "new text" 20 true true),
             <["/w/a.txt" := 20]> ledger)) as Hx by (vm_compute; reflexivity).
  split; [exact Hx |].
  destruct (@write_success_sound plain_lib _ _ _ _ _ _ _ _ _ _ Hx)
    as (_ & _ & Hnode & Hled & _).
  split; [exact Hnode | exact Hled].
Defined.



(** X12 at [a.txt]: written at 20, written again at 30. *)
Lemma write_then_write_witness :
  @WriteTool.execute plain_lib world "a.txt" "new text" ledger
  = (WriteSuccess "a.txt" "new text" Update [],
     os.set_node world "/w/a.txt" (file "new text" 20 true true),
     <["/w/a.txt" := 20]> ledger)
  /\ fst (fst (@WriteTool.execute plain_lib
                 {| nodes := nodes (os.set_node world "/w/a.txt"
                                      (file "new text" 20 true true));
                    cwd := cwd (os.set_node world "/w/a.txt"
                                  (file "new text" 20 true true));
                    clock := 30 |}
                 "a.txt" "newer text" (<["/w/a.txt" := 20]> ledger)))
     = WriteSuccess "a.txt" "newer text" Update
         (if PyStr.truthy (PyStr.universal_newlines "new text")
          then @unified_diff plain_lib (PyStr.universal_newlines "new text") "newer text"
                                       "a.txt"
          else []).
Proof.
  assert (@WriteTool.execute plain_lib world "a.txt" "new text" ledger
          = (WriteSuccess "a.txt" "new text" Update [],
             os.set_node world "/w/a.txt" (file "new text" 20 true true),
             <["/w/a.txt" := 20]> ledger)) as Hx by (vm_compute; reflexivity).
  split; [exact Hx |].
  destruct (@write_then_write plain_lib _ _ _ _ "newer text" _ _ _ _ 30 Hx
              ltac:(simpl; lia) ltac:(vm_compute; reflexivity)) as [Hagain _].
  now rewrite Hagain.
Defined.

(** X13 at [a.txt]: edited at 20, then "baz" is found once. *)
Lemma edit_then_edit_witness :
  @EditTool.execute plain_lib world "a.txt" "foo" "baz" ledger
  = (Ok (EditSuccess "a.txt" baz_txt 1 [] a_txt baz_txt),
     os.set_node world "/w/a.txt" (file baz_txt 20 true true),
     <["/w/a.txt" := 20]> ledger)
  /\ EditTool.validate_input
       {| nodes := nodes (os.set_node world "/w/a.txt" (file baz_txt 20 true true));
          cwd := cwd (os.set_node world "/w/a.txt" (file baz_txt 20 true true));
          clock := 30 |}
       "a.txt" "baz" "qux" (<["/w/a.txt" := 20]> ledger)
     = match PyStr.count (PyStr.universal_newlines baz_txt) "baz" with
       | O => (false, Some Msg.not_found)
       | S O => (true, None)
       | n => (false, Some (Msg.ambiguous n))
       end.
Proof.
  assert (@EditTool.execute plain_lib world "a.txt" "foo" "baz" ledger
          = (Ok (EditSuccess "a.txt" baz_txt 1 [] a_txt baz_txt),
             os.set_node world "/w/a.txt" (file baz_txt 20 true true),
             <["/w/a.txt" := 20]> ledger)) as Hx by (vm_compute; reflexivity).
  split; [exact Hx |].
  destruct (@edit_then_edit plain_lib _ _ _ _ _ _ "" _ _ _ _ _ _ 30 Hx
              ltac:(simpl; lia) ltac:(vm_compute; reflexivity)) as [Hedit _].
  exact (Hedit "baz" "qux" ltac:(discriminate) ltac:(discriminate)).
Defined.

(** X16 at [a.txt]: the snippet of the edit. *)
Lemma edit_snippet_of_updated_file_witness :
  @EditTool.execute plain_lib world "a.txt" "foo" "baz" ledger
  = (Ok (EditSuccess "a.txt" baz_txt 1 [] a_txt baz_txt),
     os.set_node world "/w/a.txt" (file baz_txt 20 true true),
     <["/w/a.txt" := 20]> ledger)
  /\ exists i,
       PyStr.find "foo" a_txt = Some i
       /\ let line :=
            Z.of_nat (List.length (PyStr.split (PyStr.take i a_txt) PyStr.LF)) - 1 in
          1 = Z.max 0 (line - 4) + 1
          /\ baz_txt
             = PyStr.join_with (String PyStr.LF "")
                 (PyStr.slice (PyStr.split baz_txt PyStr.LF) (1 - 1)
                    (line + 4 + Z.of_nat (List.length (PyStr.split "baz" PyStr.LF)) + 1)).
Proof.
  assert (@EditTool.execute plain_lib world "a.txt" "foo" "baz" ledger
          = (Ok (EditSuccess "a.txt" baz_txt 1 [] a_txt baz_txt),
             os.set_node world "/w/a.txt" (file baz_txt 20 true true),
             <["/w/a.txt" := 20]> ledger)) as Hx by (vm_compute; reflexivity).
  split; [exact Hx |].
  exact (@edit_snippet_of_updated_file plain_lib _ _ _ _ _ _ _ _ _ _ _ _ _ Hx
           ltac:(discriminate)).
Defined.


(** X20 with two responses that ask for a tool. *)
Lemma tool_use_count_counts_runs_witness :
  @OpenAIClient.query text_runtime (answers two_tools_then_done) hello None None
                      (Some echo) 5 env0
  = (Ok {| qr_content := "done"; qr_role := "assistant"; total_tokens := 19;
           qr_tool_use_count := 2; finish_reason := "stop" |},
     @Build_Env text_runtime 3
       [EvIteration 0; EvCall 0; EvTool "read"; EvIteration 1; EvCall 1; EvTool "read";
        EvIteration 2; EvCall 2] 2%nat)
  /\ Z.of_nat (List.length
                 (tool_runs [EvIteration 0; EvCall 0; EvTool "read"; EvIteration 1;
                             EvCall 1; EvTool "read"; EvIteration 2; EvCall 2]))
     = Z.of_nat (List.length (tool_runs (@trace text_runtime env0))) + 2.
Proof.
  assert (@OpenAIClient.query text_runtime (answers two_tools_then_done) hello None None
                              (Some echo) 5 env0
          = (Ok {| qr_content := "done"; qr_role := "assistant"; total_tokens := 19;
                   qr_tool_use_count := 2; finish_reason := "stop" |},
             @Build_Env text_runtime 3
               [EvIteration 0; EvCall 0; EvTool "read"; EvIteration 1; EvCall 1;
                EvTool "read"; EvIteration 2; EvCall 2] 2%nat)) as Hx
    by (vm_compute; reflexivity).
  split; [exact Hx |].
  exact (@tool_use_count_counts_runs text_runtime _ _ _ _ _ _ _ _ _ Hx).
Defined.


(** X24 on the three participants, the second of which raises. *)
Lemma agent_tool_totals_witness :
  (find_agent_by_type [] "general-purpose" = Some general_purpose
   /\ 1 < 3)
  /\ exists answer,
       @AgentTool.execute text_runtime [] participants synthesizer "task"
                          "general-purpose" None (Some echo) 3 = Ok answer
       /\ at_tool_use_count answer = 0
       /\ at_tokens answer = 15.
Proof.
  assert (find_agent_by_type [] "general-purpose" = Some general_purpose) as H1
    by reflexivity.
  assert (1 < 3) as H2 by lia.
  split; [split; assumption |].
  destruct (@agent_tool_totals text_runtime [] participants synthesizer "task"
              "general-purpose" None (Some echo) 3 general_purpose final H1 H2
              ltac:(reflexivity)) as (answer & Hx & Htools & Htokens).
  exists answer. split; [exact Hx |].
  split; [rewrite Htools | rewrite Htokens]; vm_compute; reflexivity.
Defined.

(** X27 with a participant whose model fails, and one whose model
    answers. *)
Lemma agent_tool_single_agent_witness :
  (find_agent_by_type [] "general-purpose" = Some general_purpose /\ 1 <= 1)
  /\ @AgentTool.execute text_runtime [] (fun _ => participants 1%nat) synthesizer "task"
                        "general-purpose" None (Some echo) 1 = Raise server_error
  /\ @AgentTool.execute text_runtime [] participants synthesizer "task"
                        "general-purpose" None (Some echo) 1
     = Ok {| at_content := "done"; at_tool_use_count := 0; at_tokens := usage_of final;
             parallel_agents := Some 1; synthesis := Some false |}.
Proof.
  assert (find_agent_by_type [] "general-purpose" = Some general_purpose) as H1
    by reflexivity.
  assert (1 <= 1) as H2 by lia.
  split; [split; assumption |].
  destruct (@agent_tool_single_agent text_runtime [] (fun _ => participants 1%nat)
              synthesizer "task" "general-purpose" None (Some echo) 1 general_purpose
              H1 H2) as [Hfails _].
  destruct (@agent_tool_single_agent text_runtime [] participants synthesizer "task"
              "general-purpose" None (Some echo) 1 general_purpose H1 H2) as [_ Hanswers].
  split; [exact (Hfails server_error eq_refl eq_refl) |].
  exact (Hanswers final eq_refl eq_refl).
Defined.

(** X29 at [a.txt], second line only. *)
Lemma read_line_count_witness :
  @ReadTool.execute plain_lib world "a.txt" (Some 2) (Some 1) (Some ledger)
  = (Ok (ReadText "a.txt" bar_line 1 2 2), Some (<["/w/a.txt" := 10]> ledger))
  /\ 1%nat = List.length (PyStr.readlines bar_line).
Proof.
  assert (@ReadTool.execute plain_lib world "a.txt" (Some 2) (Some 1) (Some ledger)
          = (Ok (ReadText "a.txt" bar_line 1 2 2), Some (<["/w/a.txt" := 10]> ledger)))
    as Hx by (vm_compute; reflexivity).
  split; [exact Hx |].
  exact (@read_line_count plain_lib _ _ _ _ _ _ _ _ _ _ _ Hx).
Defined.

(** X30 on five lines: cut to two, and "cut" to one. *)
Lemma truncate_output_keeps_ends_witness :
  five_lines <> ""
  /\ snd (truncate_output five_lines 2) = 5
  /\ fst (truncate_output five_lines 2)
     = PyStr.join_with (String PyStr.LF "") ["a"; truncation_marker 3; "e"]
  /\ fst (truncate_output five_lines 1)
     = truncation_marker 4 ++ String PyStr.LF five_lines.
Proof.
  assert (five_lines <> "") as Hne by discriminate.
  split; [exact Hne |].
  destruct (truncate_output_keeps_ends five_lines 2 Hne) as (Htotal & _ & _ & Hcut & _).
  destruct (truncate_output_keeps_ends five_lines 1 Hne) as (_ & _ & _ & _ & Hgrow).
  split; [exact Htotal |].
  split; [exact (proj1 (Hcut ltac:(split; [lia | vm_compute; reflexivity]))) |].
  exact (Hgrow ltac:(lia) ltac:(vm_compute; reflexivity)).
Defined.


End MoreOnTheScenario.

(** ** The definitions on small inputs *)

Example count_ex1 : PyStr.count "foo bar foo" "foo" = 2%nat. Proof. reflexivity. Qed.
Example count_ex2 : PyStr.count "aaa" "aa" = 1%nat. Proof. reflexivity. Qed.
Example count_ex3 : PyStr.count "abc" "" = 4%nat. Proof. reflexivity. Qed.
Example replace_ex1 : PyStr.replace_first "foo
bar
" "foo" "baz" = "baz
bar
". Proof. reflexivity. Qed.
Example nl_ex : PyStr.universal_newlines (String "a" (String PyStr.CR (String PyStr.LF "b")))
               = String "a" (String PyStr.LF "b"). Proof. reflexivity. Qed.
Example readlines_ex : PyStr.readlines "a
b" = ["a
"; "b"]. Proof. reflexivity. Qed.
Example of_nat_ex : PyStr.of_nat 12 = "12". Proof. reflexivity. Qed.
Example endswith_ex : PyStr.endswith "/w/a.ipynb" ".ipynb" = true. Proof. reflexivity. Qed.
Example lower_ex : PyStr.lower "Rate LIMIT" = "rate limit". Proof. reflexivity. Qed.
Example dirname_ex1 : os_path.dirname "/w/src/a.txt" = "/w/src". Proof. reflexivity. Qed.
Example dirname_ex2 : os_path.dirname "/a.txt" = "/". Proof. reflexivity. Qed.
Example dirname_ex3 : os_path.dirname "a.txt" = "". Proof. reflexivity. Qed.
Example splitext_ex1 : os_path.splitext_ext "/w/pic.PNG" = ".PNG". Proof. reflexivity. Qed.
Example splitext_ex2 : os_path.splitext_ext "/w/.bashrc" = "". Proof. reflexivity. Qed.
Example splitext_ex3 : os_path.splitext_ext "/w.d/readme" = "". Proof. reflexivity. Qed.
Example join_ex : os_path.join "/w" "a.txt" = "/w/a.txt". Proof. reflexivity. Qed.
Example replace_all_ex1 : PyStr.replace_all "abc" "" "-" = "-a-b-c-". Proof. reflexivity. Qed.
Example replace_all_ex2 : PyStr.replace_all "aaaa" "aa" "b" = "bb". Proof. reflexivity. Qed.
Example split_ex : PyStr.split "a,b,,c" "," = ["a"; "b"; ""; "c"]. Proof. reflexivity. Qed.
Example split_ex2 : PyStr.split "" "," = [""]. Proof. reflexivity. Qed.

(** The scenario of the specification: [a.txt] holds "foo\nbar\n" and
    has been read; editing "foo" to "baz" leaves "baz\nbar\n". *)
Example edit_foo_to_baz :
  exists snippet start_line diff w',
    @EditTool.execute Scenario.plain_lib Scenario.world "a.txt" "foo" "baz" Scenario.ledger
    = (Ok (EditSuccess "a.txt" snippet start_line diff Scenario.a_txt "baz
bar
"), w', <["/w/a.txt" := 20]> Scenario.ledger)
    /\ nodes w' !! "/w/a.txt" = Some (Scenario.file "baz
bar
" 20 true true).
Proof. do 4 eexists. split; vm_compute; reflexivity. Qed.

(** [count] does not see overlapping occurrences: "aa" starts at two
    positions of "aaa", validation passes, and the leftmost is
    replaced. *)
Example edit_with_overlapping_occurrences :
  PyStr.startswith "aa" (PyStr.drop 0 "aaa") = true
  /\ PyStr.startswith "aa" (PyStr.drop 1 "aaa") = true
  /\ EditTool.validate_input Scenario.more_files "aaa.txt" "aa" "b" Scenario.more_ledger
     = (true, None)
  /\ nodes (snd (fst (@EditTool.execute Scenario.plain_lib Scenario.more_files "aaa.txt"
                       "aa" "b" Scenario.more_ledger))) !! "/w/aaa.txt"
     = Some (Scenario.file "ba" 20 true true).
Proof. repeat split; vm_compute; reflexivity. Qed.

(** A file with Windows line ends comes back from an edit with Unix
    line ends throughout: the text is read in text mode. *)
Example edit_rewrites_line_ends :
  nodes (snd (fst (@EditTool.execute Scenario.plain_lib Scenario.more_files "dos.txt"
                     "foo" "baz" Scenario.more_ledger))) !! "/w/dos.txt"
  = Some (Scenario.file "baz
bar
" 20 true true).
Proof. vm_compute; reflexivity. Qed.

(** A ledger entry of 0 (a file whose modification time is the epoch)
    counts as no entry. *)
Example epoch_timestamp_counts_as_unread :
  Scenario.more_ledger !! "/w/epoch.txt" = Some 0
  /\ os.getmtime Scenario.more_files "/w/epoch.txt" = Ok 0
  /\ EditTool.validate_input Scenario.more_files "epoch.txt" "foo" "baz" Scenario.more_ledger
     = (false, Some Msg.unread)
  /\ @WriteTool.execute Scenario.plain_lib Scenario.more_files "epoch.txt" "text"
                        Scenario.more_ledger
     = (WriteFailure Msg.unread "epoch.txt", Scenario.more_files, Scenario.more_ledger).
Proof. repeat split; vm_compute; reflexivity. Qed.

(** The loop on the scenario: three iterations that all ask for a
    tool end in the sentinel, with the counts summed. *)
Example three_tool_turns :
  @OpenAIClient.query Scenario.text_runtime (answers (fun _ => Scenario.asks_tool))
                      Scenario.hello None None (Some Scenario.echo) 3 Scenario.env0
  = (Ok {| qr_content := "Maximum tool call iterations reached"; qr_role := "assistant";
           total_tokens := 21; qr_tool_use_count := 3; finish_reason := "max_iterations" |},
     @Build_Env Scenario.text_runtime 3
       [EvIteration 0; EvCall 0; EvTool "read"; EvIteration 1; EvCall 1; EvTool "read";
        EvIteration 2; EvCall 2; EvTool "read"] 3%nat).
Proof. vm_compute; reflexivity. Qed.

(** Ten rate-limited attempts: nine sleeps, from 2 to 512 seconds, and
    the tenth exception leaves [query]. *)
Example always_rate_limited :
  @OpenAIClient.query Scenario.text_runtime Scenario.always_throttled Scenario.hello None None
                      (Some Scenario.echo) 3 Scenario.env0
  = (Raise Scenario.rate_limit_text,
     @Build_Env Scenario.text_runtime 10
       ([EvIteration 0] ++ backoff_events 0 0 9 ++ [EvCall 9]) 0%nat)
  /\ backoff_events 0 0 9
     = [EvCall 0; EvSleep 2; EvCall 1; EvSleep 4; EvCall 2; EvSleep 8; EvCall 3; EvSleep 16;
        EvCall 4; EvSleep 32; EvCall 5; EvSleep 64; EvCall 6; EvSleep 128; EvCall 7;
        EvSleep 256; EvCall 8; EvSleep 512].
Proof. split; vm_compute; reflexivity. Qed.

(** An exception that is not rate-limited leaves at the first attempt. *)
Example server_error_is_fatal :
  @OpenAIClient.query Scenario.text_runtime Scenario.broken Scenario.hello None None
                      (Some Scenario.echo) 3 Scenario.env0
  = (Raise Scenario.server_error,
     @Build_Env Scenario.text_runtime 1 [EvIteration 0; EvCall 0] 0%nat).
Proof. vm_compute; reflexivity. Qed.

(** Three agents, one of which fails: three results, and a synthesis. *)
Example three_agents_one_failure :
  map content_of
      (@ParallelExecutor.execute_parallel_tasks Scenario.text_runtime Scenario.participants
         "task" Scenario.general_purpose 3 None (Some Scenario.echo) 10)
  = ["done"; "Agent execution failed: Internal Server Error"; "done"]
  /\ @AgentTool.execute Scenario.text_runtime [] Scenario.participants Scenario.synthesizer
       "task" "general-purpose" None (Some Scenario.echo) 3
     = Ok {| at_content := "done"; at_tool_use_count := 0; at_tokens := 15;
             parallel_agents := Some 3; synthesis := Some true |}.
Proof. split; vm_compute; reflexivity. Qed.

(** [makedirs] makes every missing directory on the way, from the top;
    it fails below a regular file, on a regular file, and where the
    first directory to make may not be made. *)
Example makedirs_makes_the_way :
  os.makedirs Scenario.world "/w/x/y"
  = Ok (os.set_node (os.set_node Scenario.world "/w/x" (os.new_directory Scenario.world))
                    "/w/x/y" (os.new_directory Scenario.world)).
Proof. vm_compute; reflexivity. Qed.

Example makedirs_below_a_file :
  os.makedirs Scenario.world "/w/a.txt/sub/deeper"
  = Raise (os_error "[Errno 20] Not a directory" "/w/a.txt/sub")
  /\ os.makedirs Scenario.world "/w/a.txt"
     = Raise (os_error "[Errno 17] File exists" "/w/a.txt")
  /\ os.makedirs Scenario.locked_world "/w/locked/x/y"
     = Raise (os_error "[Errno 13] Permission denied" "/w/locked/x").
Proof. repeat split; vm_compute; reflexivity. Qed.

(** A write below directories that do not exist yet makes them. *)
Example write_below_new_directories :
  @WriteTool.execute Scenario.plain_lib Scenario.world "x/y/new.txt" "text" ∅
  = (WriteSuccess "x/y/new.txt" "text" Create [],
     os.set_node
       (os.set_node (os.set_node Scenario.world "/w/x" (os.new_directory Scenario.world))
                    "/w/x/y" (os.new_directory Scenario.world))
       "/w/x/y/new.txt" (Scenario.file "text" 20 true true),
     <["/w/x/y/new.txt" := 20]> ∅).
Proof. vm_compute; reflexivity. Qed.

(** The normal spelling of a path. *)
Example canonical_ex :
  os_path.canonical "/w/a.txt" = true /\ os_path.canonical "/" = true
  /\ os_path.canonical (full_path Scenario.world "./a.txt") = false
  /\ os_path.canonical "/w//a.txt" = false /\ os_path.canonical "/w/../w/a.txt" = false
  /\ os_path.canonical "/w/" = false /\ os_path.canonical "//w" = false
  /\ os_path.canonical "a.txt" = false.
Proof. repeat split. Qed.
